(** * Financial-Planner: the projection and risk engine

    A shallow embedding of the four calculators of the repository
    ([src/analyzer.py], [src/simulator.py], [src/tax_calculator.py],
    [src/investment_simulator.py]) and the properties stated about them.

    Numbers.  The Python code computes with [int] and [float].  Here every
    number is an exact rational ([Q]); equality of numbers is [Qeq] ([==]).
    What is proved is therefore the arithmetic the code spells out, without
    the rounding error of binary floating point.  That error can move a
    computed number across a threshold only when the exact number is the
    threshold itself: savings of exactly three months of expenses, a quotient
    of exactly 0.95 before [round(x, 1)], expenses of exactly 90% of the
    income.  There the float falls on one side or the other by the binary
    representation of the operands, and the theorems about graded outcomes
    state what the code reports on either side of a threshold and nothing at
    the threshold.

    Dictionaries.  A Python [dict] keeps its keys in insertion order and
    [items()] walks them in that order, which fixes the order of the sums
    the code takes over a profile; a dictionary is an association list. *)

From Stdlib Require Import QArith Qround Qminmax Lqa ZArith Lia List String Ascii Bool.
Import ListNotations.

Local Open Scope string_scope.
Local Open Scope list_scope.
Local Open Scope Q_scope.

(* ================================================================== *)
(** * Python values, exceptions and dictionaries *)

Module Py.

(** Exceptions the modelled code can raise. *)
Inductive exn : Type :=
| KeyError (key : string)
| TypeError
| ValueError (msg : string)
| IndexError.

(** Outcome of evaluating a Python expression or call. *)
Inductive result (A : Type) : Type :=
| Ok (a : A)
| Raise (e : exn).
Arguments Ok {A} a.
Arguments Raise {A} e.

Definition bind {A B} (r : result A) (k : A -> result B) : result B :=
  match r with
  | Ok a => k a
  | Raise e => Raise e
  end.

Notation "x <- c ;; k" := (bind c (fun x => k))
  (at level 61, c at next level, right associativity).

(** Comparisons on numbers, as booleans. *)
Definition Qltb (x y : Q) : bool := negb (Qle_bool y x).
Definition Qleb (x y : Q) : bool := Qle_bool x y.

Lemma Qltb_lt x y : Qltb x y = true <-> x < y.
Proof.
  unfold Qltb. rewrite negb_true_iff.
  destruct (Qle_bool y x) eqn:E.
  - apply Qle_bool_iff in E. split; [discriminate | intro; lra].
  - split; [intros _ | reflexivity].
    apply Qnot_le_lt. intro H. apply Qle_bool_iff in H. congruence.
Qed.

Lemma Qltb_ge x y : Qltb x y = false <-> y <= x.
Proof.
  unfold Qltb. rewrite negb_false_iff. apply Qle_bool_iff.
Qed.

Lemma Qleb_le x y : Qleb x y = true <-> x <= y.
Proof. apply Qle_bool_iff. Qed.

Lemma Qleb_gt x y : Qleb x y = false <-> y < x.
Proof.
  unfold Qleb. destruct (Qle_bool x y) eqn:E.
  - apply Qle_bool_iff in E. split; [discriminate | intro; lra].
  - split; [intros _ | reflexivity].
    apply Qnot_le_lt. intro H. apply Qle_bool_iff in H. congruence.
Qed.

(** [max(a, b)] and [min(a, b)] of Python: the first argument is kept
    unless the second is strictly larger (smaller). *)
Definition pymax (a b : Q) : Q := if Qltb a b then b else a.
Definition pymin (a b : Q) : Q := if Qltb b a then b else a.

Lemma pymax_spec a b : (a <= b /\ pymax a b == b) \/ (b <= a /\ pymax a b == a).
Proof.
  unfold pymax. destruct (Qltb a b) eqn:E.
  - apply Qltb_lt in E. left. split; [lra | reflexivity].
  - apply Qltb_ge in E. right. split; [lra | reflexivity].
Qed.

Lemma pymin_spec a b : (a <= b /\ pymin a b == a) \/ (b <= a /\ pymin a b == b).
Proof.
  unfold pymin. destruct (Qltb b a) eqn:E.
  - apply Qltb_lt in E. right. split; [lra | reflexivity].
  - apply Qltb_ge in E. left. split; [lra | reflexivity].
Qed.

#[global] Instance pymax_compat : Proper (Qeq ==> Qeq ==> Qeq) pymax.
Proof.
  intros a a' Ha b b' Hb.
  destruct (pymax_spec a b) as [[? ->]|[? ->]],
           (pymax_spec a' b') as [[? ->]|[? ->]]; lra.
Qed.

#[global] Instance pymin_compat : Proper (Qeq ==> Qeq ==> Qeq) pymin.
Proof.
  intros a a' Ha b b' Hb.
  destruct (pymin_spec a b) as [[? ->]|[? ->]],
           (pymin_spec a' b') as [[? ->]|[? ->]]; lra.
Qed.

(** Case analysis on every [pymax] and [pymin] of the goal and context. *)
Ltac name_minmax t spec :=
  let m := fresh "m" in
  pose proof spec; set (m := t) in *; clearbody m.

Ltac minmax :=
  repeat match goal with
  | |- context [pymax ?a ?b] => name_minmax (pymax a b) (pymax_spec a b)
  | |- context [pymin ?a ?b] => name_minmax (pymin a b) (pymin_spec a b)
  | _ : context [pymax ?a ?b] |- _ => name_minmax (pymax a b) (pymax_spec a b)
  | _ : context [pymin ?a ?b] |- _ => name_minmax (pymin a b) (pymin_spec a b)
  end;
  repeat match goal with
  | H : (_ /\ _) \/ (_ /\ _) |- _ => destruct H as [[? ?] | [? ?]]
  end.

(** [round(x)] to the nearest integer, a tie going to the even neighbour. *)
Definition round_half_even (x : Q) : Z :=
  let f := Qfloor x in
  let r := x - inject_Z f in
  if Qltb r (1 # 2) then f
  else if Qltb (1 # 2) r then (f + 1)%Z
  else if Z.even f then f else (f + 1)%Z.

(** [round(x, 1)]: one decimal place.  Python rounds the binary value of the
    float, which lies off the tie unless the tie is a binary fraction (as
    0.25 is): [round(0.95, 1)] is 0.9 and [round(1.05, 1)] is 1.1, the float
    lying below 0.95 and above 1.05.  For ties that are binary fractions, and
    away from ties, this is the value returned; nothing below is stated at a
    tie. *)
Definition round1 (x : Q) : Q := inject_Z (round_half_even (x * 10)) / 10.

(** Python objects a profile can hold, and the profile itself. *)
#[warnings="-register-all"]
Inductive pyobj : Type :=
| PyNone
| PyNum (q : Q)
| PyStr (s : string)
| PyDict (items : list (string * pyobj)).

(** A dictionary with string keys, in insertion order. *)
Definition dict_of (V : Type) : Type := list (string * V).

Definition dict : Type := dict_of pyobj.

(** [bool(x)]: [None], zero, the empty string and the empty dict are false. *)
Definition truthy (x : pyobj) : bool :=
  match x with
  | PyNone => false
  | PyNum q => negb (Qeq_bool q 0)
  | PyStr s => negb (String.eqb s "")
  | PyDict items => match items with [] => false | _ :: _ => true end
  end.

(** [isinstance(x, dict)]. *)
Definition isinstance_dict (x : pyobj) : bool :=
  match x with
  | PyDict _ => true
  | _ => false
  end.

(** [k in d]. *)
Fixpoint contains {V : Type} (d : dict_of V) (k : string) : bool :=
  match d with
  | [] => false
  | (k', _) :: rest => if String.eqb k' k then true else contains rest k
  end.

(** [d.get(k)], [None] of [option] when the key is absent. *)
Fixpoint lookup {V : Type} (d : dict_of V) (k : string) : option V :=
  match d with
  | [] => None
  | (k', v) :: rest => if String.eqb k' k then Some v else lookup rest k
  end.

(** [d[k]]. *)
Definition getitem {V : Type} (d : dict_of V) (k : string) : result V :=
  match lookup d k with
  | Some v => Ok v
  | None => Raise (KeyError k)
  end.

(** [d.get(k, default)]. *)
Definition get {V : Type} (d : dict_of V) (k : string) (default : V) : V :=
  match lookup d k with
  | Some v => v
  | None => default
  end.

(** [d[k] = v]: an existing key keeps its place, a new key goes last. *)
Fixpoint setitem {V : Type} (d : dict_of V) (k : string) (v : V) : dict_of V :=
  match d with
  | [] => [(k, v)]
  | (k', v') :: rest =>
      if String.eqb k' k then (k', v) :: rest else (k', v') :: setitem rest k v
  end.

(** [d.keys()] and [d.values()]. *)
Definition keys {V : Type} (d : dict_of V) : list string := map fst d.
Definition values {V : Type} (d : dict_of V) : list V := map snd d.

(** The operand of an arithmetic operation or an ordering comparison with a
    number: anything that is not a number raises [TypeError]. *)
Definition as_num (x : pyobj) : result Q :=
  match x with
  | PyNum q => Ok q
  | _ => Raise TypeError
  end.

(** [k.startswith(p)]. *)
Fixpoint startswith (p k : string) : bool :=
  match p, k with
  | EmptyString, _ => true
  | String a p', String b k' => if Ascii.eqb a b then startswith p' k' else false
  | String _ _, EmptyString => false
  end.

(** [[v for k, v in profile.items() if k.startswith('expense_')]]. *)
Definition expense_values (profile : dict) : list pyobj :=
  map snd (filter (fun kv => startswith "expense_" (fst kv)) profile).

(** [sum(xs)]: starts from 0 and adds the elements from left to right. *)
Fixpoint sum_from (acc : Q) (xs : list pyobj) : result Q :=
  match xs with
  | [] => Ok acc
  | x :: rest => v <- as_num x ;; sum_from (acc + v) rest
  end.

Definition sum (xs : list pyobj) : result Q := sum_from 0 xs.

(** [sum([v for k, v in profile.items() if k.startswith('expense_')])]. *)
Definition sum_expenses (profile : dict) : result Q := sum (expense_values profile).

(** ** Dictionaries *)

Lemma lookup_setitem_same {V : Type} (d : dict_of V) (k : string) (v : V) :
  lookup (setitem d k v) k = Some v.
Proof.
  induction d as [| [k' v'] rest IH]; cbn.
  - rewrite String.eqb_refl. reflexivity.
  - destruct (String.eqb k' k) eqn:E; cbn; rewrite E; [reflexivity | exact IH].
Qed.

Lemma lookup_setitem_other {V : Type} (d : dict_of V) (k k' : string) (v : V) :
  String.eqb k k' = false -> lookup (setitem d k v) k' = lookup d k'.
Proof.
  intros Hne. induction d as [| [k0 v0] rest IH]; cbn.
  - rewrite Hne. reflexivity.
  - destruct (String.eqb k0 k) eqn:E; cbn.
    + apply String.eqb_eq in E. subst k0. rewrite Hne. reflexivity.
    + rewrite IH. reflexivity.
Qed.

Lemma lookup_app_absent {V : Type} (d1 d2 : dict_of V) (k : string) :
  ~ In k (keys d1) -> lookup (d1 ++ d2) k = lookup d2 k.
Proof.
  induction d1 as [| [k' v'] rest IH]; cbn; intros Hk; [reflexivity |].
  destruct (String.eqb k' k) eqn:E.
  - apply String.eqb_eq in E. tauto.
  - apply IH. tauto.
Qed.

Lemma setitem_app_absent {V : Type} (d1 d2 : dict_of V) (k : string) (v0 v : V) :
  ~ In k (keys d1) ->
  setitem (d1 ++ (k, v0) :: d2) k v = d1 ++ (k, v) :: d2.
Proof.
  induction d1 as [| [k' v'] rest IH]; cbn; intros Hk.
  - rewrite String.eqb_refl. reflexivity.
  - destruct (String.eqb k' k) eqn:E.
    + apply String.eqb_eq in E. tauto.
    + rewrite IH by tauto. reflexivity.
Qed.

Lemma setitem_absent {V : Type} (d : dict_of V) (k : string) (v : V) :
  ~ In k (keys d) -> setitem d k v = d ++ [(k, v)].
Proof.
  induction d as [| [k' v'] rest IH]; cbn; intros Hk; [reflexivity |].
  destruct (String.eqb k' k) eqn:E.
  - apply String.eqb_eq in E. tauto.
  - rewrite IH by tauto. reflexivity.
Qed.

Lemma lookup_contains {V : Type} (d : dict_of V) (k : string) (v : V) :
  lookup d k = Some v -> contains d k = true.
Proof.
  induction d as [| [k' v'] rest IH]; cbn; [discriminate |].
  destruct (String.eqb k' k); [reflexivity | exact IH].
Qed.

Lemma contains_lookup {V : Type} (d : dict_of V) (k : string) :
  contains d k = true -> exists v, lookup d k = Some v.
Proof.
  induction d as [| [k' v'] rest IH]; cbn; [discriminate |].
  destruct (String.eqb k' k); [intros _; eexists; reflexivity | exact IH].
Qed.

Lemma contains_getitem {V : Type} (d : dict_of V) (k : string) :
  contains d k = true -> exists v, getitem d k = Ok v.
Proof.
  intros H. destruct (contains_lookup d k H) as (v & Hv).
  exists v. unfold getitem. rewrite Hv. reflexivity.
Qed.

Lemma expense_values_setitem (d : dict) (k : string) (v : pyobj) :
  startswith "expense_" k = false ->
  expense_values (setitem d k v) = expense_values d.
Proof.
  intros Hk. unfold expense_values.
  induction d as [| [k' v'] rest IH]; cbn [setitem filter fst].
  - rewrite Hk. reflexivity.
  - destruct (String.eqb k' k) eqn:E; cbn [filter fst].
    + apply String.eqb_eq in E. subst k'. rewrite Hk. reflexivity.
    + destruct (startswith "expense_" k'); cbn [map snd]; rewrite IH; reflexivity.
Qed.

(** ** Rounding to one decimal place *)




End Py.

(* ================================================================== *)
(** * [src/tax_calculator.py] *)

Module Tax.
Import Py.

(** Upper end of a bracket: a number or [float('inf')]. *)
Inductive bound : Type :=
| Fin (q : Q)
| Inf.

(** A bracket [(lower, upper, rate)]. *)
Definition bracket : Type := (Q * bound * Q)%type.

(** The [retirement_limits] dictionary of [__init__]; its keys are fixed. *)
Record retirement_limits_t : Type := {
  limit_401k : Q;
  limit_ira : Q;
  catch_up_401k : Q;
  catch_up_ira : Q;
  roth_ira_limit : Q;
  roth_ira_phaseout : Q
}.

(** The attributes of a [TaxCalculator] object. *)
Record TaxCalculator : Type := {
  federal_brackets : list bracket;
  standard_deduction : Q;
  social_security_rate : Q;
  social_security_cap : Q;
  medicare_rate : Q;
  additional_medicare_rate : Q;
  additional_medicare_threshold : Q;
  capital_gains_brackets : list bracket;
  niit_rate : Q;
  niit_threshold : Q;
  state_tax_rate : Q;
  retirement_limits : retirement_limits_t
}.

(** [TaxCalculator()]: the object [__init__] builds (2023, single filer). *)
Definition init : TaxCalculator := {|
  federal_brackets :=
    [ (0, Fin 11000, 10 # 100);
      (11000, Fin 44725, 12 # 100);
      (44725, Fin 95375, 22 # 100);
      (95375, Fin 182100, 24 # 100);
      (182100, Fin 231250, 32 # 100);
      (231250, Fin 578125, 35 # 100);
      (578125, Inf, 37 # 100) ];
  standard_deduction := 13850;
  social_security_rate := 62 # 1000;
  social_security_cap := 160200;
  medicare_rate := 145 # 10000;
  additional_medicare_rate := 9 # 1000;
  additional_medicare_threshold := 200000;
  capital_gains_brackets :=
    [ (0, Fin 44625, 0);
      (44625, Fin 492300, 15 # 100);
      (492300, Inf, 20 # 100) ];
  niit_rate := 38 # 1000;
  niit_threshold := 200000;
  state_tax_rate := 5 # 100;
  retirement_limits := {|
    limit_401k := 22500;
    limit_ira := 6500;
    catch_up_401k := 7500;
    catch_up_ira := 1000;
    roth_ira_limit := 153000;
    roth_ira_phaseout := 228000 |}
|}.

(** [min(taxable_income - lower, upper - lower)]; with [upper] infinite the
    second argument is infinite and the first is returned. *)
Definition bracket_income (taxable_income lower : Q) (upper : bound) : Q :=
  match upper with
  | Fin u => pymin (taxable_income - lower) (u - lower)
  | Inf => taxable_income - lower
  end.

(** The [for lower, upper, rate in self.federal_brackets] loop, with its
    [break], started with [tax] accumulated so far. *)
Fixpoint bracket_loop (brackets : list bracket) (taxable_income tax : Q) : Q :=
  match brackets with
  | [] => tax
  | (lower, upper, rate) :: rest =>
      if Qltb lower taxable_income
      then bracket_loop rest taxable_income
             (tax + bracket_income taxable_income lower upper * rate)
      else tax
  end.

(** [calculate_federal_income_tax(annual_income, deductions=None)]. *)
Definition calculate_federal_income_tax
  (self : TaxCalculator) (annual_income : Q) (deductions : option Q) : Q :=
  let deductions :=
    match deductions with
    | None => standard_deduction self
    | Some d => d
    end in
  let taxable_income := pymax 0 (annual_income - deductions) in
  bracket_loop (federal_brackets self) taxable_income 0.

(** The dictionary [calculate_fica_taxes] returns. *)
Record fica_taxes : Type := {
  social_security : Q;
  medicare : Q;
  total_fica : Q
}.

(** [calculate_fica_taxes(annual_income)]. *)
Definition calculate_fica_taxes (self : TaxCalculator) (annual_income : Q) : fica_taxes :=
  let ss_taxable_income := pymin annual_income (social_security_cap self) in
  let social_security_tax := ss_taxable_income * social_security_rate self in
  let basic_medicare_tax := annual_income * medicare_rate self in
  let additional_medicare_tax :=
    if Qltb (additional_medicare_threshold self) annual_income
    then (annual_income - additional_medicare_threshold self)
         * additional_medicare_rate self
    else 0 in
  let total_medicare_tax := basic_medicare_tax + additional_medicare_tax in
  {| social_security := social_security_tax;
     medicare := total_medicare_tax;
     total_fica := social_security_tax + total_medicare_tax |}.

(** [_check_roth_contribution_limit(annual_income, proposed_contribution)]. *)
Definition _check_roth_contribution_limit
  (self : TaxCalculator) (annual_income proposed_contribution : Q) : Q :=
  let limits := retirement_limits self in
  if Qleb annual_income (roth_ira_limit limits) then
    pymin proposed_contribution (limit_ira limits)
  else if Qltb annual_income (roth_ira_phaseout limits) then
    let phase_out_range := roth_ira_phaseout limits - roth_ira_limit limits in
    let phase_out_percent := (roth_ira_phaseout limits - annual_income) / phase_out_range in
    let allowed := phase_out_percent * limit_ira limits in
    pymin proposed_contribution allowed
  else 0.

(** [s.lower()] on ASCII letters. *)
Definition lower_ascii (c : ascii) : ascii :=
  let n := nat_of_ascii c in
  if (andb (65 <=? n) (n <=? 90))%nat then ascii_of_nat (n + 32) else c.

Fixpoint lower (s : string) : string :=
  match s with
  | EmptyString => EmptyString
  | String c rest => String (lower_ascii c) (lower rest)
  end.

(** The dictionary [calculate_retirement_contribution_tax_savings] returns:
    its keys depend on the account type. *)
Inductive contribution_savings : Type :=
| RothSavings (current_year_tax_savings contribution_allowed : Q)
| TraditionalSavings
    (current_year_tax_savings effective_contribution_cost tax_savings_rate : Q).

Definition current_year_tax_savings (r : contribution_savings) : Q :=
  match r with
  | RothSavings s _ => s
  | TraditionalSavings s _ _ => s
  end.

(** [calculate_retirement_contribution_tax_savings(annual_income,
    contribution, retirement_account_type="traditional")]. *)
Definition calculate_retirement_contribution_tax_savings
  (self : TaxCalculator) (annual_income contribution : Q)
  (retirement_account_type : string) : contribution_savings :=
  if String.eqb (lower retirement_account_type) "roth" then
    RothSavings 0 (_check_roth_contribution_limit self annual_income contribution)
  else
    let tax_without_contribution :=
      calculate_federal_income_tax self annual_income None in
    let tax_with_contribution :=
      calculate_federal_income_tax self (annual_income - contribution) None in
    let tax_savings := tax_without_contribution - tax_with_contribution in
    TraditionalSavings tax_savings (contribution - tax_savings)
      (if Qltb 0 contribution then tax_savings / contribution else 0).

(** None of the three methods above contains a [raise] or an operation that
    can fail on numbers, so a call with numeric arguments always returns; this
    is the outcome a caller observes. *)
Definition call {A : Type} (value : A) : result A := Ok value.

(** ** The marginal computation, as the specification words it *)

(** The part of [taxable_income] that falls within a bracket. *)
Definition income_within (taxable_income lower : Q) (upper : bound) : Q :=
  match upper with
  | Fin u => pymax 0 (pymin taxable_income u - lower)
  | Inf => pymax 0 (taxable_income - lower)
  end.

(** Sum over the brackets of (income within the bracket) x (its rate). *)
Fixpoint marginal_sum (brackets : list bracket) (taxable_income : Q) : Q :=
  match brackets with
  | [] => 0
  | (lower, upper, rate) :: rest =>
      income_within taxable_income lower upper * rate
      + marginal_sum rest taxable_income
  end.

(** Brackets in ascending order from [floor] on: lower ends do not decrease,
    no bracket is empty and no rate is negative. *)
Fixpoint ascending (floor : Q) (brackets : list bracket) : Prop :=
  match brackets with
  | [] => True
  | (lower, upper, rate) :: rest =>
      floor <= lower
      /\ match upper with Fin u => lower <= u | Inf => True end
      /\ 0 <= rate
      /\ ascending lower rest
  end.

(** The value on the straight line through [(x0, y0)] and [(x1, y1)] at [x]. *)
Definition linear_interpolation (x0 y0 x1 y1 x : Q) : Q :=
  y0 + (y1 - y0) * ((x - x0) / (x1 - x0)).

(** ** Facts *)

Lemma income_within_nonneg x lower upper : 0 <= income_within x lower upper.
Proof. destruct upper; unfold income_within; minmax; lra. Qed.

Lemma income_within_mono x y lower upper :
  x <= y -> income_within x lower upper <= income_within y lower upper.
Proof. intros Hxy. destruct upper; unfold income_within; minmax; lra. Qed.

Lemma income_within_below x lower upper :
  x <= lower -> income_within x lower upper == 0.
Proof. intros Hx. destruct upper; unfold income_within; minmax; lra. Qed.

Lemma bracket_income_within x lower upper :
  lower < x ->
  match upper with Fin u => lower <= u | Inf => True end ->
  bracket_income x lower upper == income_within x lower upper.
Proof.
  intros Hx Hu. destruct upper; unfold bracket_income, income_within; minmax; lra.
Qed.

Lemma marginal_sum_below brackets : forall floor x,
  ascending floor brackets -> x <= floor -> marginal_sum brackets x == 0.
Proof.
  induction brackets as [| [[lower upper] rate] rest IH]; intros floor x Hasc Hx.
  - reflexivity.
  - simpl in *. destruct Hasc as (Hlo & _ & _ & Hrest).
    rewrite (IH lower x Hrest) by lra.
    rewrite income_within_below by lra. lra.
Qed.

Lemma bracket_loop_marginal brackets : forall floor x tax,
  ascending floor brackets ->
  bracket_loop brackets x tax == tax + marginal_sum brackets x.
Proof.
  induction brackets as [| [[lower upper] rate] rest IH]; intros floor x tax Hasc.
  - simpl. lra.
  - simpl in *. destruct Hasc as (Hlo & Hup & Hrate & Hrest).
    destruct (Qltb lower x) eqn:E.
    + apply Qltb_lt in E. rewrite (IH lower) by exact Hrest.
      rewrite bracket_income_within by assumption. lra.
    + apply Qltb_ge in E.
      rewrite (marginal_sum_below rest lower x Hrest E).
      rewrite income_within_below by exact E. lra.
Qed.

Lemma marginal_sum_nonneg brackets : forall floor x,
  ascending floor brackets -> 0 <= marginal_sum brackets x.
Proof.
  induction brackets as [| [[lower upper] rate] rest IH]; intros floor x Hasc.
  - simpl. lra.
  - simpl in *. destruct Hasc as (_ & _ & Hrate & Hrest).
    pose proof (IH lower x Hrest).
    pose proof (income_within_nonneg x lower upper). nra.
Qed.

Lemma marginal_sum_mono brackets : forall floor x y,
  ascending floor brackets -> x <= y ->
  marginal_sum brackets x <= marginal_sum brackets y.
Proof.
  induction brackets as [| [[lower upper] rate] rest IH]; intros floor x y Hasc Hxy.
  - simpl. lra.
  - simpl in *. destruct Hasc as (_ & _ & Hrate & Hrest).
    pose proof (IH lower x y Hrest Hxy).
    pose proof (income_within_mono x y lower upper Hxy). nra.
Qed.

Lemma federal_brackets_ascending : ascending 0 (federal_brackets init).
Proof. simpl. repeat split; try lra; apply Qle_bool_iff; reflexivity. Qed.

(** The deduction [calculate_federal_income_tax] subtracts. *)
Definition deduction_used (self : TaxCalculator) (deductions : option Q) : Q :=
  match deductions with
  | None => standard_deduction self
  | Some d => d
  end.

Lemma federal_tax_marginal annual_income deductions :
  calculate_federal_income_tax init annual_income deductions
  == marginal_sum (federal_brackets init)
       (pymax 0 (annual_income - deduction_used init deductions)).
Proof.
  unfold calculate_federal_income_tax.
  rewrite (bracket_loop_marginal _ 0) by exact federal_brackets_ascending.
  rewrite Qplus_0_l. destruct deductions; reflexivity.
Qed.

Lemma federal_tax_nonneg annual_income deductions :
  0 <= calculate_federal_income_tax init annual_income deductions.
Proof.
  rewrite federal_tax_marginal.
  apply (marginal_sum_nonneg _ 0), federal_brackets_ascending.
Qed.

Lemma federal_tax_mono i1 i2 deductions :
  i1 <= i2 ->
  calculate_federal_income_tax init i1 deductions
  <= calculate_federal_income_tax init i2 deductions.
Proof.
  intros H. rewrite !federal_tax_marginal.
  apply (marginal_sum_mono _ 0); [exact federal_brackets_ascending |].
  minmax; lra.
Qed.

Lemma federal_tax_zero annual_income deductions :
  annual_income <= deduction_used init deductions ->
  calculate_federal_income_tax init annual_income deductions == 0.
Proof.
  intros H. rewrite federal_tax_marginal.
  apply (marginal_sum_below _ 0); [exact federal_brackets_ascending |].
  minmax; lra.
Qed.

(** C4: for every nonnegative income the federal income tax is the sum, over
    the ascending brackets, of the income falling within the bracket times the
    bracket's rate, taken on max(0, income - deduction) with the standard
    deduction when none is supplied; on a taxable income of exactly 11000 (no
    deduction) the tax is exactly 1100, and no later bracket holds any of that
    income. *)
Theorem federal_tax_is_marginal_sum (annual_income : Q) (deductions : option Q) :
  0 <= annual_income ->
  calculate_federal_income_tax init annual_income deductions
  == marginal_sum (federal_brackets init)
       (pymax 0 (annual_income - match deductions with
                                 | None => 13850
                                 | Some d => d
                                 end))
  /\ calculate_federal_income_tax init 11000 (Some 0) == 1100
  /\ (forall lower upper rate,
        In (lower, upper, rate) (tl (federal_brackets init)) ->
        income_within 11000 lower upper == 0).
Proof.
  intros _. split; [| split].
  - rewrite federal_tax_marginal. destruct deductions; reflexivity.
  - vm_compute. reflexivity.
  - intros lower upper rate Hin. simpl in Hin.
    repeat (destruct Hin as [Hin | Hin];
            [injection Hin as <- <- <-; vm_compute; reflexivity |]).
    contradiction.
Qed.

Lemma federal_tax_is_marginal_sum_witness :
  0 <= 11000
  /\ calculate_federal_income_tax init 11000 (Some 0)
     == marginal_sum (federal_brackets init) (pymax 0 (11000 - 0)).
Proof.
  split; [lra |].
  apply (federal_tax_is_marginal_sum 11000 (Some 0)). lra.
Defined.

(** C9: for incomes 0 <= i1 <= i2 and a fixed nonnegative deduction (or the
    standard one) the federal tax satisfies 0 <= tax(i1) <= tax(i2); and the
    tax saving of a traditional retirement contribution in [0, income],
    federalTax(income) - federalTax(income - contribution), is never
    negative. *)
Theorem federal_tax_nonneg_monotone
  (i1 i2 : Q) (deductions : option Q) (income contribution : Q) :
  0 <= i1 -> i1 <= i2 ->
  match deductions with Some d => 0 <= d | None => True end ->
  0 <= contribution -> contribution <= income ->
  (0 <= calculate_federal_income_tax init i1 deductions
   /\ calculate_federal_income_tax init i1 deductions
      <= calculate_federal_income_tax init i2 deductions)
  /\ current_year_tax_savings
       (calculate_retirement_contribution_tax_savings init income contribution
          "traditional")
     == calculate_federal_income_tax init income None
        - calculate_federal_income_tax init (income - contribution) None
  /\ 0 <= current_year_tax_savings
            (calculate_retirement_contribution_tax_savings init income
               contribution "traditional").
Proof.
  intros _ H12 _ Hc _. split; [split | split].
  - apply federal_tax_nonneg.
  - apply federal_tax_mono, H12.
  - simpl. reflexivity.
  - simpl.
    pose proof (federal_tax_mono (income - contribution) income None).
    lra.
Qed.

Lemma federal_tax_nonneg_monotone_witness :
  0 <= 30000 /\ 30000 <= 60000 /\ 0 <= 5000 /\ 5000 <= 60000
  /\ 0 <= calculate_federal_income_tax init 30000 None
  /\ calculate_federal_income_tax init 30000 None
     <= calculate_federal_income_tax init 60000 None
  /\ 0 <= current_year_tax_savings
            (calculate_retirement_contribution_tax_savings init 60000 5000
               "traditional").
Proof.
  assert (H1 : 0 <= 30000) by lra.
  assert (H2 : 30000 <= 60000) by lra.
  assert (H3 : 0 <= 5000) by lra.
  assert (H4 : 5000 <= 60000) by lra.
  destruct (federal_tax_nonneg_monotone 30000 60000 None 60000 5000 H1 H2 I H3 H4)
    as [[Ha Hb] [_ Hc]].
  repeat split; assumption.
Defined.

(** The cap on a Roth contribution as the specification words it: the full
    IRA limit up to the income limit, nothing from the phase-out ceiling on,
    and the straight line between the two in between. *)
Definition roth_cap (self : TaxCalculator) (annual_income : Q) : Q :=
  let limits := retirement_limits self in
  if Qleb annual_income (roth_ira_limit limits) then limit_ira limits
  else if Qltb annual_income (roth_ira_phaseout limits) then
    linear_interpolation (roth_ira_limit limits) (limit_ira limits)
                         (roth_ira_phaseout limits) 0 annual_income
  else 0.

Lemma roth_phase_out_range annual_income proposed_contribution :
  153000 < annual_income -> annual_income < 228000 ->
  _check_roth_contribution_limit init annual_income proposed_contribution
  == pymin proposed_contribution
       (linear_interpolation 153000 6500 228000 0 annual_income).
Proof.
  intros Hlo Hhi. unfold _check_roth_contribution_limit. cbn -[Qleb Qltb pymin].
  destruct (Qleb annual_income 153000) eqn:E1.
  { apply Qleb_le in E1. lra. }
  destruct (Qltb annual_income 228000) eqn:E2.
  2:{ apply Qltb_ge in E2. lra. }
  apply pymin_compat; [reflexivity |].
  unfold linear_interpolation. field.
Qed.

(** C5: the allowed Roth contribution is piecewise linear in income: at an
    income of exactly 153000 the full contribution is allowed, capped at the
    IRA limit 6500; at exactly 228000 nothing is allowed; at the midpoint of
    the two the cap is exactly half the IRA limit; between the two bounds the
    cap is the linear interpolation; the returned amount is
    min(proposed contribution, cap). *)
Theorem roth_contribution_phase_out (annual_income proposed_contribution : Q) :
  _check_roth_contribution_limit init 153000 proposed_contribution
  == pymin proposed_contribution 6500
  /\ _check_roth_contribution_limit init 228000 proposed_contribution == 0
  /\ _check_roth_contribution_limit init ((153000 + 228000) / 2) proposed_contribution
     == pymin proposed_contribution (6500 / 2)
  /\ (153000 <= annual_income -> annual_income < 228000 ->
      _check_roth_contribution_limit init annual_income proposed_contribution
      == pymin proposed_contribution
           (linear_interpolation 153000 6500 228000 0 annual_income))
  /\ (annual_income < 228000 ->
      _check_roth_contribution_limit init annual_income proposed_contribution
      == pymin proposed_contribution (roth_cap init annual_income))
  /\ (228000 <= annual_income ->
      _check_roth_contribution_limit init annual_income proposed_contribution == 0
      /\ roth_cap init annual_income == 0).
Proof.
  split; [reflexivity |].
  split; [reflexivity |].
  split.
  { rewrite roth_phase_out_range by (vm_compute; reflexivity).
    apply pymin_compat; [reflexivity | vm_compute; reflexivity]. }
  split.
  { intros Hlo Hhi. destruct (Qlt_le_dec 153000 annual_income) as [Hin | Hat].
    - apply roth_phase_out_range; assumption.
    - assert (Heq : annual_income == 153000) by lra.
      unfold _check_roth_contribution_limit. cbn -[Qleb Qltb pymin].
      destruct (Qleb annual_income 153000) eqn:E1.
      2:{ apply Qleb_gt in E1. lra. }
      apply pymin_compat; [reflexivity |].
      unfold linear_interpolation. rewrite Heq. vm_compute. reflexivity. }
  split.
  { intros Hhi. unfold _check_roth_contribution_limit, roth_cap.
    cbn -[Qleb Qltb pymin linear_interpolation].
    destruct (Qleb annual_income 153000) eqn:E1; [reflexivity |].
    destruct (Qltb annual_income 228000) eqn:E2.
    2:{ apply Qltb_ge in E2. lra. }
    apply pymin_compat; [reflexivity |].
    unfold linear_interpolation. field. }
  intros Hhi. unfold _check_roth_contribution_limit, roth_cap.
  cbn -[Qleb Qltb pymin linear_interpolation].
  destruct (Qleb annual_income 153000) eqn:E1.
  { apply Qleb_le in E1. lra. }
  destruct (Qltb annual_income 228000) eqn:E2.
  { apply Qltb_lt in E2. lra. }
  split; reflexivity.
Qed.

Lemma roth_contribution_phase_out_witness :
  153000 <= 170000 /\ 170000 < 228000
  /\ _check_roth_contribution_limit init 170000 6500
     == pymin 6500 (linear_interpolation 153000 6500 228000 0 170000).
Proof.
  split; [lra |]. split; [lra |].
  apply (roth_contribution_phase_out 170000 6500); lra.
Defined.

(** ** Negative inputs *)

(** A call is rejected when it raises instead of returning. *)
Definition rejected {A : Type} (outcome : result A) : Prop :=
  exists e, outcome = Raise e.

(** The requirement as written: a negative income, or a negative contribution,
    makes each entry point raise. *)
Definition rejects_negative_inputs (annual_income contribution : Q) : Prop :=
  (annual_income < 0 ->
     rejected (call (calculate_federal_income_tax init annual_income None))
     /\ rejected (call (calculate_fica_taxes init annual_income)))
  /\ (annual_income < 0 \/ contribution < 0 ->
      rejected (call (calculate_retirement_contribution_tax_savings init
                        annual_income contribution "traditional"))).

(** C2, refuted: with an income of -1000 and a contribution of -500 no entry
    point raises; the federal tax returned is 0 and the social security tax
    returned is -62. *)
Lemma negative_inputs_not_rejected :
  ~ rejects_negative_inputs (-1000) (-500)
  /\ calculate_federal_income_tax init (-1000) None == 0
  /\ social_security (calculate_fica_taxes init (-1000)) == -62.
Proof.
  split; [| split; vm_compute; reflexivity].
  intros [H _]. destruct H as [[e He] _]; [reflexivity | discriminate He].
Qed.

(** C2, amended: the entry points perform no validation and return a number
    for negative inputs too.  For a negative income the federal income tax is
    0 (the taxable income is floored at 0) and FICA is income x 6.2% social
    security plus income x 1.45% Medicare, both negative; for a negative
    contribution the traditional tax saving is
    federalTax(income) - federalTax(income - contribution), which is then not
    positive. *)
Theorem negative_inputs_return_numbers
  (annual_income any_income contribution : Q) (deductions : option Q) :
  annual_income < 0 ->
  contribution < 0 ->
  match deductions with Some d => 0 <= d | None => True end ->
  (exists tax,
     call (calculate_federal_income_tax init annual_income deductions) = Ok tax
     /\ tax == 0)
  /\ (exists fica,
       call (calculate_fica_taxes init annual_income) = Ok fica
       /\ social_security fica == annual_income * (62 # 1000)
       /\ medicare fica == annual_income * (145 # 10000)
       /\ total_fica fica < 0)
  /\ (exists savings,
       call (calculate_retirement_contribution_tax_savings init any_income
               contribution "traditional") = Ok savings
       /\ current_year_tax_savings savings
          == calculate_federal_income_tax init any_income None
             - calculate_federal_income_tax init (any_income - contribution) None
       /\ current_year_tax_savings savings <= 0).
Proof.
  intros Hneg Hc Hd. split; [| split].
  - eexists. split; [reflexivity |].
    apply federal_tax_zero. destruct deductions; simpl; lra.
  - eexists. split; [reflexivity |].
    unfold calculate_fica_taxes. cbn -[Qltb pymin Qmult Qplus].
    destruct (Qltb 200000 annual_income) eqn:E.
    { apply Qltb_lt in E. lra. }
    minmax; lra.
  - eexists. split; [reflexivity |]. simpl. split; [reflexivity |].
    pose proof (federal_tax_mono any_income (any_income - contribution) None).
    lra.
Qed.

Lemma negative_inputs_return_numbers_witness :
  -1000 < 0 /\ -500 < 0
  /\ exists tax,
       call (calculate_federal_income_tax init (-1000) None) = Ok tax /\ tax == 0.
Proof.
  assert (H1 : -1000 < 0) by lra.
  assert (H2 : -500 < 0) by lra.
  split; [exact H1 |]. split; [exact H2 |].
  exact (proj1 (negative_inputs_return_numbers (-1000) 40000 (-500) None H1 H2 I)).
Defined.

(* ------------------------------------------------------------------ *)
(** ** The other methods of [TaxCalculator] *)

(** [set_state_tax_rate(rate)]: the object with [state_tax_rate] replaced. *)
Definition set_state_tax_rate (self : TaxCalculator) (rate : Q) : TaxCalculator := {|
  federal_brackets := federal_brackets self;
  standard_deduction := standard_deduction self;
  social_security_rate := social_security_rate self;
  social_security_cap := social_security_cap self;
  medicare_rate := medicare_rate self;
  additional_medicare_rate := additional_medicare_rate self;
  additional_medicare_threshold := additional_medicare_threshold self;
  capital_gains_brackets := capital_gains_brackets self;
  niit_rate := niit_rate self;
  niit_threshold := niit_threshold self;
  state_tax_rate := rate;
  retirement_limits := retirement_limits self
|}.

(** The [for lower, upper, rate in self.capital_gains_brackets] loop, with
    its [break], started with the rate found so far. *)
Fixpoint rate_loop (brackets : list bracket) (annual_income applicable_rate : Q) : Q :=
  match brackets with
  | [] => applicable_rate
  | (lower, upper, rate) :: rest =>
      if Qltb lower annual_income
      then rate_loop rest annual_income rate
      else applicable_rate
  end.

(** [calculate_capital_gains_tax(capital_gains, annual_income)]. *)
Definition calculate_capital_gains_tax
  (self : TaxCalculator) (capital_gains annual_income : Q) : Q :=
  let applicable_rate := rate_loop (capital_gains_brackets self) annual_income 0 in
  let capital_gains_tax := capital_gains * applicable_rate in
  let niit :=
    if Qltb (niit_threshold self) annual_income
    then capital_gains * niit_rate self
    else 0 in
  capital_gains_tax + niit.

(** [calculate_state_income_tax(annual_income, deductions=0)]. *)
Definition calculate_state_income_tax
  (self : TaxCalculator) (annual_income deductions : Q) : Q :=
  let taxable_income := pymax 0 (annual_income - deductions) in
  taxable_income * state_tax_rate self.

(** The dictionary [calculate_tax_impact_on_investments] returns. *)
Record tax_impact : Type := {
  taxable_amount : Q;
  tax_due : Q;
  effective_tax_rate : Q;
  after_tax_value : Q
}.

(** [calculate_tax_impact_on_investments(investment_growth, dividend_income,
    annual_income, is_retirement_account=False)]. *)
Definition calculate_tax_impact_on_investments
  (self : TaxCalculator) (investment_growth dividend_income annual_income : Q)
  (is_retirement_account : bool) : tax_impact :=
  if is_retirement_account then
    {| taxable_amount := 0;
       tax_due := 0;
       effective_tax_rate := 0;
       after_tax_value := investment_growth + dividend_income |}
  else
    let taxable_dividends := dividend_income in
    let capital_gains_tax :=
      calculate_capital_gains_tax self investment_growth annual_income in
    let dividend_tax :=
      calculate_capital_gains_tax self taxable_dividends annual_income in
    let total_tax := capital_gains_tax + dividend_tax in
    let total_gain := investment_growth + dividend_income in
    let effective_tax_rate :=
      if Qltb 0 total_gain then total_tax / total_gain else 0 in
    {| taxable_amount := total_gain;
       tax_due := total_tax;
       effective_tax_rate := effective_tax_rate;
       after_tax_value := total_gain - total_tax |}.

(** The dictionary [calculate_monthly_take_home_pay] returns. *)
Record take_home : Type := {
  annual_gross_income : Q;
  pretax_deductions : Q;
  federal_income_tax : Q;
  social_security_tax : Q;
  medicare_tax : Q;
  state_income_tax : Q;
  total_tax : Q;
  take_home_effective_tax_rate : Q;   (* key [effective_tax_rate] *)
  annual_take_home : Q;
  monthly_take_home : Q
}.

(** [calculate_monthly_take_home_pay(annual_income, retirement_contribution=0,
    other_pretax_deductions=0)]. *)
Definition calculate_monthly_take_home_pay
  (self : TaxCalculator)
  (annual_income retirement_contribution other_pretax_deductions : Q) : take_home :=
  let pretax_deductions := retirement_contribution + other_pretax_deductions in
  let taxable_income := annual_income - pretax_deductions in
  let federal_tax := calculate_federal_income_tax self taxable_income None in
  let fica_taxes := calculate_fica_taxes self annual_income in
  let state_tax := calculate_state_income_tax self taxable_income 0 in
  let annual_take_home :=
    annual_income - federal_tax - total_fica fica_taxes - state_tax
    - pretax_deductions in
  let monthly_take_home := annual_take_home / 12 in
  let total_tax := federal_tax + total_fica fica_taxes + state_tax in
  let effective_tax_rate :=
    if Qltb 0 annual_income then total_tax / annual_income else 0 in
  {| annual_gross_income := annual_income;
     pretax_deductions := pretax_deductions;
     federal_income_tax := federal_tax;
     social_security_tax := social_security fica_taxes;
     medicare_tax := medicare fica_taxes;
     state_income_tax := state_tax;
     total_tax := total_tax;
     take_home_effective_tax_rate := effective_tax_rate;
     annual_take_home := annual_take_home;
     monthly_take_home := monthly_take_home |}.

(** One row of the data frame [simulate_tax_impact_on_financial_path]
    returns. *)
Record tax_year : Type := {
  year : nat;
  year_annual_income : Q;            (* column [annual_income] *)
  retirement_contribution : Q;
  federal_tax : Q;
  fica_tax : Q;
  state_tax : Q;
  take_home_pay : Q;
  taxable_investment_value : Q;
  tax_advantaged_value : Q;
  taxes_on_investments : Q;
  total_net_worth : Q
}.

(** The [for year in range(1, years + 1)] loop: [count] years from [year]
    on, with the running income and the two account balances. *)
Fixpoint years_loop
  (self : TaxCalculator)
  (yearly_income_growth retirement_contribution_percent investment_return_rate : Q)
  (count year : nat) (current_income taxable_investment tax_advantaged : Q)
  : list tax_year :=
  match count with
  | O => []
  | S count' =>
      let retirement_contribution := current_income * retirement_contribution_percent in
      let take_home_details :=
        calculate_monthly_take_home_pay self current_income retirement_contribution 0 in
      let annual_savings := annual_take_home take_home_details * (2 # 10) in
      let taxable_investment_contribution := annual_savings * (5 # 10) in
      let taxable_investment_growth := taxable_investment * investment_return_rate in
      let dividend_income := taxable_investment * (2 # 100) in
      let impact :=
        calculate_tax_impact_on_investments self
          (taxable_investment_growth - dividend_income) dividend_income
          current_income false in
      let taxable_investment :=
        taxable_investment + taxable_investment_growth
        + taxable_investment_contribution - tax_due impact in
      let tax_advantaged_growth := tax_advantaged * investment_return_rate in
      let tax_advantaged :=
        tax_advantaged + tax_advantaged_growth + retirement_contribution in
      {| year := year;
         year_annual_income := current_income;
         retirement_contribution := retirement_contribution;
         federal_tax := federal_income_tax take_home_details;
         fica_tax := social_security_tax take_home_details
                     + medicare_tax take_home_details;
         state_tax := state_income_tax take_home_details;
         take_home_pay := annual_take_home take_home_details;
         taxable_investment_value := taxable_investment;
         tax_advantaged_value := tax_advantaged;
         taxes_on_investments := tax_due impact;
         total_net_worth := taxable_investment + tax_advantaged |}
      :: years_loop self yearly_income_growth retirement_contribution_percent
           investment_return_rate count' (S year)
           (current_income * (1 + yearly_income_growth))
           taxable_investment tax_advantaged
  end.

(** [simulate_tax_impact_on_financial_path(annual_income,
    yearly_income_growth=0.03, retirement_contribution_percent=0.05, years=5,
    investment_return_rate=0.07, initial_investment=0)]. *)
Definition simulate_tax_impact_on_financial_path
  (self : TaxCalculator)
  (annual_income yearly_income_growth retirement_contribution_percent : Q)
  (years : nat) (investment_return_rate initial_investment : Q) : list tax_year :=
  years_loop self yearly_income_growth retirement_contribution_percent
    investment_return_rate years 1 annual_income initial_investment 0.

(* ------------------------------------------------------------------ *)
(** ** Marginal rates *)

(** Total income falling within the brackets, rates left out. *)
Fixpoint cover (brackets : list bracket) (taxable_income : Q) : Q :=
  match brackets with
  | [] => 0
  | (lower, upper, _) :: rest =>
      income_within taxable_income lower upper + cover rest taxable_income
  end.

(** Brackets that follow one another without gap or overlap from [floor] on,
    the last one unbounded. *)
Fixpoint contiguous (floor : Q) (brackets : list bracket) : Prop :=
  match brackets with
  | [] => False
  | (lower, upper, _) :: rest =>
      lower == floor
      /\ match upper with
         | Fin u => lower <= u /\ contiguous u rest
         | Inf => rest = []
         end
  end.

(** Every rate lies between [lo] and [hi]. *)
Fixpoint rates_within (lo hi : Q) (brackets : list bracket) : Prop :=
  match brackets with
  | [] => True
  | (_, _, rate) :: rest => lo <= rate /\ rate <= hi /\ rates_within lo hi rest
  end.

Lemma cover_contiguous brackets : forall floor x,
  contiguous floor brackets -> cover brackets x == pymax 0 (x - floor).
Proof.
  induction brackets as [| [[lower upper] rate] rest IH]; intros floor x Hc.
  - destruct Hc.
  - cbn [contiguous] in Hc. destruct Hc as (Hl & Hu). cbn [cover].
    destruct upper as [u |].
    + destruct Hu as (Hlu & Hrest). rewrite (IH u x Hrest).
      unfold income_within. minmax; lra.
    + subst rest. cbn [cover]. unfold income_within. minmax; lra.
Qed.

Lemma marginal_sum_between brackets : forall lo hi x y,
  rates_within lo hi brackets -> x <= y ->
  lo * (cover brackets y - cover brackets x)
  <= marginal_sum brackets y - marginal_sum brackets x
  /\ marginal_sum brackets y - marginal_sum brackets x
     <= hi * (cover brackets y - cover brackets x).
Proof.
  induction brackets as [| [[lower upper] rate] rest IH]; intros lo hi x y Hr Hxy.
  - cbn. lra.
  - cbn [rates_within] in Hr. destruct Hr as (Hlo & Hhi & Hrest).
    destruct (IH lo hi x y Hrest Hxy) as (IHlo & IHhi).
    cbn [marginal_sum cover].
    pose proof (income_within_mono x y lower upper Hxy) as Hmono.
    set (wx := income_within x lower upper) in *.
    set (wy := income_within y lower upper) in *.
    clearbody wx wy.
    assert (H1 : 0 <= (rate - lo) * (wy - wx))
      by (apply Qmult_le_0_compat; lra).
    assert (H2 : 0 <= (hi - rate) * (wy - wx))
      by (apply Qmult_le_0_compat; lra).
    split; lra.
Qed.

Lemma federal_brackets_contiguous : contiguous 0 (federal_brackets init).
Proof.
  cbn. repeat split; try reflexivity; apply Qle_bool_iff; reflexivity.
Qed.

Lemma federal_rates_within :
  rates_within (10 # 100) (37 # 100) (federal_brackets init).
Proof. cbn. repeat split; apply Qle_bool_iff; reflexivity. Qed.

(** The taxable income [calculate_federal_income_tax] works on. *)
Definition taxable (annual_income : Q) (deductions : option Q) : Q :=
  pymax 0 (annual_income - deduction_used init deductions).

(** Between two incomes the federal tax rises by at least 10% and at most 37%
    of the rise in taxable income. *)
Lemma federal_tax_slope (x y : Q) (deductions : option Q) :
  x <= y ->
  (10 # 100) * (taxable y deductions - taxable x deductions)
  <= calculate_federal_income_tax init y deductions
     - calculate_federal_income_tax init x deductions
  /\ calculate_federal_income_tax init y deductions
     - calculate_federal_income_tax init x deductions
     <= (37 # 100) * (taxable y deductions - taxable x deductions).
Proof.
  intros Hxy. rewrite !federal_tax_marginal. fold (taxable x deductions).
  fold (taxable y deductions).
  assert (Ht : taxable x deductions <= taxable y deductions)
    by (unfold taxable; minmax; lra).
  assert (H0x : 0 <= taxable x deductions) by (unfold taxable; minmax; lra).
  assert (H0y : 0 <= taxable y deductions) by (unfold taxable; minmax; lra).
  destruct (marginal_sum_between (federal_brackets init) (10 # 100) (37 # 100)
              (taxable x deductions) (taxable y deductions)
              federal_rates_within Ht) as (Hlo & Hhi).
  rewrite !(cover_contiguous _ 0 _ federal_brackets_contiguous) in Hlo, Hhi.
  set (tx := taxable x deductions) in *. set (ty := taxable y deductions) in *.
  clearbody tx ty.
  assert (Ex : pymax 0 (tx - 0) == tx) by (minmax; lra).
  assert (Ey : pymax 0 (ty - 0) == ty) by (minmax; lra).
  rewrite Ex, Ey in Hlo, Hhi. split; assumption.
Qed.

Lemma taxable_slope (x y : Q) (deductions : option Q) :
  x <= y ->
  0 <= taxable y deductions - taxable x deductions
  /\ taxable y deductions - taxable x deductions <= y - x.
Proof. intros Hxy. unfold taxable. minmax; lra. Qed.

(** Between two incomes the federal tax never rises by more than 37% of the
    difference. *)
Lemma federal_tax_rise (x y : Q) (deductions : option Q) :
  x <= y ->
  calculate_federal_income_tax init y deductions
  - calculate_federal_income_tax init x deductions
  <= (37 # 100) * (y - x).
Proof.
  intros Hxy.
  pose proof (federal_tax_slope x y deductions Hxy) as (_ & Hs).
  pose proof (taxable_slope x y deductions Hxy) as (Ht0 & Ht1).
  lra.
Qed.

(** X1: the federal tax is at least 10% and at most 37% of the taxable income
    max(0, income - deduction), and between two incomes it never rises by
    more than 37% of the difference. *)
Theorem federal_tax_rate_bounds (x y : Q) (deductions : option Q) :
  x <= y ->
  (10 # 100) * pymax 0 (y - deduction_used init deductions)
  <= calculate_federal_income_tax init y deductions
  /\ calculate_federal_income_tax init y deductions
     <= (37 # 100) * pymax 0 (y - deduction_used init deductions)
  /\ calculate_federal_income_tax init y deductions
     - calculate_federal_income_tax init x deductions
     <= (37 # 100) * (y - x).
Proof.
  intros Hxy.
  destruct (Qlt_le_dec y (deduction_used init deductions)) as [Hlow | Hhigh].
  - (* no taxable income at [y], nor at [x] *)
    rewrite (federal_tax_zero y deductions) by lra.
    rewrite (federal_tax_zero x deductions) by lra.
    minmax; lra.
  - pose proof (federal_tax_slope (deduction_used init deductions) y deductions Hhigh)
      as (Hlo & Hhi).
    rewrite (federal_tax_zero (deduction_used init deductions) deductions) in Hlo, Hhi
      by lra.
    assert (E0 : taxable (deduction_used init deductions) deductions == 0)
      by (unfold taxable; minmax; lra).
    rewrite E0 in Hlo, Hhi. fold (taxable y deductions).
    pose proof (federal_tax_slope x y deductions Hxy) as (_ & Hs).
    pose proof (taxable_slope x y deductions Hxy) as (Ht0 & Ht1).
    repeat split; lra.
Qed.

Lemma federal_tax_rate_bounds_witness :
  30000 <= 60000
  /\ calculate_federal_income_tax init 60000 None
     - calculate_federal_income_tax init 30000 None
     <= (37 # 100) * (60000 - 30000).
Proof.
  assert (H : 30000 <= 60000) by lra.
  split; [exact H |].
  apply (federal_tax_rate_bounds 30000 60000 None H).
Defined.

(* ------------------------------------------------------------------ *)
(** ** Capital gains *)

(** The rate the code applies to a gain, surtax included, by income. *)
Definition gains_rate (annual_income : Q) : Q :=
  if Qleb annual_income 44625 then 0
  else if Qleb annual_income 200000 then 15 # 100
  else if Qleb annual_income 492300 then 188 # 1000
  else 238 # 1000.

Ltac by_cases :=
  repeat match goal with
  | |- context [Qltb ?a ?b] =>
      let E := fresh "E" in
      destruct (Qltb a b) eqn:E; [apply Qltb_lt in E | apply Qltb_ge in E]
  | |- context [Qleb ?a ?b] =>
      let E := fresh "E" in
      destruct (Qleb a b) eqn:E; [apply Qleb_le in E | apply Qleb_gt in E]
  end.

Lemma gains_rate_range annual_income :
  0 <= gains_rate annual_income /\ gains_rate annual_income <= 238 # 1000.
Proof. unfold gains_rate. by_cases; split; lra. Qed.

Lemma capital_gains_rate (gains annual_income : Q) :
  calculate_capital_gains_tax init gains annual_income
  == gains * gains_rate annual_income.
Proof.
  unfold calculate_capital_gains_tax, gains_rate.
  cbn [capital_gains_brackets niit_threshold niit_rate init rate_loop].
  by_cases; try lra; ring.
Qed.

(** X2: the capital gains tax is one flat rate times the whole gain: 0% up to
    an income of 44625, 15% up to 200000, 18.8% (15% plus the 3.8% surtax) up
    to 492300 and 23.8% above; so it is additive in the gain, and a loss
    gives a negative tax. *)
Theorem capital_gains_flat_rate (capital_gains other_gains annual_income : Q) :
  calculate_capital_gains_tax init capital_gains annual_income
  == capital_gains * gains_rate annual_income
  /\ calculate_capital_gains_tax init (capital_gains + other_gains) annual_income
     == calculate_capital_gains_tax init capital_gains annual_income
        + calculate_capital_gains_tax init other_gains annual_income
  /\ calculate_capital_gains_tax init (- capital_gains) annual_income
     == - calculate_capital_gains_tax init capital_gains annual_income.
Proof.
  assert (Hflat : forall gains,
            calculate_capital_gains_tax init gains annual_income
            == gains * gains_rate annual_income).
  { intros gains. unfold calculate_capital_gains_tax, gains_rate.
    cbn [capital_gains_brackets niit_threshold niit_rate init rate_loop].
    by_cases; try lra; ring. }
  rewrite !Hflat. repeat split; ring.
Qed.

(** X3: on a taxable account the tax due is the flat capital gains rate
    applied to growth plus dividends, the after-tax value is what is left,
    and when that total is positive the effective rate reported is that flat
    rate, between 0 and 23.8%; on a retirement account nothing is due. *)
Theorem investment_tax_impact
  (investment_growth dividend_income annual_income : Q) :
  let taxed :=
    calculate_tax_impact_on_investments init investment_growth dividend_income
      annual_income false in
  let sheltered :=
    calculate_tax_impact_on_investments init investment_growth dividend_income
      annual_income true in
  tax_due taxed
  == (investment_growth + dividend_income) * gains_rate annual_income
  /\ after_tax_value taxed
     == (investment_growth + dividend_income) * (1 - gains_rate annual_income)
  /\ (0 < investment_growth + dividend_income ->
      effective_tax_rate taxed == gains_rate annual_income)
  /\ (investment_growth + dividend_income <= 0 -> effective_tax_rate taxed == 0)
  /\ 0 <= effective_tax_rate taxed
  /\ effective_tax_rate taxed <= 238 # 1000
  /\ tax_due sheltered == 0
  /\ after_tax_value sheltered == investment_growth + dividend_income.
Proof.
  cbv zeta. unfold calculate_tax_impact_on_investments.
  cbn [tax_due after_tax_value effective_tax_rate].
  pose proof (capital_gains_rate investment_growth annual_income) as Hg.
  pose proof (capital_gains_rate dividend_income annual_income) as Hd.
  pose proof (gains_rate_range annual_income) as (Hr0 & Hr1).
  set (rate := gains_rate annual_income) in *.
  set (total := investment_growth + dividend_income).
  assert (Htax : calculate_capital_gains_tax init investment_growth annual_income
                 + calculate_capital_gains_tax init dividend_income annual_income
                 == total * rate).
  { rewrite Hg, Hd. unfold total. ring. }
  assert (Hrate : 0 < total ->
            (calculate_capital_gains_tax init investment_growth annual_income
             + calculate_capital_gains_tax init dividend_income annual_income)
            / total == rate).
  { intros Hpos. rewrite Htax. field. lra. }
  split; [exact Htax |].
  split; [rewrite Htax; ring |].
  destruct (Qltb 0 total) eqn:E; [apply Qltb_lt in E | apply Qltb_ge in E].
  - rewrite (Hrate E). repeat split; intros; lra.
  - repeat split; intros; lra.
Qed.

(* ------------------------------------------------------------------ *)
(** ** FICA *)

(** FICA never falls when income rises, nor rises by more than 8.55% of the
    rise. *)
Lemma fica_rise (x y : Q) :
  x <= y ->
  total_fica (calculate_fica_taxes init x)
  <= total_fica (calculate_fica_taxes init y)
  /\ total_fica (calculate_fica_taxes init y)
     - total_fica (calculate_fica_taxes init x)
     <= (855 # 10000) * (y - x).
Proof.
  intros H. unfold calculate_fica_taxes.
  cbn [social_security medicare total_fica social_security_cap
       social_security_rate medicare_rate additional_medicare_rate
       additional_medicare_threshold init].
  by_cases; minmax; split; lra.
Qed.

(** X4: the social security tax never exceeds 9932.40 (6.2% of the cap
    160200); up to the cap FICA is 7.65% of a nonnegative income; from 200000
    on the Medicare tax is 2.35% of the income less 1800, so the surtax falls
    on the excess only; and FICA never rises by more than 8.55% of a rise in
    income, nor falls when income rises. *)
Theorem fica_schedule (x y : Q) :
  social_security (calculate_fica_taxes init y) <= 99324 # 10
  /\ (y <= 160200 ->
      total_fica (calculate_fica_taxes init y) == y * (765 # 10000))
  /\ (200000 <= y ->
      medicare (calculate_fica_taxes init y) == y * (235 # 10000) - 1800)
  /\ (x <= y ->
      total_fica (calculate_fica_taxes init x)
      <= total_fica (calculate_fica_taxes init y)
      /\ total_fica (calculate_fica_taxes init y)
         - total_fica (calculate_fica_taxes init x)
         <= (855 # 10000) * (y - x)).
Proof.
  unfold calculate_fica_taxes.
  cbn [social_security medicare total_fica social_security_cap
       social_security_rate medicare_rate additional_medicare_rate
       additional_medicare_threshold init].
  split; [minmax; lra |].
  split; [intros H; by_cases; minmax; lra |].
  split; [intros H; by_cases; lra |].
  intros H. by_cases; minmax; split; lra.
Qed.

Lemma fica_schedule_witness :
  150000 <= 250000
  /\ total_fica (calculate_fica_taxes init 150000)
     <= total_fica (calculate_fica_taxes init 250000).
Proof.
  assert (H : 150000 <= 250000) by lra.
  split; [exact H |].
  apply (fica_schedule 150000 250000). exact H.
Defined.

Lemma investment_tax_impact_witness :
  0 < 3000 + 1000
  /\ effective_tax_rate
       (calculate_tax_impact_on_investments init 3000 1000 250000 false)
     == gains_rate 250000.
Proof.
  assert (H : 0 < 3000 + 1000) by lra.
  split; [exact H |].
  destruct (investment_tax_impact 3000 1000 250000) as (_ & _ & Hrate & _).
  exact (Hrate H).
Defined.

(* ------------------------------------------------------------------ *)
(** ** Take-home pay *)

(** X5: for every calculator and every input the take-home breakdown adds up:
    take-home pay, total tax and pre-tax deductions make up the gross income;
    the total tax is the sum of its four parts; the monthly figure is a
    twelfth of the annual one; and the effective rate is 0, not a division by
    zero, when the income is not positive. *)
Theorem take_home_adds_up
  (self : TaxCalculator)
  (annual_income retirement_contribution other_pretax_deductions : Q) :
  let pay :=
    calculate_monthly_take_home_pay self annual_income retirement_contribution
      other_pretax_deductions in
  annual_take_home pay + total_tax pay + pretax_deductions pay
  == annual_gross_income pay
  /\ annual_gross_income pay = annual_income
  /\ total_tax pay
     == federal_income_tax pay + social_security_tax pay + medicare_tax pay
        + state_income_tax pay
  /\ monthly_take_home pay * 12 == annual_take_home pay
  /\ (annual_income <= 0 -> take_home_effective_tax_rate pay = 0)
  /\ (0 < annual_income ->
      take_home_effective_tax_rate pay * annual_income == total_tax pay).
Proof.
  cbv zeta. unfold calculate_monthly_take_home_pay.
  cbn [annual_take_home total_tax pretax_deductions annual_gross_income
       federal_income_tax social_security_tax medicare_tax state_income_tax
       monthly_take_home take_home_effective_tax_rate].
  split; [ring |]. split; [reflexivity |].
  split; [unfold calculate_fica_taxes; cbn [total_fica social_security medicare]; ring |].
  split; [field |].
  split.
  - intros H. apply Qltb_ge in H. rewrite H. reflexivity.
  - intros H. pose proof H as Hb. apply Qltb_lt in Hb. rewrite Hb. field. lra.
Qed.

Lemma take_home_adds_up_witness :
  0 < 75000
  /\ take_home_effective_tax_rate (calculate_monthly_take_home_pay init 75000 7500 0)
     * 75000
     == total_tax (calculate_monthly_take_home_pay init 75000 7500 0).
Proof.
  assert (H : 0 < 75000) by lra.
  split; [exact H |].
  destruct (take_home_adds_up init 75000 7500 0) as (_ & _ & _ & _ & _ & Hrate).
  exact (Hrate H).
Defined.

(** X6: with the pre-tax deductions fixed and a state rate between 0 and 50%,
    a higher gross income never gives a lower take-home pay: of each extra
    unit earned at most 37% federal, 8.55% FICA and the state rate are taken. *)
Theorem take_home_increases_with_income
  (rate x y retirement_contribution other_pretax_deductions : Q) :
  0 <= rate -> rate <= 1 # 2 -> x <= y ->
  let self := set_state_tax_rate init rate in
  annual_take_home
    (calculate_monthly_take_home_pay self x retirement_contribution
       other_pretax_deductions)
  <= annual_take_home
       (calculate_monthly_take_home_pay self y retirement_contribution
          other_pretax_deductions)
  /\ total_tax (calculate_monthly_take_home_pay self y retirement_contribution
                  other_pretax_deductions)
     - total_tax (calculate_monthly_take_home_pay self x retirement_contribution
                    other_pretax_deductions)
     <= ((4555 # 10000) + rate) * (y - x).
Proof.
  intros Hr0 Hr1 Hxy self.
  unfold calculate_monthly_take_home_pay. cbn [annual_take_home total_tax].
  set (p := retirement_contribution + other_pretax_deductions).
  change (calculate_federal_income_tax self (x - p) None)
    with (calculate_federal_income_tax init (x - p) None).
  change (calculate_federal_income_tax self (y - p) None)
    with (calculate_federal_income_tax init (y - p) None).
  change (calculate_fica_taxes self x) with (calculate_fica_taxes init x).
  change (calculate_fica_taxes self y) with (calculate_fica_taxes init y).
  assert (Hp : x - p <= y - p) by lra.
  pose proof (federal_tax_rise (x - p) (y - p) None Hp) as Hfed.
  pose proof (federal_tax_mono (x - p) (y - p) None Hp) as Hfed0.
  destruct (fica_rise x y Hxy) as (Hfica0 & Hfica1).
  unfold calculate_state_income_tax. cbn [state_tax_rate self set_state_tax_rate].
  assert (Hstate : pymax 0 (y - p - 0) * rate - pymax 0 (x - p - 0) * rate
                   <= rate * (y - x)
                   /\ 0 <= pymax 0 (y - p - 0) * rate - pymax 0 (x - p - 0) * rate).
  { assert (Hd : 0 <= pymax 0 (y - p - 0) - pymax 0 (x - p - 0)
                 /\ pymax 0 (y - p - 0) - pymax 0 (x - p - 0) <= y - x)
      by (minmax; lra).
    destruct Hd as (Hd0 & Hd1).
    set (d := pymax 0 (y - p - 0) - pymax 0 (x - p - 0)) in *.
    assert (E : pymax 0 (y - p - 0) * rate - pymax 0 (x - p - 0) * rate == rate * d)
      by (unfold d; ring).
    rewrite E.
    assert (0 <= rate * d) by (apply Qmult_le_0_compat; lra).
    assert (0 <= rate * (y - x - d)) by (apply Qmult_le_0_compat; lra).
    split; lra. }
  destruct Hstate as (Hs1 & Hs0).
  assert (Hgap : 0 <= ((1 # 2) - rate) * (y - x))
    by (apply Qmult_le_0_compat; lra).
  split; lra.
Qed.

Lemma take_home_increases_with_income_witness :
  0 <= 5 # 100 /\ 5 # 100 <= 1 # 2 /\ 60000 <= 90000
  /\ annual_take_home
       (calculate_monthly_take_home_pay (set_state_tax_rate init (5 # 100))
          60000 3000 0)
     <= annual_take_home
          (calculate_monthly_take_home_pay (set_state_tax_rate init (5 # 100))
             90000 3000 0).
Proof.
  assert (H1 : 0 <= 5 # 100) by lra.
  assert (H2 : 5 # 100 <= 1 # 2) by lra.
  assert (H3 : 60000 <= 90000) by lra.
  split; [exact H1 |]. split; [exact H2 |]. split; [exact H3 |].
  exact (proj1 (take_home_increases_with_income (5 # 100) 60000 90000 3000 0
                  H1 H2 H3)).
Defined.

(* ------------------------------------------------------------------ *)
(** ** Retirement contributions *)

(** X7: for a nonnegative contribution to a traditional account the tax saved
    lies between 0 and 37% of the contribution, so the contribution costs at
    least 63% of its amount, and the savings rate reported lies between 0 and
    37%. *)
Theorem traditional_savings_bounds (annual_income contribution : Q) :
  0 <= contribution ->
  match calculate_retirement_contribution_tax_savings init annual_income
          contribution "traditional" with
  | TraditionalSavings saved cost rate =>
      0 <= saved /\ saved <= (37 # 100) * contribution
      /\ cost == contribution - saved
      /\ (63 # 100) * contribution <= cost
      /\ 0 <= rate /\ rate <= 37 # 100
  | RothSavings _ _ => False
  end.
Proof.
  intros Hc. cbn [calculate_retirement_contribution_tax_savings lower String.eqb
                  lower_ascii].
  change (String.eqb (lower "traditional") "roth") with false. cbv iota.
  assert (Hle : annual_income - contribution <= annual_income) by lra.
  pose proof (federal_tax_rise (annual_income - contribution) annual_income
                None Hle) as Hup.
  pose proof (federal_tax_mono (annual_income - contribution) annual_income None Hle)
    as Hlow.
  split; [lra |]. split; [lra |]. split; [reflexivity |].
  split; [lra |].
  destruct (Qltb 0 contribution) eqn:E; [apply Qltb_lt in E | split; lra].
  split.
  - apply Qle_shift_div_l; [exact E | lra].
  - apply Qle_shift_div_r; [exact E | lra].
Qed.

Lemma traditional_savings_bounds_witness :
  0 <= 5000
  /\ match calculate_retirement_contribution_tax_savings init 60000 5000
             "traditional" with
     | TraditionalSavings saved _ _ => 0 <= saved /\ saved <= (37 # 100) * 5000
     | RothSavings _ _ => False
     end.
Proof.
  assert (H : 0 <= 5000) by lra.
  split; [exact H |].
  pose proof (traditional_savings_bounds 60000 5000 H) as Hb.
  destruct (calculate_retirement_contribution_tax_savings init 60000 5000
              "traditional"); [exact Hb |].
  destruct Hb as (H0 & H1 & _). split; assumption.
Defined.

(** X8: for a nonnegative proposed contribution the Roth amount allowed is
    between 0 and min(proposed, 6500), and it never rises with income; an
    account type that spells "roth" in any mix of upper and lower case takes
    the Roth branch, which reports no tax saved this year. *)
Theorem roth_allowed_bounds
  (income higher_income proposed : Q) (account_type : string) :
  0 <= proposed ->
  income <= higher_income ->
  lower account_type = "roth" ->
  0 <= _check_roth_contribution_limit init income proposed
  /\ _check_roth_contribution_limit init income proposed <= proposed
  /\ _check_roth_contribution_limit init income proposed <= 6500
  /\ _check_roth_contribution_limit init higher_income proposed
     <= _check_roth_contribution_limit init income proposed
  /\ calculate_retirement_contribution_tax_savings init income proposed account_type
     = RothSavings 0 (_check_roth_contribution_limit init income proposed).
Proof.
  intros Hp Hinc Hroth.
  assert (Hform : forall i,
            (i <= 153000 /\ _check_roth_contribution_limit init i proposed
                            == pymin proposed 6500)
            \/ (153000 < i /\ i < 228000
                /\ _check_roth_contribution_limit init i proposed
                   == pymin proposed ((228000 - i) / 75000 * 6500))
            \/ (228000 <= i /\ _check_roth_contribution_limit init i proposed == 0)).
  { intros i. unfold _check_roth_contribution_limit.
    cbn [retirement_limits roth_ira_limit roth_ira_phaseout limit_ira init].
    destruct (Qleb i 153000) eqn:E1; [apply Qleb_le in E1 | apply Qleb_gt in E1].
    - left. split; [exact E1 | reflexivity].
    - destruct (Qltb i 228000) eqn:E2; [apply Qltb_lt in E2 | apply Qltb_ge in E2].
      + right. left. split; [exact E1 |]. split; [exact E2 |].
        apply pymin_compat; [reflexivity | field].
      + right. right. split; [exact E2 | reflexivity]. }
  assert (Hdiv : forall i, (228000 - i) / 75000 * 6500 == (228000 - i) * (13 # 150))
    by (intros i; field).
  split; [| split; [| split; [| split]]].
  - destruct (Hform income) as [(H1 & ->) | [(H1 & H2 & ->) | (H1 & ->)]];
      try rewrite Hdiv; minmax; lra.
  - destruct (Hform income) as [(H1 & ->) | [(H1 & H2 & ->) | (H1 & ->)]];
      try rewrite Hdiv; minmax; lra.
  - destruct (Hform income) as [(H1 & ->) | [(H1 & H2 & ->) | (H1 & ->)]];
      try rewrite Hdiv; minmax; lra.
  - destruct (Hform income) as [(H1 & ->) | [(H1 & H2 & ->) | (H1 & ->)]];
      destruct (Hform higher_income) as [(H3 & ->) | [(H3 & H4 & ->) | (H3 & ->)]];
      try rewrite !Hdiv; minmax; lra.
  - unfold calculate_retirement_contribution_tax_savings. rewrite Hroth.
    reflexivity.
Qed.

Lemma roth_allowed_bounds_witness :
  0 <= 6000 /\ 160000 <= 200000 /\ lower "RoTH" = "roth"
  /\ _check_roth_contribution_limit init 200000 6000
     <= _check_roth_contribution_limit init 160000 6000.
Proof.
  assert (H1 : 0 <= 6000) by lra.
  assert (H2 : 160000 <= 200000) by lra.
  assert (H3 : lower "RoTH" = "roth") by reflexivity.
  split; [exact H1 |]. split; [exact H2 |]. split; [exact H3 |].
  destruct (roth_allowed_bounds 160000 200000 6000 "RoTH" H1 H2 H3)
    as (_ & _ & _ & Hmono & _).
  exact Hmono.
Defined.

(* ------------------------------------------------------------------ *)
(** ** The multi-year projection *)

(** [a] to the power [k]. *)
Fixpoint pow (a : Q) (k : nat) : Q :=
  match k with
  | O => 1
  | S k' => a * pow a k'
  end.

Lemma years_loop_length self g pct rr : forall count y0 income ti ta,
  List.length (years_loop self g pct rr count y0 income ti ta) = count.
Proof.
  induction count as [| count IH]; intros y0 income ti ta; cbn [years_loop];
    [reflexivity |].
  cbn [List.length]. rewrite IH. reflexivity.
Qed.

Lemma years_loop_row self g pct rr : forall count y0 income ti ta k r,
  nth_error (years_loop self g pct rr count y0 income ti ta) k = Some r ->
  year r = (y0 + k)%nat
  /\ year_annual_income r == income * pow (1 + g) k
  /\ retirement_contribution r = year_annual_income r * pct
  /\ take_home_pay r + federal_tax r + fica_tax r + state_tax r
     + retirement_contribution r == year_annual_income r
  /\ total_net_worth r = taxable_investment_value r + tax_advantaged_value r.
Proof.
  induction count as [| count IH]; intros y0 income ti ta k r Hk.
  - destruct k; discriminate Hk.
  - cbn [years_loop] in Hk. destruct k as [| k].
    + cbn [nth_error] in Hk. injection Hk as <-.
      cbn [year year_annual_income retirement_contribution take_home_pay
           federal_tax fica_tax state_tax total_net_worth
           taxable_investment_value tax_advantaged_value pow].
      split; [lia |]. split; [ring |]. split; [reflexivity |].
      split; [| reflexivity].
      unfold calculate_monthly_take_home_pay.
      cbn [annual_take_home federal_income_tax social_security_tax medicare_tax
           state_income_tax].
      unfold calculate_fica_taxes. cbn [total_fica social_security medicare]. ring.
    + cbn [nth_error] in Hk.
      destruct (IH _ _ _ _ _ _ Hk) as (Hy & Hi & Hrest).
      split; [lia |]. split; [| exact Hrest].
      rewrite Hi. cbn [pow]. ring.
Qed.

Lemma years_loop_advantaged self g pct rr : forall count y0 income ti ta k r,
  nth_error (years_loop self g pct rr count y0 income ti ta) k = Some r ->
  match k with
  | O => tax_advantaged_value r = ta + ta * rr + retirement_contribution r
  | S k' =>
      exists before,
        nth_error (years_loop self g pct rr count y0 income ti ta) k' = Some before
        /\ tax_advantaged_value r
           = tax_advantaged_value before + tax_advantaged_value before * rr
             + retirement_contribution r
  end.
Proof.
  induction count as [| count IH]; intros y0 income ti ta k r Hk.
  - destruct k; discriminate Hk.
  - cbn [years_loop] in Hk |- *. destruct k as [| k].
    + cbn [nth_error] in Hk. injection Hk as <-. reflexivity.
    + cbn [nth_error] in Hk. pose proof (IH _ _ _ _ _ _ Hk) as Hrec.
      destruct k as [| k].
      * eexists. split; [reflexivity |]. cbn [tax_advantaged_value]. exact Hrec.
      * destruct Hrec as (before & Hb & Hv). exists before. split; [| exact Hv].
        cbn [nth_error]. exact Hb.
Qed.

(** X9: the projection has one row per year, numbered from 1; the income of
    year k+1 is the starting income times (1 + growth)^k; each year the
    retirement contribution is the stated share of that income, the income is
    split exactly among take-home pay, federal, FICA and state tax and the
    contribution, and the net worth is the sum of the two accounts; the
    tax-advantaged account grows by the return rate and receives the whole
    contribution, untaxed. *)
Theorem tax_projection_rows
  (self : TaxCalculator)
  (annual_income yearly_income_growth retirement_contribution_percent : Q)
  (years : nat) (investment_return_rate initial_investment : Q) :
  let rows :=
    simulate_tax_impact_on_financial_path self annual_income yearly_income_growth
      retirement_contribution_percent years investment_return_rate
      initial_investment in
  List.length rows = years
  /\ forall k r,
       nth_error rows k = Some r ->
       year r = S k
       /\ year_annual_income r == annual_income * pow (1 + yearly_income_growth) k
       /\ retirement_contribution r
          = year_annual_income r * retirement_contribution_percent
       /\ take_home_pay r + federal_tax r + fica_tax r + state_tax r
          + retirement_contribution r == year_annual_income r
       /\ total_net_worth r = taxable_investment_value r + tax_advantaged_value r
       /\ match k with
          | O => tax_advantaged_value r == retirement_contribution r
          | S k' =>
              exists before,
                nth_error rows k' = Some before
                /\ tax_advantaged_value r
                   == tax_advantaged_value before * (1 + investment_return_rate)
                      + retirement_contribution r
          end.
Proof.
  cbv zeta. unfold simulate_tax_impact_on_financial_path.
  split; [apply years_loop_length |].
  intros k r Hk.
  destruct (years_loop_row _ _ _ _ _ _ _ _ _ _ _ Hk) as (Hy & Hi & Hc & Hsplit & Hnw).
  pose proof (years_loop_advantaged _ _ _ _ _ _ _ _ _ _ _ Hk) as Hadv.
  split; [exact Hy |]. split; [exact Hi |]. split; [exact Hc |].
  split; [exact Hsplit |]. split; [exact Hnw |].
  destruct k as [| k].
  - rewrite Hadv. ring.
  - destruct Hadv as (before & Hb & Hv). exists before. split; [exact Hb |].
    rewrite Hv. ring.
Qed.

Lemma tax_projection_rows_witness :
  exists r,
    nth_error (simulate_tax_impact_on_financial_path init 75000 (3 # 100)
                 (10 # 100) 3 (7 # 100) 50000) 2 = Some r
    /\ year r = 3%nat
    /\ year_annual_income r == 75000 * pow (1 + (3 # 100)) 2.
Proof.
  destruct (nth_error (simulate_tax_impact_on_financial_path init 75000 (3 # 100)
                         (10 # 100) 3 (7 # 100) 50000) 2) as [r |] eqn:Hr.
  - exists r. split; [reflexivity |].
    destruct (tax_projection_rows init 75000 (3 # 100) (10 # 100) 3 (7 # 100) 50000)
      as (_ & Hrows).
    destruct (Hrows 2%nat r Hr) as (Hy & Hi & _).
    split; assumption.
  - exfalso. apply nth_error_None in Hr.
    rewrite (proj1 (tax_projection_rows init 75000 (3 # 100) (10 # 100) 3 (7 # 100)
                      50000)) in Hr.
    lia.
Defined.

End Tax.

(* ================================================================== *)
(** * [src/analyzer.py] *)

Module Analyzer.
Import Py.

(** A piece of an f-string: literal text, or a formatted value. *)
Inductive piece : Type :=
| Lit (text : string)
| Fmt (value : Q)          (* {value} *)
| Fmt1f (value : Q)        (* {value:.1f} *)
| FmtObj (value : pyobj).  (* {value} of an arbitrary object *)

(** The dictionary a detector returns. *)
Record issue_t : Type := {
  issue : string;
  severity : string;
  details : list piece;
  recommendation : string
}.

(** The dictionary [analyze_profile] returns. *)
Record analysis : Type := {
  financial_health : string;
  issues : list issue_t;
  action_plan : list string
}.

Definition _check_emergency_fund (profile : dict) : result (option issue_t) :=
  monthly_expenses <- sum_expenses profile ;;
  let current_savings := get profile "current_savings" (PyNum 0) in
  let min_recommended := monthly_expenses * 3 in
  current_savings <- as_num current_savings ;;
  if Qltb current_savings min_recommended then
    let months_saved :=
      if Qltb 0 monthly_expenses
      then round1 (current_savings / monthly_expenses)
      else 0 in
    Ok (Some {|
      issue := "Insufficient emergency fund";
      severity := if Qltb months_saved 1 then "high" else "medium";
      details := [Lit "Current savings cover only "; Fmt months_saved;
                  Lit " months of expenses instead of recommended 3-6 months"];
      recommendation := "Increase monthly savings allocation until emergency fund reaches 3-6 months of expenses"
    |})
  else Ok None.

Definition _check_debt_to_income (profile : dict) : result (option issue_t) :=
  let monthly_income := get profile "monthly_income" (PyNum 0) in
  let debt_payments := get profile "expense_debt_payments" (PyNum 0) in
  monthly_income <- as_num monthly_income ;;
  if Qltb 0 monthly_income then
    debt_payments <- as_num debt_payments ;;
    let dti_ratio := (debt_payments / monthly_income) * 100 in
    if Qltb 36 dti_ratio then
      Ok (Some {|
        issue := "High debt-to-income ratio";
        severity := if Qltb 50 dti_ratio then "high" else "medium";
        details := [Lit "Debt payments consume "; Fmt1f dti_ratio;
                    Lit "% of income (recommended: <36%)"];
        recommendation := "Focus on paying down high-interest debt and avoid taking on new debt"
      |})
    else Ok None
  else Ok None.

(** [x == 0] for an arbitrary object: no exception, false off the numbers. *)
Definition eq_zero (x : pyobj) : bool :=
  match x with
  | PyNum q => Qeq_bool q 0
  | _ => false
  end.

Definition _check_expense_ratio (profile : dict) : result (option issue_t) :=
  monthly_expenses <- sum_expenses profile ;;
  let monthly_income := get profile "monthly_income" (PyNum 0) in
  if eq_zero monthly_income then
    Ok (Some {|
      issue := "Missing income information";
      severity := "high";
      details := [Lit "No monthly income data provided"];
      recommendation := "Ensure accurate monthly income is entered to assess financial health"
    |})
  else
    monthly_income <- as_num monthly_income ;;
    let expense_ratio := (monthly_expenses / monthly_income) * 100 in
    if Qltb 90 expense_ratio then
      Ok (Some {|
        issue := "Excessive expenses";
        severity := "high";
        details := [Lit "Expenses consume "; Fmt1f expense_ratio;
                    Lit "% of income, leaving little room for savings"];
        recommendation := "Review budget to identify areas for reduction, especially discretionary spending"
      |})
    else if Qltb 80 expense_ratio then
      Ok (Some {|
        issue := "High expenses";
        severity := "medium";
        details := [Lit "Expenses consume "; Fmt1f expense_ratio; Lit "% of income"];
        recommendation := "Consider the 50/30/20 rule: 50% needs, 30% wants, 20% savings/debt repayment"
      |})
    else Ok None.

Definition _check_savings_rate (profile : dict) : result (option issue_t) :=
  monthly_income <- getitem profile "monthly_income" ;;
  monthly_savings <-
    (if contains profile "monthly_savings" then getitem profile "monthly_savings"
     else
       monthly_expenses <- sum_expenses profile ;;
       income <- as_num monthly_income ;;
       Ok (PyNum (income - monthly_expenses))) ;;
  income <- as_num monthly_income ;;
  savings_rate <-
    (if Qltb 0 income then
       savings <- as_num monthly_savings ;;
       Ok ((savings / income) * 100)
     else Ok 0) ;;
  if Qltb savings_rate 10 then
    Ok (Some {|
      issue := "Low savings rate";
      severity := if Qltb 0 savings_rate then "medium" else "high";
      details := [Lit "Current savings rate is "; Fmt1f savings_rate;
                  Lit "% (recommended: at least 15-20%)"];
      recommendation := "Aim to increase savings rate by reducing discretionary spending"
    |})
  else Ok None.

(** [x != "None"] for an arbitrary object. *)
Definition ne_str (x : pyobj) (s : string) : bool :=
  match x with
  | PyStr t => negb (String.eqb t s)
  | _ => true
  end.

Definition _check_high_interest_debt (profile : dict) : result (option issue_t) :=
  let primary_debt_type := get profile "primary_debt_type" (PyStr "None") in
  let primary_debt_apr := get profile "primary_debt_apr" (PyNum 0) in
  if ne_str primary_debt_type "None" then
    apr <- as_num primary_debt_apr ;;
    if Qltb 10 apr then
      Ok (Some {|
        issue := "High-interest debt";
        severity := if Qltb 20 apr then "high" else "medium";
        details := [Lit "Your "; FmtObj primary_debt_type;
                    Lit " has a high APR of "; Fmt apr; Lit "%"];
        recommendation := "Prioritize paying off high-interest debt before focusing on other financial goals"
      |})
    else Ok None
  else Ok None.

(** [self.issue_detectors], in the order [__init__] lists them. *)
Definition issue_detectors : list (dict -> result (option issue_t)) :=
  [ _check_emergency_fund;
    _check_debt_to_income;
    _check_expense_ratio;
    _check_savings_rate;
    _check_high_interest_debt ].

(** The [for detector in self.issue_detectors] loop: the first exception
    ends it. *)
Fixpoint run_detectors
  (detectors : list (dict -> result (option issue_t))) (profile : dict)
  (issues : list issue_t) : result (list issue_t) :=
  match detectors with
  | [] => Ok issues
  | detector :: rest =>
      found <- detector profile ;;
      match found with
      | Some i => run_detectors rest profile (issues ++ [i])
      | None => run_detectors rest profile issues
      end
  end.

(** The result returned for an input that is empty or not a dictionary. *)
Definition invalid_profile_result : analysis := {|
  financial_health := "Poor";
  issues := [ {|
    issue := "Invalid Profile Data";
    severity := "high";
    details := [Lit "Unable to analyze profile due to missing or invalid data"];
    recommendation := "Re-enter financial data and verify all inputs are correct"
  |} ];
  action_plan := ["Re-enter financial data"; "Verify all inputs are correct"]
|}.

Definition with_severity (s : string) (found : list issue_t) : list issue_t :=
  filter (fun i => String.eqb (severity i) s) found.

(** The items of an object known to be a dictionary. *)
Definition items_of (x : pyobj) : dict :=
  match x with
  | PyDict items => items
  | _ => []
  end.

Definition analyze_profile (profile : pyobj) : result analysis :=
  if negb (truthy profile) || negb (isinstance_dict profile) then
    Ok invalid_profile_result
  else
    found <- run_detectors issue_detectors (items_of profile) [] ;;
    let health :=
      if (List.length found =? 0)%nat then "Excellent"
      else if (0 <? List.length (with_severity "high" found))%nat then "Poor"
      else if (List.length found <=? 2)%nat then "Good"
      else "Fair" in
    let high_priority := map recommendation (with_severity "high" found) in
    let medium_priority := map recommendation (with_severity "medium" found) in
    Ok {| financial_health := health;
          issues := found;
          action_plan := high_priority ++ medium_priority |}.

(** ** The invalid-profile guard *)

(** The requirement as written, at one input: the pre-built result is
    returned. *)
Definition degrades_to_invalid_result (input : pyobj) : Prop :=
  analyze_profile input = Ok invalid_profile_result.

(** A mapping without the [monthly_income] key. *)
Definition profile_without_income : dict := [("current_savings", PyNum 1000)].

(** C1, refuted: on a non-empty mapping that lacks [monthly_income] the
    pre-built result is not returned; the call raises [KeyError], from
    [_check_savings_rate]. *)
Lemma missing_income_key_raises :
  lookup profile_without_income "monthly_income" = None
  /\ ~ degrades_to_invalid_result (PyDict profile_without_income)
  /\ analyze_profile (PyDict profile_without_income)
     = Raise (KeyError "monthly_income")
  /\ _check_savings_rate profile_without_income
     = Raise (KeyError "monthly_income").
Proof.
  split; [reflexivity |]. split; [| split; reflexivity].
  unfold degrades_to_invalid_result. vm_compute. discriminate.
Qed.

(** C1, amended: for every input that is empty (falsy: [None], zero, the
    empty string, the empty mapping) or not a dictionary, [analyze_profile]
    does not raise; it returns the pre-built result, whose health is
    "Poor" and which holds exactly one issue, of high severity, naming the
    condition. *)
Theorem invalid_input_degrades (input : pyobj) :
  truthy input = false \/ isinstance_dict input = false ->
  exists r i,
    analyze_profile input = Ok r
    /\ r = invalid_profile_result
    /\ financial_health r = "Poor"
    /\ issues r = [i]
    /\ severity i = "high"
    /\ issue i = "Invalid Profile Data".
Proof.
  intros H. eexists. eexists. split.
  - unfold analyze_profile. destruct H as [-> | ->]; [reflexivity |].
    rewrite orb_true_r. reflexivity.
  - repeat split; reflexivity.
Qed.

Lemma invalid_input_degrades_witness :
  (truthy PyNone = false \/ isinstance_dict PyNone = false)
  /\ exists r i,
       analyze_profile PyNone = Ok r
       /\ r = invalid_profile_result
       /\ financial_health r = "Poor"
       /\ issues r = [i]
       /\ severity i = "high"
       /\ issue i = "Invalid Profile Data".
Proof.
  split; [left; reflexivity |].
  apply (invalid_input_degrades PyNone). left. reflexivity.
Defined.

(** ** The emergency-fund detector *)




Definition profile_nearly_one_month : dict :=
  [("monthly_income", PyNum 5000); ("current_savings", PyNum 96);
   ("expense_rent", PyNum 100)].




(* ------------------------------------------------------------------ *)
(** ** Errors that reach the caller *)

(** X10: on every non-empty mapping without the [monthly_income] key whose
    expenses and savings are numbers, [analyze_profile] raises
    [KeyError('monthly_income')]: the first three detectors pass and
    [_check_savings_rate] subscripts the profile. *)
Theorem missing_income_raises_key_error
  (profile : dict) (monthly_expenses current_savings : Q) :
  lookup profile "monthly_income" = None ->
  profile <> [] ->
  sum_expenses profile = Ok monthly_expenses ->
  get profile "current_savings" (PyNum 0) = PyNum current_savings ->
  analyze_profile (PyDict profile) = Raise (KeyError "monthly_income")
  /\ _check_debt_to_income profile = Ok None
  /\ exists i, _check_expense_ratio profile = Ok (Some i)
               /\ issue i = "Missing income information".
Proof.
  intros Hinc Hne Hsum Hsav.
  assert (Hdti : _check_debt_to_income profile = Ok None).
  { unfold _check_debt_to_income, get. rewrite Hinc. reflexivity. }
  assert (Hexp : exists i, _check_expense_ratio profile = Ok (Some i)
                           /\ issue i = "Missing income information").
  { unfold _check_expense_ratio, get. rewrite Hsum, Hinc. cbn.
    eexists. split; reflexivity. }
  split; [| split; [exact Hdti | exact Hexp]].
  unfold analyze_profile. destruct profile as [| item rest]; [contradiction |].
  cbn [truthy isinstance_dict negb orb items_of].
  unfold issue_detectors. cbn [run_detectors].
  destruct Hexp as (i & Hi & _). rewrite Hdti, Hi.
  assert (Hrate : _check_savings_rate (item :: rest) = Raise (KeyError "monthly_income")).
  { unfold _check_savings_rate, getitem. rewrite Hinc. reflexivity. }
  rewrite Hrate.
  unfold _check_emergency_fund. rewrite Hsum, Hsav. cbn [bind as_num].
  destruct (Qltb current_savings (monthly_expenses * 3)); reflexivity.
Qed.

Lemma missing_income_raises_key_error_witness :
  lookup profile_without_income "monthly_income" = None
  /\ profile_without_income <> []
  /\ sum_expenses profile_without_income = Ok 0
  /\ get profile_without_income "current_savings" (PyNum 0) = PyNum 1000
  /\ exists i, _check_expense_ratio profile_without_income = Ok (Some i)
               /\ issue i = "Missing income information".
Proof.
  assert (H1 : lookup profile_without_income "monthly_income" = None) by reflexivity.
  assert (H2 : profile_without_income <> []) by discriminate.
  assert (H3 : sum_expenses profile_without_income = Ok 0) by reflexivity.
  assert (H4 : get profile_without_income "current_savings" (PyNum 0) = PyNum 1000)
    by reflexivity.
  split; [exact H1 |]. split; [exact H2 |]. split; [exact H3 |]. split; [exact H4 |].
  exact (proj2 (proj2 (missing_income_raises_key_error profile_without_income
                         0 1000 H1 H2 H3 H4))).
Defined.

(** X11: when the sum over the [expense_] fields raises (a value that is not a
    number), [analyze_profile] raises the same exception: the first detector
    takes that sum before anything else. *)
Theorem expense_type_error_propagates (profile : dict) (e : exn) :
  sum_expenses profile = Raise e ->
  analyze_profile (PyDict profile) = Raise e.
Proof.
  intros Hsum. unfold analyze_profile.
  destruct profile as [| item rest]; [discriminate Hsum |].
  cbn [truthy isinstance_dict negb orb items_of].
  unfold issue_detectors. cbn [run_detectors].
  unfold _check_emergency_fund. rewrite Hsum. reflexivity.
Qed.

Definition profile_with_text_expense : dict :=
  [("monthly_income", PyNum 5000); ("expense_rent", PyStr "1200")].

Lemma expense_type_error_propagates_witness :
  sum_expenses profile_with_text_expense = Raise TypeError
  /\ analyze_profile (PyDict profile_with_text_expense) = Raise TypeError.
Proof.
  assert (H : sum_expenses profile_with_text_expense = Raise TypeError)
    by reflexivity.
  split; [exact H |].
  exact (expense_type_error_propagates profile_with_text_expense TypeError H).
Defined.

(* ------------------------------------------------------------------ *)
(** ** What every analysis satisfies *)

(** Severities a detector uses. *)
Definition graded (i : issue_t) : Prop :=
  severity i = "high" \/ severity i = "medium".

Ltac crack H :=
  unfold bind in H;
  repeat match type of H with
  | context [match ?x with _ => _ end] =>
      lazymatch x with
      | context [match _ with _ => _ end] => fail
      | _ => destruct x
      end
  end;
  try discriminate H.

Lemma detectors_graded detector profile i :
  In detector issue_detectors ->
  detector profile = Ok (Some i) ->
  graded i /\ issue i <> "Invalid Profile Data".
Proof.
  unfold issue_detectors, graded. cbn [In].
  intros [<- | [<- | [<- | [<- | [<- | []]]]]] H.
  - unfold _check_emergency_fund in H. crack H; injection H as <-; cbn;
      (split; [tauto | discriminate]).
  - unfold _check_debt_to_income in H. crack H; injection H as <-; cbn;
      (split; [tauto | discriminate]).
  - unfold _check_expense_ratio in H. crack H; injection H as <-; cbn;
      (split; [tauto | discriminate]).
  - unfold _check_savings_rate in H. crack H; injection H as <-; cbn;
      (split; [tauto | discriminate]).
  - unfold _check_high_interest_debt in H. crack H; injection H as <-; cbn;
      (split; [tauto | discriminate]).
Qed.

Lemma run_detectors_graded profile : forall detectors acc found,
  (forall d, In d detectors -> In d issue_detectors) ->
  Forall (fun i => graded i /\ issue i <> "Invalid Profile Data") acc ->
  run_detectors detectors profile acc = Ok found ->
  Forall (fun i => graded i /\ issue i <> "Invalid Profile Data") found
  /\ (List.length found <= List.length acc + List.length detectors)%nat.
Proof.
  induction detectors as [| d rest IH]; intros acc found Hin Hacc Hrun.
  - cbn in Hrun. injection Hrun as <-. split; [exact Hacc | cbn; lia].
  - cbn [run_detectors] in Hrun.
    destruct (d profile) as [[i |] | e] eqn:Hd; cbn [bind] in Hrun;
      [| | discriminate Hrun].
    + destruct (IH (acc ++ [i]) found) as (Hall & Hlen).
      * intros d' Hd'. apply Hin. right. exact Hd'.
      * apply Forall_app. split; [exact Hacc |]. constructor; [| constructor].
        apply (detectors_graded d profile i); [apply Hin; left; reflexivity | exact Hd].
      * exact Hrun.
      * split; [exact Hall |]. rewrite length_app in Hlen. cbn in Hlen |- *. lia.
    + destruct (IH acc found) as (Hall & Hlen).
      * intros d' Hd'. apply Hin. right. exact Hd'.
      * exact Hacc.
      * exact Hrun.
      * split; [exact Hall |]. cbn. lia.
Qed.

Lemma graded_plan_length (found : list issue_t) :
  Forall graded found ->
  (List.length (with_severity "high" found)
   + List.length (with_severity "medium" found))%nat = List.length found.
Proof.
  unfold with_severity. induction 1 as [| i rest Hi _ IH]; [reflexivity |].
  cbn [filter]. destruct Hi as [Hi | Hi]; rewrite Hi; cbn; lia.
Qed.

(** X12: whenever [analyze_profile] returns for a non-empty mapping, it reports
    at most five issues, each of severity high or medium and none of them the
    invalid-profile issue; the action plan has one entry per issue; the
    health is Excellent exactly when there is no issue and Poor exactly when
    some issue is of high severity, and otherwise Good (at most two issues)
    or Fair. *)
Theorem analysis_invariants (profile : dict) (r : analysis) :
  profile <> [] ->
  analyze_profile (PyDict profile) = Ok r ->
  (List.length (issues r) <= 5)%nat
  /\ Forall (fun i => graded i /\ issue i <> "Invalid Profile Data") (issues r)
  /\ List.length (action_plan r) = List.length (issues r)
  /\ (financial_health r = "Excellent" <-> issues r = [])
  /\ (financial_health r = "Poor" <-> Exists (fun i => severity i = "high") (issues r))
  /\ (financial_health r = "Good" ->
      (List.length (issues r) <= 2)%nat
      /\ Forall (fun i => severity i = "medium") (issues r))
  /\ (financial_health r = "Fair" ->
      (2 < List.length (issues r))%nat
      /\ Forall (fun i => severity i = "medium") (issues r))
  /\ In (financial_health r) ["Excellent"; "Poor"; "Good"; "Fair"].
Proof.
  intros Hne Hrun. unfold analyze_profile in Hrun.
  destruct profile as [| item rest]; [contradiction |].
  cbn [truthy isinstance_dict negb orb items_of] in Hrun.
  destruct (run_detectors issue_detectors (item :: rest) []) as [found | e] eqn:Hdet;
    cbn [bind] in Hrun; [| discriminate Hrun].
  injection Hrun as <-. cbn [issues action_plan financial_health].
  destruct (run_detectors_graded (item :: rest) issue_detectors [] found
              (fun d H => H) (Forall_nil _) Hdet) as (Hall & Hlen).
  assert (Hgraded : Forall graded found).
  { eapply Forall_impl; [| exact Hall]. intros i Hi. apply Hi. }
  assert (Hhigh : (0 <? List.length (with_severity "high" found))%nat = true
                  <-> Exists (fun i => severity i = "high") found).
  { rewrite Nat.ltb_lt. unfold with_severity. rewrite Exists_exists. split.
    - intros Hpos. destruct (filter _ found) as [| i l] eqn:Hf; [cbn in Hpos; lia |].
      assert (Hin : In i (filter (fun i => String.eqb (severity i) "high") found))
        by (rewrite Hf; left; reflexivity).
      apply filter_In in Hin. destruct Hin as (Hin & Hs).
      exists i. split; [exact Hin | apply String.eqb_eq; exact Hs].
    - intros (i & Hin & Hs).
      assert (Hf : In i (filter (fun i => String.eqb (severity i) "high") found)).
      { apply filter_In. split; [exact Hin | apply String.eqb_eq; exact Hs]. }
      destruct (filter _ found); [destruct Hf | cbn; lia]. }
  assert (Hmedium : (0 <? List.length (with_severity "high" found))%nat = false ->
                    Forall (fun i => severity i = "medium") found).
  { intros Hnone. apply Forall_forall. intros i Hin.
    assert (Hg : graded i) by (rewrite Forall_forall in Hgraded; exact (Hgraded i Hin)).
    destruct Hg as [Hh | Hm]; [| exact Hm].
    assert (Hex : Exists (fun i => severity i = "high") found)
      by (apply Exists_exists; exists i; split; assumption).
    apply Hhigh in Hex. congruence. }
  split; [cbn in Hlen; exact Hlen |]. split; [exact Hall |].
  split.
  { rewrite length_app, !length_map. apply graded_plan_length, Hgraded. }
  destruct found as [| i0 more] eqn:Hfound.
  { cbn. repeat split; try discriminate; try tauto;
      try (intros H; inversion H); intros; lia. }
  rewrite <- Hfound in *.
  assert (Hlen0 : (List.length found =? 0)%nat = false)
    by (rewrite Hfound; reflexivity).
  assert (Hsome : found <> []) by (rewrite Hfound; discriminate).
  rewrite Hlen0.
  destruct (0 <? List.length (with_severity "high" found))%nat eqn:Eh.
  { assert (Hex : Exists (fun i => severity i = "high") found) by (apply Hhigh; reflexivity).
    repeat split; try discriminate; try tauto; cbn; tauto. }
  assert (Hnot : ~ Exists (fun i => severity i = "high") found).
  { intros Hex. apply Hhigh in Hex. discriminate Hex. }
  specialize (Hmedium eq_refl).
  destruct (List.length found <=? 2)%nat eqn:E2.
  - apply Nat.leb_le in E2.
    repeat split; try discriminate; try tauto; cbn; tauto.
  - apply Nat.leb_gt in E2.
    repeat split; try discriminate; try tauto; cbn; tauto.
Qed.

Lemma analysis_invariants_witness :
  profile_nearly_one_month <> []
  /\ exists r,
       analyze_profile (PyDict profile_nearly_one_month) = Ok r
       /\ List.length (action_plan r) = List.length (issues r).
Proof.
  assert (Hne : profile_nearly_one_month <> []) by discriminate.
  split; [exact Hne |].
  destruct (analyze_profile (PyDict profile_nearly_one_month)) as [r | e] eqn:Hrun.
  - exists r. split; [reflexivity |].
    destruct (analysis_invariants profile_nearly_one_month r Hne Hrun)
      as (_ & _ & Hplan & _).
    exact Hplan.
  - exfalso. vm_compute in Hrun. discriminate Hrun.
Defined.

(* ------------------------------------------------------------------ *)
(** ** Income of zero, and the two expense-based detectors *)

Lemma run_detectors_app profile : forall detectors acc found,
  run_detectors detectors profile acc = Ok found ->
  exists more, found = acc ++ more.
Proof.
  induction detectors as [| d rest IH]; intros acc found Hrun.
  - cbn in Hrun. injection Hrun as <-. exists []. rewrite app_nil_r. reflexivity.
  - cbn [run_detectors] in Hrun.
    destruct (d profile) as [[i |] | e]; cbn [bind] in Hrun; [| | discriminate Hrun].
    + destruct (IH _ _ Hrun) as (more & ->). exists (i :: more).
      rewrite <- app_assoc. reflexivity.
    + exact (IH _ _ Hrun).
Qed.

Lemma high_gives_poor (found : list issue_t) :
  Exists (fun i => severity i = "high") found ->
  (if (List.length found =? 0)%nat then "Excellent"
   else if (0 <? List.length (with_severity "high" found))%nat then "Poor"
   else if (List.length found <=? 2)%nat then "Good"
   else "Fair") = "Poor".
Proof.
  intros Hex. apply Exists_exists in Hex. destruct Hex as (i & Hin & Hs).
  destruct found as [| i0 more]; [destruct Hin |].
  cbn [List.length Nat.eqb].
  assert (Hf : In i (with_severity "high" (i0 :: more))).
  { apply filter_In. split; [exact Hin | apply String.eqb_eq; exact Hs]. }
  destruct (with_severity "high" (i0 :: more)); [destruct Hf | reflexivity].
Qed.

(** X13: for a profile whose [monthly_income] is 0 and whose other fields are
    well typed, the analysis returns (no division by zero) with health Poor;
    it holds the high-severity issue "Missing income information" and a
    high-severity "Low savings rate" issue computed with a rate of 0, and no
    debt-to-income issue. *)
Theorem zero_income_analysis
  (profile : dict) (income monthly_expenses current_savings : Q)
  (debt_issue : option issue_t) :
  lookup profile "monthly_income" = Some (PyNum income) ->
  income == 0 ->
  sum_expenses profile = Ok monthly_expenses ->
  get profile "current_savings" (PyNum 0) = PyNum current_savings ->
  _check_high_interest_debt profile = Ok debt_issue ->
  exists r missing low,
    analyze_profile (PyDict profile) = Ok r
    /\ financial_health r = "Poor"
    /\ In missing (issues r)
    /\ issue missing = "Missing income information"
    /\ severity missing = "high"
    /\ In low (issues r)
    /\ issue low = "Low savings rate"
    /\ severity low = "high"
    /\ details low = [Lit "Current savings rate is "; Fmt1f 0;
                      Lit "% (recommended: at least 15-20%)"]
    /\ _check_debt_to_income profile = Ok None.
Proof.
  intros Hinc Hzero Hsum Hsav Hdebt.
  assert (Hpos : Qltb 0 income = false) by (apply Qltb_ge; lra).
  assert (Hdti : _check_debt_to_income profile = Ok None).
  { unfold _check_debt_to_income, get. rewrite Hinc. cbn [as_num bind].
    rewrite Hpos. reflexivity. }
  set (missing := {|
    issue := "Missing income information";
    severity := "high";
    details := [Lit "No monthly income data provided"];
    recommendation := "Ensure accurate monthly income is entered to assess financial health" |}).
  assert (Hexp : _check_expense_ratio profile = Ok (Some missing)).
  { unfold _check_expense_ratio, get. rewrite Hsum, Hinc. cbn [bind eq_zero].
    assert (Hz : Qeq_bool income 0 = true) by (apply Qeq_bool_iff; exact Hzero).
    rewrite Hz. reflexivity. }
  set (low := {|
    issue := "Low savings rate";
    severity := "high";
    details := [Lit "Current savings rate is "; Fmt1f 0;
                Lit "% (recommended: at least 15-20%)"];
    recommendation := "Aim to increase savings rate by reducing discretionary spending" |}).
  assert (Hrate : _check_savings_rate profile = Ok (Some low)).
  { unfold _check_savings_rate, getitem. rewrite Hinc. cbn [bind].
    destruct (contains profile "monthly_savings") eqn:Ec.
    - destruct (contains_lookup _ _ Ec) as (v & Hv). rewrite Hv.
      cbn [bind as_num]. rewrite Hpos. reflexivity.
    - rewrite Hsum. cbn [bind as_num]. rewrite Hpos. reflexivity. }
  assert (Hfund : exists fund, _check_emergency_fund profile = Ok fund).
  { unfold _check_emergency_fund. rewrite Hsum, Hsav. cbn [bind as_num].
    destruct (Qltb current_savings (monthly_expenses * 3)); eexists; reflexivity. }
  destruct Hfund as (fund & Hfund).
  assert (Hne : profile <> []) by (intros ->; discriminate Hinc).
  unfold analyze_profile. destruct profile as [| item rest]; [contradiction |].
  cbn [truthy isinstance_dict negb orb items_of].
  unfold issue_detectors. cbn [run_detectors].
  rewrite Hfund, Hdti, Hexp, Hrate, Hdebt. cbn [bind].
  destruct fund as [f |], debt_issue as [d |]; cbn [bind app];
    eexists; exists missing, low;
    (split; [reflexivity |]); cbn [financial_health issues];
    (split; [apply high_gives_poor, Exists_exists; exists missing;
             split; [cbn; auto 10 | reflexivity] |]);
    repeat split; try reflexivity; try exact Hdti; cbn; auto 10.
Qed.

Definition profile_without_earnings : dict :=
  [("monthly_income", PyNum 0); ("current_savings", PyNum 500);
   ("expense_rent", PyNum 900)].

Lemma zero_income_analysis_witness :
  lookup profile_without_earnings "monthly_income" = Some (PyNum 0)
  /\ 0 == 0
  /\ sum_expenses profile_without_earnings = Ok 900
  /\ get profile_without_earnings "current_savings" (PyNum 0) = PyNum 500
  /\ _check_high_interest_debt profile_without_earnings = Ok None
  /\ exists r,
       analyze_profile (PyDict profile_without_earnings) = Ok r
       /\ financial_health r = "Poor".
Proof.
  assert (H1 : lookup profile_without_earnings "monthly_income" = Some (PyNum 0))
    by reflexivity.
  assert (H2 : 0 == 0) by reflexivity.
  assert (H3 : sum_expenses profile_without_earnings = Ok 900) by reflexivity.
  assert (H4 : get profile_without_earnings "current_savings" (PyNum 0) = PyNum 500)
    by reflexivity.
  assert (H5 : _check_high_interest_debt profile_without_earnings = Ok None)
    by reflexivity.
  split; [exact H1 |]. split; [exact H2 |]. split; [exact H3 |].
  split; [exact H4 |]. split; [exact H5 |].
  destruct (zero_income_analysis profile_without_earnings 0 900 500 None
              H1 H2 H3 H4 H5) as (r & _ & _ & Hrun & Hpoor & _).
  exists r. split; assumption.
Defined.




End Analyzer.

(* ================================================================== *)
(** * [src/simulator.py] *)

Module Simulator.
Import Py.

(** A [FinancialSimulator] object.  [current_month] is the first day of the
    month of the call; dates are counted in days from it. *)
Record FinancialSimulator : Type := {
  profile : dict;
  simulation_years : nat;
  months : nat
}.

(** [FinancialSimulator(profile, simulation_years=5)]. *)
Definition init (profile : dict) (simulation_years : nat) : FinancialSimulator := {|
  profile := profile;
  simulation_years := simulation_years;
  months := simulation_years * 12
|}.

(** One row of the data frame [_calculate_monthly_results] returns. *)
Record row : Type := {
  date : nat;   (* days after [current_month] *)
  income : Q;
  expenses : Q;
  savings : Q;
  debt : Q;
  net_worth : Q
}.

(** The variables the monthly loop updates. *)
Record running : Type := {
  monthly_income : pyobj;
  total_savings : pyobj;
  total_debt : pyobj
}.

(** The body of [for i in range(self.months)]. *)
Definition month_body
  (self : FinancialSimulator) (monthly_expenses : Q) (income_growth : pyobj)
  (extra_debt_payment : Q) (i : nat) (st : running) : result (running * row) :=
  monthly_income <-
    (if (0 <? i)%nat && (i mod 12 =? 0)%nat then
       growth <- as_num income_growth ;;
       current <- as_num (monthly_income st) ;;
       Ok (PyNum (current * (1 + growth)))
     else Ok (monthly_income st)) ;;
  let current_date := (30 * i)%nat in
  income <- as_num monthly_income ;;
  let this_month_savings := income - monthly_expenses in
  balance <- as_num (total_debt st) ;;
  after_debt <-
    (if Qltb 0 balance then
       apr <- as_num (get (profile self) "primary_debt_apr" (PyNum 15)) ;;
       let avg_apr := apr / 100 in
       let monthly_interest_rate := avg_apr / 12 in
       let interest_amount := balance * monthly_interest_rate in
       let min_payment := pymax (balance * (2 # 100)) 25 in
       let total_payment :=
         pymin (min_payment + extra_debt_payment) (balance + interest_amount) in
       Ok (balance + interest_amount - total_payment,
           this_month_savings - total_payment)
     else Ok (balance, this_month_savings)) ;;
  let total_debt := fst after_debt in
  let this_month_savings := snd after_debt in
  saved <- as_num (total_savings st) ;;
  let savings_interest_rate := (2 # 100) / 12 in
  let interest_earned := saved * savings_interest_rate in
  let total_savings := saved + (this_month_savings + interest_earned) in
  let net_worth := total_savings - pymax 0 total_debt in
  Ok ({| monthly_income := monthly_income;
         total_savings := PyNum total_savings;
         total_debt := PyNum total_debt |},
      {| date := current_date;
         income := income;
         expenses := monthly_expenses;
         savings := total_savings;
         debt := pymax 0 total_debt;
         net_worth := net_worth |}).

(** [for i in range(...)]: [count] iterations from month [i] on. *)
Fixpoint months_loop
  (body : nat -> running -> result (running * row))
  (count i : nat) (st : running) : result (list row) :=
  match count with
  | O => Ok []
  | S count' =>
      step <- body i st ;;
      rest <- months_loop body count' (S i) (fst step) ;;
      Ok (snd step :: rest)
  end.

Definition _calculate_monthly_results
  (self : FinancialSimulator) (scenario : string) (params : dict)
  : result (list row) :=
  monthly_income <- getitem (profile self) "monthly_income" ;;
  monthly_expenses <- sum_expenses (profile self) ;;
  monthly_savings <-
    (if contains (profile self) "monthly_savings"
     then getitem (profile self) "monthly_savings"
     else
       income <- as_num monthly_income ;;
       Ok (PyNum (income - monthly_expenses))) ;;
  current_savings <- getitem (profile self) "current_savings" ;;
  let current_debt := get (profile self) "total_debt" (PyNum 0) in
  adjusted <-
    (if String.eqb scenario "improved" then
       let income_growth := get params "income_growth" (PyNum (2 # 100)) in
       let expense_reduction := get params "expense_reduction" (PyNum (1 # 10)) in
       share <- as_num (get params "extra_debt_payment" (PyNum (1 # 10))) ;;
       income <- as_num monthly_income ;;
       let extra_debt_payment := share * income in
       reduction <- as_num expense_reduction ;;
       let monthly_expenses := monthly_expenses * (1 - reduction) in
       let monthly_savings := income - monthly_expenses in
       Ok (income_growth, monthly_expenses, extra_debt_payment)
     else Ok (PyNum (2 # 100), monthly_expenses, 0)) ;;
  let '(income_growth, monthly_expenses, extra_debt_payment) := adjusted in
  months_loop
    (month_body self monthly_expenses income_growth extra_debt_payment)
    (months self) 0
    {| monthly_income := monthly_income;
       total_savings := current_savings;
       total_debt := current_debt |}.

Definition simulate_current_path (self : FinancialSimulator) : result (list row) :=
  _calculate_monthly_results self "current" [].

Definition simulate_improved_path
  (self : FinancialSimulator) (params : option dict) : result (list row) :=
  let params :=
    match params with
    | Some p => p
    | None => [ ("expense_reduction", PyNum (1 # 10));
                ("income_growth", PyNum (3 # 100));
                ("extra_debt_payment", PyNum (1 # 10)) ]
    end in
  _calculate_monthly_results self "improved" params.

(** [df[df['debt'] <= 0]['date'].min() if (df['debt'] <= 0).any() else None]. *)
Definition debt_free_month (df : list row) : option nat :=
  match map date (filter (fun r => Qleb (debt r) 0) df) with
  | [] => None
  | d :: ds => Some (fold_left Nat.min ds d)
  end.

(** [df.iloc[-1]]. *)
Definition iloc_last (df : list row) : result row :=
  match rev df with
  | r :: _ => Ok r
  | [] => Raise IndexError
  end.

(** One of the two [..._path] dictionaries of the comparison; the key
    [debt_free_date] is present only when the path becomes debt-free. *)
Record path_summary : Type := {
  final_savings : Q;
  final_debt : Q;
  final_net_worth : Q;
  debt_free_date : option nat
}.

Record comparison_t : Type := {
  end_date : nat;
  current_path : path_summary;
  improved_path : path_summary;
  savings_diff : Q;
  debt_diff : Q;
  net_worth_diff : Q
}.

Definition compare_scenarios (self : FinancialSimulator)
  : result (list row * list row * comparison_t) :=
  current <- simulate_current_path self ;;
  improved <- simulate_improved_path self None ;;
  c <- iloc_last current ;;
  i <- iloc_last improved ;;
  Ok (current, improved,
      {| end_date := date c;
         current_path := {|
           final_savings := savings c;
           final_debt := debt c;
           final_net_worth := net_worth c;
           debt_free_date := debt_free_month current |};
         improved_path := {|
           final_savings := savings i;
           final_debt := debt i;
           final_net_worth := net_worth i;
           debt_free_date := debt_free_month improved |};
         savings_diff := savings i - savings c;
         debt_diff := debt c - debt i;
         net_worth_diff := net_worth i - net_worth c |}).

(** ** The debt balance on its own *)

(** The balance after one month, as [month_body] computes it. *)
Definition debt_after (apr extra_debt_payment balance : Q) : Q :=
  if Qltb 0 balance then
    balance + balance * (apr / 100 / 12)
    - pymin (pymax (balance * (2 # 100)) 25 + extra_debt_payment)
            (balance + balance * (apr / 100 / 12))
  else balance.

(** The [debt] column of [count] months started from [balance]. *)
Fixpoint debts (apr extra_debt_payment : Q) (count : nat) (balance : Q) : list Q :=
  match count with
  | O => []
  | S count' =>
      let next := debt_after apr extra_debt_payment balance in
      pymax 0 next :: debts apr extra_debt_payment count' next
  end.

(** Index of the first entry of a column that is not positive. *)
Fixpoint first_nonpositive (column : list Q) : option nat :=
  match column with
  | [] => None
  | v :: rest =>
      if Qleb v 0 then Some O else option_map S (first_nonpositive rest)
  end.

(** Index of the first month whose recorded debt is not positive. *)
Definition first_debt_free (df : list row) : option nat :=
  first_nonpositive (map debt df).

Section Loop.
Variable self : FinancialSimulator.
Variables (apr monthly_expenses growth extra_debt_payment : Q).
Hypothesis apr_numeric :
  get (profile self) "primary_debt_apr" (PyNum 15) = PyNum apr.

Lemma months_loop_numeric : forall count i inc saved balance,
  exists rows,
    months_loop
      (month_body self monthly_expenses (PyNum growth) extra_debt_payment)
      count i
      {| monthly_income := PyNum inc;
         total_savings := PyNum saved;
         total_debt := PyNum balance |} = Ok rows
    /\ map debt rows = debts apr extra_debt_payment count balance
    /\ map date rows = map (fun k => 30 * k)%nat (seq i count).
Proof.
  induction count as [| count IH]; intros i inc saved balance.
  - exists []. repeat split.
  - cbn [months_loop]. unfold month_body at 1.
    cbn [monthly_income total_savings total_debt as_num bind].
    rewrite apr_numeric. cbn [as_num bind].
    destruct ((0 <? i)%nat && (i mod 12 =? 0)%nat); cbn [as_num bind];
      destruct (Qltb 0 balance) eqn:E; cbn [bind fst snd].
    all: edestruct (IH (S i)) as (rest & Hrest & Hd & Hdate);
      rewrite Hrest; cbn [bind];
      eexists; split; [reflexivity |];
      cbn [map debts seq debt date]; unfold debt_after at 1 2; rewrite E;
      split; [f_equal; exact Hd | f_equal; exact Hdate].
Qed.
End Loop.

Lemma debt_after_mono apr extra b1 b2 :
  0 <= apr -> 0 <= extra -> b1 <= b2 ->
  debt_after apr extra b1 <= debt_after apr 0 b2.
Proof.
  intros Hapr Hextra Hb. unfold debt_after.
  assert (Hr : 0 <= apr / 100 / 12).
  { unfold Qdiv. repeat apply Qmult_le_0_compat; try exact Hapr; discriminate. }
  set (r := apr / 100 / 12) in *. clearbody r.
  assert (Hmul : b1 * r <= b2 * r) by (apply Qmult_le_compat_r; assumption).
  destruct (Qltb 0 b1) eqn:E1, (Qltb 0 b2) eqn:E2;
    try apply Qltb_lt in E1; try apply Qltb_ge in E1;
    try apply Qltb_lt in E2; try apply Qltb_ge in E2.
  - assert (0 <= b1 * r) by (apply Qmult_le_0_compat; lra).
    minmax; lra.
  - lra.
  - assert (0 <= b2 * r) by (apply Qmult_le_0_compat; lra).
    minmax; lra.
  - lra.
Qed.

Lemma debts_le apr extra : forall count b1 b2,
  0 <= apr -> 0 <= extra -> b1 <= b2 ->
  Forall2 Qle (debts apr extra count b1) (debts apr 0 count b2).
Proof.
  induction count as [| count IH]; intros b1 b2 Hapr Hextra Hb; cbn [debts].
  - constructor.
  - pose proof (debt_after_mono apr extra b1 b2 Hapr Hextra Hb) as Hnext.
    constructor.
    + minmax; lra.
    + apply IH; assumption.
Qed.

Lemma first_nonpositive_le column1 column2 :
  Forall2 Qle column1 column2 ->
  forall k2, first_nonpositive column2 = Some k2 ->
  exists k1, first_nonpositive column1 = Some k1 /\ (k1 <= k2)%nat.
Proof.
  induction 1 as [| v1 v2 rest1 rest2 Hv Hrest IH]; intros k2 Hk2; cbn in *.
  - discriminate.
  - destruct (Qleb v1 0) eqn:E1.
    + exists O. split; [reflexivity | lia].
    + apply Qleb_gt in E1.
      destruct (Qleb v2 0) eqn:E2.
      { apply Qleb_le in E2. lra. }
      destruct (first_nonpositive rest2) as [k |]; [| discriminate].
      injection Hk2 as <-.
      destruct (IH k eq_refl) as (k1 & -> & Hle).
      exists (S k1). split; [reflexivity | lia].
Qed.

Lemma fold_min_start ds : forall d,
  Forall (fun x => d <= x)%nat ds -> fold_left Nat.min ds d = d.
Proof.
  induction ds as [| x ds IH]; intros d Hall; cbn.
  - reflexivity.
  - inversion Hall as [| ? ? Hx Hds]; subst.
    rewrite Nat.min_l by exact Hx. apply IH, Hds.
Qed.

Lemma debt_free_month_first df : forall i count,
  map date df = map (fun k => 30 * k)%nat (seq i count) ->
  debt_free_month df
  = option_map (fun k => 30 * (i + k))%nat (first_debt_free df).
Proof.
  unfold debt_free_month, first_debt_free.
  induction df as [| r rest IH]; intros i count Hdates.
  - reflexivity.
  - destruct count as [| count]; [discriminate |].
    cbn in Hdates. injection Hdates as Hr Hrest.
    cbn [map filter first_nonpositive].
    destruct (Qleb (debt r) 0) eqn:E.
    + cbn [map option_map]. rewrite Hr. rewrite fold_min_start.
      * f_equal. lia.
      * apply Forall_forall. intros d Hd.
        apply in_map_iff in Hd. destruct Hd as (r' & <- & Hin).
        apply filter_In in Hin. destruct Hin as [Hin _].
        assert (Hdate : In (date r') (map date rest)) by (apply in_map; exact Hin).
        rewrite Hrest in Hdate. apply in_map_iff in Hdate.
        destruct Hdate as (k & <- & Hk). apply in_seq in Hk. lia.
    + rewrite (IH (S i) count Hrest).
      destruct (first_nonpositive (map debt rest)) as [k |]; cbn [option_map].
      * f_equal. lia.
      * reflexivity.
Qed.

Lemma map_debt_Forall2 (improved current : list row) :
  Forall2 Qle (map debt improved) (map debt current) ->
  Forall2 (fun i c => debt i <= debt c) improved current.
Proof.
  revert current. induction improved as [| i improved IH]; intros [| c current] H;
    cbn in H; inversion H; subst; constructor; auto.
Qed.

Section Scenarios.
Variable self : FinancialSimulator.
Variables (inc saved monthly_expenses balance apr : Q).
Hypothesis income_numeric : lookup (profile self) "monthly_income" = Some (PyNum inc).
Hypothesis savings_numeric : lookup (profile self) "current_savings" = Some (PyNum saved).
Hypothesis expenses_numeric : sum_expenses (profile self) = Ok monthly_expenses.
Hypothesis debt_numeric : get (profile self) "total_debt" (PyNum 0) = PyNum balance.
Hypothesis apr_numeric : get (profile self) "primary_debt_apr" (PyNum 15) = PyNum apr.

Lemma current_path_runs :
  exists current,
    simulate_current_path self = Ok current
    /\ map debt current = debts apr 0 (months self) balance
    /\ map date current = map (fun k => 30 * k)%nat (seq 0 (months self)).
Proof.
  unfold simulate_current_path, _calculate_monthly_results, getitem.
  rewrite income_numeric, savings_numeric, expenses_numeric, debt_numeric.
  cbn [bind as_num].
  destruct (contains (profile self) "monthly_savings") eqn:E.
  - destruct (contains_getitem _ _ E) as (v & Hv). unfold getitem in Hv.
    rewrite Hv. cbn [bind String.eqb].
    apply months_loop_numeric, apr_numeric.
  - cbn [bind]. apply months_loop_numeric, apr_numeric.
Qed.

Lemma improved_path_runs (params : dict) (growth reduction share : Q) :
  get params "income_growth" (PyNum (2 # 100)) = PyNum growth ->
  get params "expense_reduction" (PyNum (1 # 10)) = PyNum reduction ->
  get params "extra_debt_payment" (PyNum (1 # 10)) = PyNum share ->
  exists improved,
    simulate_improved_path self (Some params) = Ok improved
    /\ map debt improved = debts apr (share * inc) (months self) balance
    /\ map date improved = map (fun k => 30 * k)%nat (seq 0 (months self)).
Proof.
  intros Hg Hr Hs.
  unfold simulate_improved_path, _calculate_monthly_results, getitem.
  rewrite income_numeric, savings_numeric, expenses_numeric, debt_numeric.
  rewrite Hg, Hr, Hs.
  cbn [bind as_num].
  destruct (contains (profile self) "monthly_savings") eqn:E.
  - destruct (contains_getitem _ _ E) as (v & Hv). unfold getitem in Hv.
    rewrite Hv. cbn [bind].
    apply months_loop_numeric, apr_numeric.
  - cbn [bind]. apply months_loop_numeric, apr_numeric.
Qed.

End Scenarios.

(** Both paths run, month by month the improved debt is at most the current
    one, and the debt-free date of [compare_scenarios] is 30 days times the
    index of the first month without debt. *)
Lemma paths_compared
  (self : FinancialSimulator) (params : dict)
  (inc saved monthly_expenses balance apr growth reduction share : Q) :
  lookup (profile self) "monthly_income" = Some (PyNum inc) ->
  lookup (profile self) "current_savings" = Some (PyNum saved) ->
  sum_expenses (profile self) = Ok monthly_expenses ->
  get (profile self) "total_debt" (PyNum 0) = PyNum balance ->
  get (profile self) "primary_debt_apr" (PyNum 15) = PyNum apr ->
  get params "income_growth" (PyNum (2 # 100)) = PyNum growth ->
  get params "expense_reduction" (PyNum (1 # 10)) = PyNum reduction ->
  get params "extra_debt_payment" (PyNum (1 # 10)) = PyNum share ->
  0 < balance ->
  0 < apr ->
  0 < share * inc ->
  exists current improved,
    simulate_current_path self = Ok current
    /\ simulate_improved_path self (Some params) = Ok improved
    /\ Forall2 (fun i c => debt i <= debt c) improved current
    /\ debt_free_month current = option_map (Nat.mul 30) (first_debt_free current)
    /\ debt_free_month improved = option_map (Nat.mul 30) (first_debt_free improved)
    /\ (forall kc, first_debt_free current = Some kc ->
         exists ki, first_debt_free improved = Some ki /\ (ki <= kc)%nat)
    /\ (forall dc, debt_free_month current = Some dc ->
         exists di, debt_free_month improved = Some di /\ (di <= dc)%nat).
Proof.
  intros Hinc Hsav Hexp Hdebt Hapr Hg Hr Hs Hbal Hpos Hextra.
  destruct (current_path_runs self inc saved monthly_expenses balance apr
              Hinc Hsav Hexp Hdebt Hapr) as (current & Hc & Hcd & Hct).
  destruct (improved_path_runs self inc saved monthly_expenses balance apr
              Hinc Hsav Hexp Hdebt Hapr params growth reduction share Hg Hr Hs)
    as (improved & Hi & Hid & Hit).
  assert (Hle : Forall2 Qle (map debt improved) (map debt current)).
  { rewrite Hid, Hcd. apply debts_le; lra. }
  assert (Hfirst : forall kc, first_debt_free current = Some kc ->
            exists ki, first_debt_free improved = Some ki /\ (ki <= kc)%nat).
  { intros kc Hkc. apply (first_nonpositive_le _ _ Hle kc Hkc). }
  pose proof (debt_free_month_first current 0 (months self) Hct) as Hmc.
  pose proof (debt_free_month_first improved 0 (months self) Hit) as Hmi.
  cbn [Nat.add] in Hmc, Hmi.
  exists current, improved.
  split; [exact Hc |]. split; [exact Hi |].
  split; [apply map_debt_Forall2, Hle |].
  split; [exact Hmc |]. split; [exact Hmi |]. split; [exact Hfirst |].
  intros dc Hdc. rewrite Hmc in Hdc. rewrite Hmi.
  destruct (first_debt_free current) as [kc |]; [| discriminate].
  cbn in Hdc. injection Hdc as <-.
  destruct (Hfirst kc eq_refl) as (ki & -> & Hki).
  exists (30 * ki)%nat. split; [reflexivity | lia].
Qed.

(** C3: for every profile with positive starting debt and APR and every extra
    debt payment > 0, the month at which the debt of the improved path first
    is <= 0 is not later than that month for the current path of the same
    profile over the same horizon; when the current path becomes debt-free
    within the horizon, so does the improved one.  The same holds of the two
    [debt_free_date] entries [compare_scenarios] reports. *)
Theorem improved_path_debt_free_no_later
  (self : FinancialSimulator) (params : dict)
  (inc saved monthly_expenses balance apr growth reduction share : Q) :
  lookup (profile self) "monthly_income" = Some (PyNum inc) ->
  lookup (profile self) "current_savings" = Some (PyNum saved) ->
  sum_expenses (profile self) = Ok monthly_expenses ->
  get (profile self) "total_debt" (PyNum 0) = PyNum balance ->
  get (profile self) "primary_debt_apr" (PyNum 15) = PyNum apr ->
  get params "income_growth" (PyNum (2 # 100)) = PyNum growth ->
  get params "expense_reduction" (PyNum (1 # 10)) = PyNum reduction ->
  get params "extra_debt_payment" (PyNum (1 # 10)) = PyNum share ->
  0 < balance ->
  0 < apr ->
  0 < share * inc ->
  (exists current improved,
     simulate_current_path self = Ok current
     /\ simulate_improved_path self (Some params) = Ok improved
     /\ Forall2 (fun i c => debt i <= debt c) improved current
     /\ (forall kc, first_debt_free current = Some kc ->
          exists ki, first_debt_free improved = Some ki /\ (ki <= kc)%nat)
     /\ (forall dc, debt_free_month current = Some dc ->
          exists di, debt_free_month improved = Some di /\ (di <= dc)%nat))
  /\ (0 < inc ->
      forall current improved comparison,
        compare_scenarios self = Ok (current, improved, comparison) ->
        forall dc, debt_free_date (current_path comparison) = Some dc ->
        exists di,
          debt_free_date (improved_path comparison) = Some di /\ (di <= dc)%nat).
Proof.
  intros Hinc Hsav Hexp Hdebt Hapr Hg Hr Hs Hbal Hpos Hextra. split.
  - destruct (paths_compared self params inc saved monthly_expenses balance apr
                growth reduction share Hinc Hsav Hexp Hdebt Hapr Hg Hr Hs
                Hbal Hpos Hextra)
      as (current & improved & Hc & Hi & Hle & _ & _ & Hfirst & Hdate).
    exists current, improved. repeat (split; [assumption |]). assumption.
  - intros Hincome current improved comparison Hcmp dc Hdc.
    assert (Hdefault : 0 < (1 # 10) * inc) by lra.
    destruct (paths_compared self
                [ ("expense_reduction", PyNum (1 # 10));
                  ("income_growth", PyNum (3 # 100));
                  ("extra_debt_payment", PyNum (1 # 10)) ]
                inc saved monthly_expenses balance apr
                (3 # 100) (1 # 10) (1 # 10) Hinc Hsav Hexp Hdebt Hapr
                eq_refl eq_refl eq_refl Hbal Hpos Hdefault)
      as (current' & improved' & Hc & Hi & _ & _ & _ & _ & Hdate).
    unfold compare_scenarios in Hcmp. rewrite Hc in Hcmp. cbn [bind] in Hcmp.
    assert (Hi' : simulate_improved_path self None = Ok improved') by exact Hi.
    rewrite Hi' in Hcmp. cbn [bind] in Hcmp.
    destruct (iloc_last current') as [c | e]; [| discriminate Hcmp].
    destruct (iloc_last improved') as [i | e]; [| discriminate Hcmp].
    cbn [bind] in Hcmp. injection Hcmp as <- <- <-.
    cbn [current_path improved_path debt_free_date] in *.
    exact (Hdate dc Hdc).
Qed.

(** A profile with 5000 of debt at 18% APR. *)
Definition sample_profile : dict :=
  [ ("monthly_income", PyNum 5000);
    ("current_savings", PyNum 10000);
    ("expense_rent", PyNum 3450);
    ("expense_debt_payments", PyNum 150);
    ("total_debt", PyNum 5000);
    ("primary_debt_apr", PyNum 18) ].

Definition sample_params : dict :=
  [ ("expense_reduction", PyNum (1 # 10));
    ("income_growth", PyNum (3 # 100));
    ("extra_debt_payment", PyNum (1 # 10)) ].

(** A profile with a debt of 40 at 18% APR: the minimum payment of 25 clears
    it in the second month, the extra payment of the improved path in the
    first. *)
Definition profile_small_debt : dict :=
  [ ("monthly_income", PyNum 5000);
    ("current_savings", PyNum 10000);
    ("expense_rent", PyNum 3450);
    ("expense_debt_payments", PyNum 150);
    ("total_debt", PyNum 40);
    ("primary_debt_apr", PyNum 18) ].

Lemma improved_path_debt_free_no_later_witness :
  (0 < 40 /\ 0 < 18 /\ 0 < (1 # 10) * 5000)
  /\ exists current improved,
       simulate_current_path (init profile_small_debt 5) = Ok current
       /\ simulate_improved_path (init profile_small_debt 5) (Some sample_params)
          = Ok improved
       /\ first_debt_free current = Some 1%nat
       /\ (exists ki, first_debt_free improved = Some ki /\ (ki <= 1)%nat)
       /\ first_debt_free improved = Some 0%nat
       /\ debt_free_month current = Some 30%nat
       /\ (exists di, debt_free_month improved = Some di /\ (di <= 30)%nat).
Proof.
  assert (H1 : 0 < 40) by lra.
  assert (H2 : 0 < 18) by lra.
  assert (H3 : 0 < (1 # 10) * 5000) by lra.
  assert (E1 : lookup profile_small_debt "monthly_income" = Some (PyNum 5000))
    by reflexivity.
  assert (E2 : lookup profile_small_debt "current_savings" = Some (PyNum 10000))
    by reflexivity.
  assert (E3 : sum_expenses profile_small_debt = Ok 3600) by reflexivity.
  assert (E4 : get profile_small_debt "total_debt" (PyNum 0) = PyNum 40)
    by reflexivity.
  assert (E5 : get profile_small_debt "primary_debt_apr" (PyNum 15) = PyNum 18)
    by reflexivity.
  assert (E6 : get sample_params "income_growth" (PyNum (2 # 100)) = PyNum (3 # 100))
    by reflexivity.
  assert (E7 : get sample_params "expense_reduction" (PyNum (1 # 10)) = PyNum (1 # 10))
    by reflexivity.
  assert (E8 : get sample_params "extra_debt_payment" (PyNum (1 # 10)) = PyNum (1 # 10))
    by reflexivity.
  split; [repeat split; assumption |].
  destruct (improved_path_debt_free_no_later
              (init profile_small_debt 5) sample_params
              5000 10000 3600 40 18 (3 # 100) (1 # 10) (1 # 10)
              E1 E2 E3 E4 E5 E6 E7 E8 H1 H2 H3)
    as ((current & improved & Hc & Hi & _ & Hfirst & Hdate) & _).
  destruct (current_path_runs (init profile_small_debt 5) 5000 10000 3600 40 18
              E1 E2 E3 E4 E5) as (current' & Hc' & Hcd & Hct).
  destruct (improved_path_runs (init profile_small_debt 5) 5000 10000 3600 40 18
              E1 E2 E3 E4 E5 sample_params (3 # 100) (1 # 10) (1 # 10) E6 E7 E8)
    as (improved' & Hi' & Hid & _).
  rewrite Hc in Hc'. injection Hc' as <-.
  rewrite Hi in Hi'. injection Hi' as <-.
  assert (Kc : first_debt_free current = Some 1%nat).
  { unfold first_debt_free. rewrite Hcd. vm_compute. reflexivity. }
  assert (Ki : first_debt_free improved = Some 0%nat).
  { unfold first_debt_free. rewrite Hid. vm_compute. reflexivity. }
  assert (Dc : debt_free_month current = Some 30%nat).
  { rewrite (debt_free_month_first current 0 (months (init profile_small_debt 5)) Hct).
    rewrite Kc. reflexivity. }
  exists current, improved.
  split; [exact Hc |]. split; [exact Hi |]. split; [exact Kc |].
  split; [exact (Hfirst 1%nat Kc) |]. split; [exact Ki |].
  split; [exact Dc | exact (Hdate 30%nat Dc)].
Defined.

(* ------------------------------------------------------------------ *)
(** ** The rows of a run on a well-typed profile *)

(** The rows [months_loop] produces from numeric running totals: [count]
    months from month [i], with income [m], savings [s] and debt [d]. *)
Fixpoint rows_from
  (apr monthly_expenses growth extra_debt_payment : Q)
  (count i : nat) (m s d : Q) : list row :=
  match count with
  | O => []
  | S count' =>
      let m := if (0 <? i)%nat && (i mod 12 =? 0)%nat then m * (1 + growth) else m in
      let after_debt :=
        if Qltb 0 d then
          (d + d * (apr / 100 / 12)
           - pymin (pymax (d * (2 # 100)) 25 + extra_debt_payment)
                   (d + d * (apr / 100 / 12)),
           m - monthly_expenses
           - pymin (pymax (d * (2 # 100)) 25 + extra_debt_payment)
                   (d + d * (apr / 100 / 12)))
        else (d, m - monthly_expenses) in
      let s := s + (snd after_debt + s * ((2 # 100) / 12)) in
      {| date := (30 * i)%nat;
         income := m;
         expenses := monthly_expenses;
         savings := s;
         debt := pymax 0 (fst after_debt);
         net_worth := s - pymax 0 (fst after_debt) |}
      :: rows_from apr monthly_expenses growth extra_debt_payment count' (S i)
           m s (fst after_debt)
  end.

Lemma months_loop_rows
  (self : FinancialSimulator) (apr monthly_expenses growth extra_debt_payment : Q) :
  get (profile self) "primary_debt_apr" (PyNum 15) = PyNum apr ->
  forall count i m s d,
    months_loop
      (month_body self monthly_expenses (PyNum growth) extra_debt_payment)
      count i
      {| monthly_income := PyNum m;
         total_savings := PyNum s;
         total_debt := PyNum d |}
    = Ok (rows_from apr monthly_expenses growth extra_debt_payment count i m s d).
Proof.
  intros Hapr. induction count as [| count IH]; intros i m s d; [reflexivity |].
  cbn [months_loop rows_from]. unfold month_body at 1.
  cbn [monthly_income total_savings total_debt as_num bind].
  rewrite Hapr. cbn [as_num bind].
  destruct ((0 <? i)%nat && (i mod 12 =? 0)%nat); cbn [as_num bind];
    destruct (Qltb 0 d); cbn [bind fst snd]; rewrite IH; reflexivity.
Qed.

(** The debt carried from month to month, before the floor at 0. *)
Fixpoint raw_debt (apr extra_debt_payment : Q) (k : nat) (d : Q) : Q :=
  match k with
  | O => d
  | S k' => raw_debt apr extra_debt_payment k' (debt_after apr extra_debt_payment d)
  end.

Lemma rows_from_length apr e g x : forall count i m s d,
  List.length (rows_from apr e g x count i m s d) = count.
Proof.
  induction count as [| count IH]; intros i m s d; cbn [rows_from List.length];
    [reflexivity |].
  rewrite IH. reflexivity.
Qed.

Lemma rows_from_row apr e g x : forall count i m s d k r,
  nth_error (rows_from apr e g x count i m s d) k = Some r ->
  date r = (30 * (i + k))%nat
  /\ expenses r = e
  /\ 0 <= debt r
  /\ net_worth r = savings r - debt r
  /\ debt r = pymax 0 (raw_debt apr x (S k) d).
Proof.
  induction count as [| count IH]; intros i m s d k r Hk.
  - destruct k; discriminate Hk.
  - cbn [rows_from] in Hk. destruct k as [| k]; cbn [nth_error] in Hk.
    + injection Hk as <-. cbn [date expenses debt net_worth savings raw_debt].
      split; [lia |]. split; [reflexivity |].
      split; [minmax; lra |]. split; [reflexivity |].
      unfold debt_after. destruct (Qltb 0 d); reflexivity.
    + destruct (IH _ _ _ _ _ _ Hk) as (Hd & He & H0 & Hn & Hraw).
      split; [rewrite Hd; lia |]. split; [exact He |].
      split; [exact H0 |]. split; [exact Hn |].
      rewrite Hraw. cbn [raw_debt]. unfold debt_after at 3.
      destruct (Qltb 0 d); reflexivity.
Qed.

Lemma month_quotient (i : nat) :
  (if (0 <? i)%nat && (i mod 12 =? 0)%nat
   then i / 12 = S ((i - 1) / 12)
   else i / 12 = (i - 1) / 12)%nat.
Proof.
  pose proof (Nat.div_mod_eq i 12) as Hi.
  pose proof (Nat.div_mod_eq (i - 1) 12) as Hp.
  pose proof (Nat.mod_upper_bound i 12) as Bi.
  pose proof (Nat.mod_upper_bound (i - 1) 12) as Bp.
  destruct (0 <? i)%nat eqn:E0; cbn [andb].
  - apply Nat.ltb_lt in E0.
    destruct (i mod 12 =? 0)%nat eqn:E1.
    + apply Nat.eqb_eq in E1. lia.
    + apply Nat.eqb_neq in E1. lia.
  - apply Nat.ltb_ge in E0. assert (i = 0)%nat by lia. subst i. reflexivity.
Qed.

(** [a] to the power [k]. *)
Fixpoint pow (a : Q) (k : nat) : Q :=
  match k with
  | O => 1
  | S k' => a * pow a k'
  end.

Lemma rows_from_income apr e g x start : forall count i m s d k r,
  m == start * pow (1 + g) ((i - 1) / 12) ->
  nth_error (rows_from apr e g x count i m s d) k = Some r ->
  income r == start * pow (1 + g) ((i + k) / 12).
Proof.
  induction count as [| count IH]; intros i m s d k r Hm Hk.
  - destruct k; discriminate Hk.
  - cbn [rows_from] in Hk.
    pose proof (month_quotient i) as Hq.
    set (m' := if (0 <? i)%nat && (i mod 12 =? 0)%nat then m * (1 + g) else m) in *.
    assert (Hm' : m' == start * pow (1 + g) (i / 12)).
    { unfold m'. destruct ((0 <? i)%nat && (i mod 12 =? 0)%nat).
      - rewrite Hq. cbn [pow]. rewrite Hm. ring.
      - rewrite Hq. exact Hm. }
    destruct k as [| k]; cbn [nth_error] in Hk.
    + injection Hk as <-. cbn [income]. rewrite Nat.add_0_r. exact Hm'.
    + replace (i + S k)%nat with (S i + k)%nat by lia.
      eapply (IH (S i) m'); [| exact Hk].
      replace (S i - 1)%nat with i by lia. exact Hm'.
Qed.

(** Month over month the net worth moves by the income less the expenses,
    plus the interest on the savings, less the interest on the debt. *)
Lemma rows_from_net_worth apr e g x : forall count i m s d k before r,
  0 <= d ->
  nth_error (rows_from apr e g x count i m s d) k = Some before ->
  nth_error (rows_from apr e g x count i m s d) (S k) = Some r ->
  net_worth r - net_worth before
  == income r - expenses r + savings before * ((2 # 100) / 12)
     - debt before * (apr / 100 / 12).
Proof.
  induction count as [| count IH]; intros i m s d k before r Hd Hb Hr.
  - destruct k; discriminate Hb.
  - cbn [rows_from] in Hb, Hr. cbn [nth_error] in Hr.
    set (m' := if (0 <? i)%nat && (i mod 12 =? 0)%nat then m * (1 + g) else m) in *.
    set (after := if Qltb 0 d
                  then (d + d * (apr / 100 / 12)
                        - pymin (pymax (d * (2 # 100)) 25 + x) (d + d * (apr / 100 / 12)),
                        m' - e
                        - pymin (pymax (d * (2 # 100)) 25 + x) (d + d * (apr / 100 / 12)))
                  else (d, m' - e)) in *.
    assert (Hafter : 0 <= fst after).
    { unfold after. destruct (Qltb 0 d); cbn [fst]; [minmax; lra | exact Hd]. }
    destruct k as [| k]; cbn [nth_error] in Hb.
    + injection Hb as <-. cbn [net_worth savings debt].
      destruct count as [| count]; [discriminate Hr |].
      cbn [rows_from nth_error] in Hr.
      match type of Hr with
      | context [if ?c then m' * (1 + g) else m'] =>
          set (m2 := if c then m' * (1 + g) else m') in Hr
      end.
      clearbody m2. injection Hr as <-.
      cbn [net_worth savings debt income expenses].
      set (d1 := fst after) in *. clearbody d1.
      assert (E1 : pymax 0 d1 == d1) by (minmax; lra). rewrite !E1.
      destruct (Qltb 0 d1) eqn:Ed; cbn [fst snd].
      * assert (Hnn : 0 <= d1 + d1 * (apr / 100 / 12)
                           - pymin (pymax (d1 * (2 # 100)) 25 + x)
                                   (d1 + d1 * (apr / 100 / 12)))
          by (minmax; lra).
        set (pay := pymin (pymax (d1 * (2 # 100)) 25 + x) (d1 + d1 * (apr / 100 / 12))) in *.
        assert (E2 : pymax 0 (d1 + d1 * (apr / 100 / 12) - pay)
                     == d1 + d1 * (apr / 100 / 12) - pay) by (minmax; lra).
        rewrite E2.
        set (rho := (2 # 100) / 12). set (rate := apr / 100 / 12) in *.
        clearbody rho rate pay. ring.
      * rewrite E1.
        assert (Ez : d1 == 0) by (apply Qltb_ge in Ed; lra).
        set (rho := (2 # 100) / 12). set (rate := apr / 100 / 12) in *.
        clearbody rho rate. rewrite Ez. ring.
    + exact (IH _ _ _ _ k before r Hafter Hb Hr).
Qed.

Lemma raw_debt_settled apr x : forall j d,
  d <= 0 -> raw_debt apr x j d = d.
Proof.
  induction j as [| j IH]; intros d Hd; cbn [raw_debt]; [reflexivity |].
  assert (E : debt_after apr x d = d).
  { unfold debt_after. apply Qltb_ge in Hd. rewrite Hd. reflexivity. }
  rewrite E. apply IH. exact Hd.
Qed.

Lemma raw_debt_add apr x : forall j k d,
  raw_debt apr x (j + k) d = raw_debt apr x j (raw_debt apr x k d).
Proof.
  intros j k. revert j. induction k as [| k IH]; intros j d.
  - rewrite Nat.add_0_r. reflexivity.
  - replace (j + S k)%nat with (S (j + k)) by lia. cbn [raw_debt]. apply IH.
Qed.

(** Once the recorded debt of a month is not positive, it is 0 in every
    later month. *)
Lemma rows_from_settled apr e g x count i m s d k j r r' :
  nth_error (rows_from apr e g x count i m s d) k = Some r ->
  nth_error (rows_from apr e g x count i m s d) j = Some r' ->
  (k <= j)%nat ->
  debt r <= 0 ->
  debt r' == 0.
Proof.
  intros Hk Hj Hle Hzero.
  destruct (rows_from_row _ _ _ _ _ _ _ _ _ _ _ Hk) as (_ & _ & _ & _ & Hr).
  destruct (rows_from_row _ _ _ _ _ _ _ _ _ _ _ Hj) as (_ & _ & _ & _ & Hr').
  rewrite Hr in Hzero. rewrite Hr'.
  assert (Hraw : raw_debt apr x (S k) d <= 0) by (revert Hzero; minmax; lra).
  replace (S j) with ((j - k) + S k)%nat by lia.
  rewrite raw_debt_add, (raw_debt_settled apr x (j - k) _ Hraw).
  minmax; lra.
Qed.

(** At an APR of at most 24% the debt never grows from one month to the
    next. *)
Lemma debt_after_le apr x d :
  0 <= apr -> apr <= 24 -> 0 <= x -> 0 <= d ->
  0 <= debt_after apr x d /\ debt_after apr x d <= d.
Proof.
  intros Ha0 Ha1 Hx Hd. unfold debt_after.
  assert (Hr : apr / 100 / 12 == apr * (1 # 1200)) by field.
  destruct (Qltb 0 d) eqn:E; [apply Qltb_lt in E | split; lra].
  rewrite !Hr.
  assert (H0 : 0 <= d * (apr * (1 # 1200))) by (apply Qmult_le_0_compat; lra).
  assert (H1 : 0 <= d * ((24 - apr) * (1 # 1200))) by (apply Qmult_le_0_compat; lra).
  assert (H2 : d * (apr * (1 # 1200)) + d * ((24 - apr) * (1 # 1200)) == d * (2 # 100))
    by ring.
  set (interest := d * (apr * (1 # 1200))) in *. clearbody interest.
  set (slack := d * ((24 - apr) * (1 # 1200))) in *. clearbody slack.
  minmax; split; lra.
Qed.

(** Above 24% APR, with no extra payment, a debt of 1250 or more grows every
    month: the 2% minimum payment is less than the month's interest. *)
Lemma debt_after_grows apr d :
  24 < apr -> 1250 <= d -> d < debt_after apr 0 d.
Proof.
  intros Ha Hd. unfold debt_after.
  assert (Hr : apr / 100 / 12 == apr * (1 # 1200)) by field.
  assert (E : Qltb 0 d = true) by (apply Qltb_lt; lra). rewrite E.
  rewrite !Hr.
  assert (H1 : 0 < d * ((apr - 24) * (1 # 1200)))
    by (apply Qmult_lt_0_compat; lra).
  assert (H2 : d * (apr * (1 # 1200)) == d * ((apr - 24) * (1 # 1200)) + d * (2 # 100))
    by ring.
  set (interest := d * (apr * (1 # 1200))) in *. clearbody interest.
  set (excess := d * ((apr - 24) * (1 # 1200))) in *. clearbody excess.
  minmax; lra.
Qed.

Lemma raw_debt_le apr x : forall k d,
  0 <= apr -> apr <= 24 -> 0 <= x -> 0 <= d ->
  0 <= raw_debt apr x (S k) d /\ raw_debt apr x (S k) d <= raw_debt apr x k d.
Proof.
  induction k as [| k IH]; intros d Ha0 Ha1 Hx Hd.
  - cbn [raw_debt]. apply debt_after_le; assumption.
  - destruct (debt_after_le apr x d Ha0 Ha1 Hx Hd) as (H0 & _).
    change (raw_debt apr x (S (S k)) d)
      with (raw_debt apr x (S k) (debt_after apr x d)).
    change (raw_debt apr x (S k) d) with (raw_debt apr x k (debt_after apr x d)).
    apply IH; assumption.
Qed.

Lemma raw_debt_grows apr : forall k d,
  24 < apr -> 1250 <= d ->
  d <= raw_debt apr 0 k d /\ raw_debt apr 0 k d < raw_debt apr 0 (S k) d.
Proof.
  induction k as [| k IH]; intros d Ha Hd.
  - cbn [raw_debt]. split; [lra | apply debt_after_grows; assumption].
  - pose proof (debt_after_grows apr d Ha Hd) as Hg.
    change (raw_debt apr 0 (S (S k)) d)
      with (raw_debt apr 0 (S k) (debt_after apr 0 d)).
    change (raw_debt apr 0 (S k) d) with (raw_debt apr 0 k (debt_after apr 0 d)).
    destruct (IH (debt_after apr 0 d) Ha) as (H1 & H2); [lra |].
    split; [lra | exact H2].
Qed.

Lemma debt_free_month_none (df : list row) :
  (forall r, In r df -> 0 < debt r) -> debt_free_month df = None.
Proof.
  intros Hpos. unfold debt_free_month.
  assert (E : filter (fun r => Qleb (debt r) 0) df = []).
  { induction df as [| r rest IH]; [reflexivity |]. cbn [filter].
    assert (Hr : Qleb (debt r) 0 = false).
    { apply Qleb_gt. apply Hpos. left. reflexivity. }
    rewrite Hr. apply IH. intros r' Hin. apply Hpos. right. exact Hin. }
  rewrite E. reflexivity.
Qed.

(* ------------------------------------------------------------------ *)
(** ** Both paths, row by row *)

(** The profile holds numbers where the simulation reads them. *)
Definition typed_profile
  (self : FinancialSimulator) (inc saved monthly_expenses balance apr : Q) : Prop :=
  lookup (profile self) "monthly_income" = Some (PyNum inc)
  /\ lookup (profile self) "current_savings" = Some (PyNum saved)
  /\ sum_expenses (profile self) = Ok monthly_expenses
  /\ get (profile self) "total_debt" (PyNum 0) = PyNum balance
  /\ get (profile self) "primary_debt_apr" (PyNum 15) = PyNum apr.

(** The parameters of the improved path are numbers, given or defaulted. *)
Definition typed_params (params : dict) (growth reduction share : Q) : Prop :=
  get params "income_growth" (PyNum (2 # 100)) = PyNum growth
  /\ get params "expense_reduction" (PyNum (1 # 10)) = PyNum reduction
  /\ get params "extra_debt_payment" (PyNum (1 # 10)) = PyNum share.

Lemma current_path_rows self inc saved monthly_expenses balance apr :
  typed_profile self inc saved monthly_expenses balance apr ->
  simulate_current_path self
  = Ok (rows_from apr monthly_expenses (2 # 100) 0 (months self) 0 inc saved balance).
Proof.
  intros (Hinc & Hsav & Hexp & Hdebt & Hapr).
  unfold simulate_current_path, _calculate_monthly_results, getitem.
  rewrite Hinc, Hsav, Hexp, Hdebt. cbn [bind as_num].
  destruct (contains (profile self) "monthly_savings") eqn:E.
  - destruct (contains_getitem _ _ E) as (v & Hv). unfold getitem in Hv.
    rewrite Hv. cbn [bind String.eqb].
    apply months_loop_rows, Hapr.
  - cbn [bind]. apply months_loop_rows, Hapr.
Qed.

Lemma improved_path_rows self inc saved monthly_expenses balance apr
  params growth reduction share :
  typed_profile self inc saved monthly_expenses balance apr ->
  typed_params params growth reduction share ->
  simulate_improved_path self (Some params)
  = Ok (rows_from apr (monthly_expenses * (1 - reduction)) growth (share * inc)
          (months self) 0 inc saved balance).
Proof.
  intros (Hinc & Hsav & Hexp & Hdebt & Hapr) (Hg & Hr & Hs).
  unfold simulate_improved_path, _calculate_monthly_results, getitem.
  rewrite Hinc, Hsav, Hexp, Hdebt, Hg, Hr, Hs. cbn [bind as_num].
  destruct (contains (profile self) "monthly_savings") eqn:E.
  - destruct (contains_getitem _ _ E) as (v & Hv). unfold getitem in Hv.
    rewrite Hv. cbn [bind].
    apply months_loop_rows, Hapr.
  - cbn [bind]. apply months_loop_rows, Hapr.
Qed.

(** One row per month of the horizon, dated every 30 days, with constant
    expenses [e], an income that starts at [inc] and is multiplied by
    1 + [g] at the start of every year after the first, a recorded debt that
    is never negative and a net worth equal to savings less debt. *)
Definition shaped (self : FinancialSimulator) (rows : list row) (e inc g : Q)
  : Prop :=
  List.length rows = (simulation_years self * 12)%nat
  /\ forall k r,
       nth_error rows k = Some r ->
       date r = (30 * k)%nat
       /\ expenses r = e
       /\ income r == inc * pow (1 + g) (k / 12)
       /\ 0 <= debt r
       /\ net_worth r = savings r - debt r.

Lemma rows_from_shaped self apr e g x inc saved balance :
  months self = (simulation_years self * 12)%nat ->
  shaped self (rows_from apr e g x (months self) 0 inc saved balance) e inc g.
Proof.
  intros Hm. split; [rewrite rows_from_length; exact Hm |].
  intros k r Hk.
  destruct (rows_from_row _ _ _ _ _ _ _ _ _ _ _ Hk) as (Hd & He & H0 & Hn & _).
  split; [exact Hd |]. split; [exact He |]. split; [| split; assumption].
  apply (rows_from_income apr e g x inc (months self) 0%nat inc saved balance k r);
    [| exact Hk].
  cbn. ring.
Qed.

(** X15: on a well-typed profile both paths return one row per month of the
    horizon (12 per simulated year), dated every 30 days; the recorded debt
    is never negative and the net worth is savings less debt; the current
    path keeps the expenses and grows the income by 2% at each year boundary,
    the improved path cuts the expenses once by the reduction and grows the
    income by its own rate. *)
Theorem both_paths_shaped
  (profile : dict) (simulation_years : nat) (params : dict)
  (inc saved monthly_expenses balance apr growth reduction share : Q) :
  let self := init profile simulation_years in
  typed_profile self inc saved monthly_expenses balance apr ->
  typed_params params growth reduction share ->
  exists current improved,
    simulate_current_path self = Ok current
    /\ simulate_improved_path self (Some params) = Ok improved
    /\ shaped self current monthly_expenses inc (2 # 100)
    /\ shaped self improved (monthly_expenses * (1 - reduction)) inc growth.
Proof.
  intros self Hp Hq.
  eexists. eexists.
  split; [exact (current_path_rows self _ _ _ _ _ Hp) |].
  split; [exact (improved_path_rows self _ _ _ _ _ _ _ _ _ Hp Hq) |].
  split; apply rows_from_shaped; reflexivity.
Qed.

Lemma sample_profile_typed (years : nat) :
  typed_profile (init sample_profile years) 5000 10000 3600 5000 18.
Proof. repeat split; reflexivity. Qed.

Lemma sample_params_typed :
  typed_params sample_params (3 # 100) (1 # 10) (1 # 10).
Proof. repeat split; reflexivity. Qed.

Lemma both_paths_shaped_witness :
  typed_profile (init sample_profile 5) 5000 10000 3600 5000 18
  /\ typed_params sample_params (3 # 100) (1 # 10) (1 # 10)
  /\ exists current improved,
       simulate_current_path (init sample_profile 5) = Ok current
       /\ simulate_improved_path (init sample_profile 5) (Some sample_params)
          = Ok improved
       /\ List.length current = 60%nat
       /\ List.length improved = 60%nat.
Proof.
  split; [exact (sample_profile_typed 5) |]. split; [exact sample_params_typed |].
  destruct (both_paths_shaped sample_profile 5 sample_params
              5000 10000 3600 5000 18 (3 # 100) (1 # 10) (1 # 10)
              (sample_profile_typed 5) sample_params_typed)
    as (current & improved & Hc & Hi & (Hlc & _) & (Hli & _)).
  exists current, improved. repeat (split; [assumption |]). assumption.
Defined.

(** From one month to the next the net worth moves by the income less the
    expenses, plus the 2% yearly interest on the savings, less the interest
    on the debt of the month before. *)
Definition conserving (apr : Q) (rows : list row) : Prop :=
  forall k before r,
    nth_error rows k = Some before ->
    nth_error rows (S k) = Some r ->
    net_worth r - net_worth before
    == income r - expenses r + savings before * ((2 # 100) / 12)
       - debt before * (apr / 100 / 12).

(** The recorded debt, once not positive, is 0 ever after. *)
Definition settling (rows : list row) : Prop :=
  forall k j r r',
    nth_error rows k = Some r ->
    nth_error rows j = Some r' ->
    (k <= j)%nat ->
    debt r <= 0 ->
    debt r' == 0.

(** X16: on a well-typed profile with a nonnegative starting debt, in both
    paths a debt payment moves money from savings to debt without changing
    the net worth: from one month to the next the net worth changes by
    income less expenses, plus the interest on savings, less the interest on
    the debt; and once a month records no debt, no later month records
    any. *)
Theorem net_worth_change_and_settled_debt
  (profile : dict) (simulation_years : nat) (params : dict)
  (inc saved monthly_expenses balance apr growth reduction share : Q) :
  let self := init profile simulation_years in
  typed_profile self inc saved monthly_expenses balance apr ->
  typed_params params growth reduction share ->
  0 <= balance ->
  exists current improved,
    simulate_current_path self = Ok current
    /\ simulate_improved_path self (Some params) = Ok improved
    /\ conserving apr current /\ conserving apr improved
    /\ settling current /\ settling improved.
Proof.
  intros self Hp Hq Hb.
  eexists. eexists.
  split; [exact (current_path_rows self _ _ _ _ _ Hp) |].
  split; [exact (improved_path_rows self _ _ _ _ _ _ _ _ _ Hp Hq) |].
  split; [| split; [| split]].
  - intros k before r H1 H2. exact (rows_from_net_worth _ _ _ _ _ _ _ _ _ _ _ _ Hb H1 H2).
  - intros k before r H1 H2. exact (rows_from_net_worth _ _ _ _ _ _ _ _ _ _ _ _ Hb H1 H2).
  - intros k j r r' H1 H2 Hle Hz.
    exact (rows_from_settled _ _ _ _ _ _ _ _ _ _ _ _ _ H1 H2 Hle Hz).
  - intros k j r r' H1 H2 Hle Hz.
    exact (rows_from_settled _ _ _ _ _ _ _ _ _ _ _ _ _ H1 H2 Hle Hz).
Qed.

Lemma net_worth_change_and_settled_debt_witness :
  typed_profile (init sample_profile 5) 5000 10000 3600 5000 18
  /\ typed_params sample_params (3 # 100) (1 # 10) (1 # 10)
  /\ 0 <= 5000
  /\ exists current improved,
       simulate_current_path (init sample_profile 5) = Ok current
       /\ simulate_improved_path (init sample_profile 5) (Some sample_params)
          = Ok improved
       /\ conserving 18 current /\ settling improved.
Proof.
  assert (H : 0 <= 5000) by lra.
  split; [exact (sample_profile_typed 5) |]. split; [exact sample_params_typed |].
  split; [exact H |].
  destruct (net_worth_change_and_settled_debt sample_profile 5 sample_params
              5000 10000 3600 5000 18 (3 # 100) (1 # 10) (1 # 10)
              (sample_profile_typed 5) sample_params_typed H)
    as (current & improved & Hc & Hi & Hcc & _ & _ & Hsi).
  exists current, improved. repeat (split; [assumption |]). assumption.
Defined.

(* ------------------------------------------------------------------ *)
(** ** Which way the debt goes *)

Lemma rows_from_debt_sequence apr e g x count i m s d k before r :
  nth_error (rows_from apr e g x count i m s d) k = Some before ->
  nth_error (rows_from apr e g x count i m s d) (S k) = Some r ->
  debt before = pymax 0 (raw_debt apr x (S k) d)
  /\ debt r = pymax 0 (raw_debt apr x (S (S k)) d).
Proof.
  intros H1 H2.
  destruct (rows_from_row _ _ _ _ _ _ _ _ _ _ _ H1) as (_ & _ & _ & _ & Hb).
  destruct (rows_from_row _ _ _ _ _ _ _ _ _ _ _ H2) as (_ & _ & _ & _ & Hr).
  split; assumption.
Qed.

(** X17: at an APR between 0 and 24% with a nonnegative extra payment the
    recorded debt never rises from one month to the next and never exceeds
    the starting debt, in both paths; above 24% APR the current path, which
    pays the 2% minimum only, lets a debt of 1250 or more grow every month,
    so it records no debt-free month. *)
Theorem debt_direction
  (profile : dict) (simulation_years : nat) (params : dict)
  (inc saved monthly_expenses balance apr growth reduction share : Q) :
  let self := init profile simulation_years in
  typed_profile self inc saved monthly_expenses balance apr ->
  typed_params params growth reduction share ->
  0 <= balance ->
  0 <= share * inc ->
  exists current improved,
    simulate_current_path self = Ok current
    /\ simulate_improved_path self (Some params) = Ok improved
    /\ (0 <= apr -> apr <= 24 ->
        forall rows, rows = current \/ rows = improved ->
        (forall r, In r rows -> debt r <= balance)
        /\ forall k before r,
             nth_error rows k = Some before ->
             nth_error rows (S k) = Some r ->
             debt r <= debt before)
    /\ (24 < apr -> 1250 <= balance ->
        (forall r, In r current -> balance < debt r)
        /\ (forall k before r,
              nth_error current k = Some before ->
              nth_error current (S k) = Some r ->
              debt before < debt r)
        /\ debt_free_month current = None).
Proof.
  intros self Hp Hq Hb Hx.
  eexists. eexists.
  split; [exact (current_path_rows self _ _ _ _ _ Hp) |].
  split; [exact (improved_path_rows self _ _ _ _ _ _ _ _ _ Hp Hq) |].
  split.
  - intros Ha0 Ha1 rows Hrows.
    assert (Hgen : forall e g x, 0 <= x ->
              (forall r, In r (rows_from apr e g x (months self) 0 inc saved balance) ->
                 debt r <= balance)
              /\ forall k before r,
                   nth_error (rows_from apr e g x (months self) 0 inc saved balance) k
                   = Some before ->
                   nth_error (rows_from apr e g x (months self) 0 inc saved balance)
                     (S k) = Some r ->
                   debt r <= debt before).
    { intros e g x Hx0.
      assert (Hdown : forall k, 0 <= raw_debt apr x k balance
                                /\ raw_debt apr x k balance <= balance).
      { induction k as [| k IHk]; [cbn; lra |].
        destruct (raw_debt_le apr x k balance Ha0 Ha1 Hx0 Hb). lra. }
      split.
      - intros r Hin. apply In_nth_error in Hin. destruct Hin as (k & Hk).
        destruct (rows_from_row _ _ _ _ _ _ _ _ _ _ _ Hk) as (_ & _ & _ & _ & ->).
        destruct (Hdown (S k)). minmax; lra.
      - intros k before r H1 H2.
        destruct (rows_from_debt_sequence _ _ _ _ _ _ _ _ _ _ _ _ H1 H2) as (-> & ->).
        destruct (raw_debt_le apr x (S k) balance Ha0 Ha1 Hx0 Hb).
        destruct (Hdown (S k)). minmax; lra. }
    destruct Hrows as [-> | ->]; apply Hgen; [lra | exact Hx].
  - intros Ha Hd.
    assert (Hup : forall k r,
              nth_error (rows_from apr monthly_expenses (2 # 100) 0 (months self) 0
                           inc saved balance) k = Some r ->
              debt r == raw_debt apr 0 (S k) balance
              /\ balance < raw_debt apr 0 (S k) balance).
    { intros k r Hk.
      destruct (rows_from_row _ _ _ _ _ _ _ _ _ _ _ Hk) as (_ & _ & _ & _ & ->).
      destruct (raw_debt_grows apr k balance Ha Hd).
      split; [minmax; lra | lra]. }
    assert (Hall : forall r,
              In r (rows_from apr monthly_expenses (2 # 100) 0 (months self) 0
                      inc saved balance) -> balance < debt r).
    { intros r Hin. apply In_nth_error in Hin. destruct Hin as (k & Hk).
      destruct (Hup k r Hk) as (-> & H). exact H. }
    split; [exact Hall |]. split.
    + intros k before r H1 H2.
      destruct (Hup k before H1) as (-> & _). destruct (Hup (S k) r H2) as (-> & _).
      apply (raw_debt_grows apr (S k) balance Ha Hd).
    + apply debt_free_month_none. intros r Hin. specialize (Hall r Hin). lra.
Qed.

(** A profile with 3000 of card debt at 29.9% APR. *)
Definition profile_card_debt : dict :=
  [ ("monthly_income", PyNum 3000);
    ("current_savings", PyNum 500);
    ("expense_rent", PyNum 2000);
    ("total_debt", PyNum 3000);
    ("primary_debt_apr", PyNum (299 # 10)) ].

Lemma debt_direction_witness :
  typed_profile (init profile_card_debt 5) 3000 500 2000 3000 (299 # 10)
  /\ typed_params [] (2 # 100) (1 # 10) (1 # 10)
  /\ 0 <= 3000 /\ 0 <= (1 # 10) * 3000 /\ 24 < 299 # 10 /\ 1250 <= 3000
  /\ exists current,
       simulate_current_path (init profile_card_debt 5) = Ok current
       /\ debt_free_month current = None.
Proof.
  assert (Hp : typed_profile (init profile_card_debt 5) 3000 500 2000 3000 (299 # 10))
    by (repeat split; reflexivity).
  assert (Hq : typed_params [] (2 # 100) (1 # 10) (1 # 10))
    by (repeat split; reflexivity).
  assert (H1 : 0 <= 3000) by lra.
  assert (H2 : 0 <= (1 # 10) * 3000) by lra.
  assert (H3 : 24 < 299 # 10) by lra.
  assert (H4 : 1250 <= 3000) by lra.
  split; [exact Hp |]. split; [exact Hq |]. split; [exact H1 |].
  split; [exact H2 |]. split; [exact H3 |]. split; [exact H4 |].
  destruct (debt_direction profile_card_debt 5 [] 3000 500 2000 3000 (299 # 10)
              (2 # 100) (1 # 10) (1 # 10) Hp Hq H1 H2)
    as (current & improved & Hc & _ & _ & Htrap).
  exists current. split; [exact Hc |]. exact (proj2 (proj2 (Htrap H3 H4))).
Defined.

(* ------------------------------------------------------------------ *)
(** ** Missing fields, and the comparison *)

(** X18: a profile without [monthly_income] makes both paths raise
    [KeyError('monthly_income')] whatever else it holds; one that has the
    income and numeric expenses but lacks [current_savings] makes them raise
    [KeyError('current_savings')]; a missing [total_debt] is read as 0. *)
Theorem missing_profile_fields
  (self : FinancialSimulator) (scenario : string) (params : dict)
  (inc monthly_expenses : Q) :
  (lookup (profile self) "monthly_income" = None ->
   _calculate_monthly_results self scenario params
   = Raise (KeyError "monthly_income"))
  /\ (lookup (profile self) "monthly_income" = Some (PyNum inc) ->
      sum_expenses (profile self) = Ok monthly_expenses ->
      lookup (profile self) "current_savings" = None ->
      _calculate_monthly_results self scenario params
      = Raise (KeyError "current_savings"))
  /\ (lookup (profile self) "total_debt" = None ->
      get (profile self) "total_debt" (PyNum 0) = PyNum 0).
Proof.
  split; [| split].
  - intros H. unfold _calculate_monthly_results, getitem. rewrite H. reflexivity.
  - intros Hinc Hexp Hsav. unfold _calculate_monthly_results, getitem.
    rewrite Hinc, Hexp, Hsav. cbn [bind as_num].
    destruct (contains (profile self) "monthly_savings") eqn:E.
    + destruct (contains_lookup _ _ E) as (v & ->). reflexivity.
    + reflexivity.
  - intros H. unfold get. rewrite H. reflexivity.
Qed.

Definition profile_with_income_only : dict := [("monthly_income", PyNum 4000)].

Lemma missing_profile_fields_witness :
  lookup (profile (init profile_with_income_only 5)) "monthly_income"
  = Some (PyNum 4000)
  /\ sum_expenses (profile (init profile_with_income_only 5)) = Ok 0
  /\ lookup (profile (init profile_with_income_only 5)) "current_savings" = None
  /\ simulate_current_path (init profile_with_income_only 5)
     = Raise (KeyError "current_savings").
Proof.
  assert (H1 : lookup (profile (init profile_with_income_only 5)) "monthly_income"
               = Some (PyNum 4000)) by reflexivity.
  assert (H2 : sum_expenses (profile (init profile_with_income_only 5)) = Ok 0)
    by reflexivity.
  assert (H3 : lookup (profile (init profile_with_income_only 5)) "current_savings"
               = None) by reflexivity.
  split; [exact H1 |]. split; [exact H2 |]. split; [exact H3 |].
  destruct (missing_profile_fields (init profile_with_income_only 5) "current" []
              4000 0) as (_ & Hsav & _).
  exact (Hsav H1 H2 H3).
Defined.

Lemma raw_debt_mono apr x : forall k b1 b2,
  0 <= apr -> 0 <= x -> b1 <= b2 ->
  raw_debt apr x k b1 <= raw_debt apr 0 k b2.
Proof.
  induction k as [| k IH]; intros b1 b2 Ha Hx Hb; cbn [raw_debt]; [exact Hb |].
  apply IH; try assumption. apply debt_after_mono; assumption.
Qed.

Lemma iloc_last_nth (rows : list row) (n : nat) :
  List.length rows = S n ->
  exists r, iloc_last rows = Ok r /\ nth_error rows n = Some r.
Proof.
  intros Hlen.
  assert (Hne : rows <> []) by (intros ->; discriminate Hlen).
  destruct (exists_last Hne) as (front & r & ->).
  exists r. unfold iloc_last. rewrite rev_unit. split; [reflexivity |].
  rewrite length_app in Hlen. cbn in Hlen.
  rewrite nth_error_app2 by lia.
  replace (n - List.length front)%nat with 0%nat by lia. reflexivity.
Qed.

(** X19: on a well-typed profile [compare_scenarios] raises [IndexError] when
    the horizon is 0 years, the frames being empty; for a longer horizon it
    returns, the end date is that of the last month, each path's final net
    worth is its final savings less its final debt, the net worth difference
    is the savings difference plus the debt difference, and with a
    nonnegative income and APR the improved path never ends with more debt
    than the current one. *)
Theorem compare_scenarios_summary
  (profile : dict) (simulation_years : nat)
  (inc saved monthly_expenses balance apr : Q) :
  let self := init profile simulation_years in
  typed_profile self inc saved monthly_expenses balance apr ->
  (simulation_years = 0%nat -> compare_scenarios self = Raise IndexError)
  /\ ((0 < simulation_years)%nat ->
     exists current improved comparison,
       compare_scenarios self = Ok (current, improved, comparison)
       /\ simulate_current_path self = Ok current
       /\ simulate_improved_path self None = Ok improved
       /\ end_date comparison = (30 * (simulation_years * 12 - 1))%nat
       /\ final_net_worth (current_path comparison)
          = final_savings (current_path comparison)
            - final_debt (current_path comparison)
       /\ final_net_worth (improved_path comparison)
          = final_savings (improved_path comparison)
            - final_debt (improved_path comparison)
       /\ net_worth_diff comparison
          == savings_diff comparison + debt_diff comparison
       /\ debt_free_date (current_path comparison) = debt_free_month current
       /\ debt_free_date (improved_path comparison) = debt_free_month improved
       /\ (0 <= inc -> 0 <= apr -> 0 <= debt_diff comparison)).
Proof.
  intros self Hp.
  assert (Hq : typed_params
                 [ ("expense_reduction", PyNum (1 # 10));
                   ("income_growth", PyNum (3 # 100));
                   ("extra_debt_payment", PyNum (1 # 10)) ]
                 (3 # 100) (1 # 10) (1 # 10)) by (repeat split; reflexivity).
  pose proof (current_path_rows self _ _ _ _ _ Hp) as Hc.
  pose proof (improved_path_rows self _ _ _ _ _ _ _ _ _ Hp Hq) as Hi.
  assert (Hi' : simulate_improved_path self None
                = Ok (rows_from apr (monthly_expenses * (1 - (1 # 10))) (3 # 100)
                        ((1 # 10) * inc) (months self) 0 inc saved balance))
    by exact Hi.
  split.
  - intros Hzero. unfold compare_scenarios. rewrite Hc, Hi'. cbn [bind].
    unfold self. rewrite Hzero. reflexivity.
  - intros Hyears.
    set (n := (simulation_years * 12 - 1)%nat).
    assert (Hm : months self = S n) by (unfold self, n; cbn [months init]; lia).
    destruct (iloc_last_nth
                (rows_from apr monthly_expenses (2 # 100) 0 (months self) 0 inc saved
                   balance) n) as (c & Hlc & Hnc);
      [rewrite rows_from_length; exact Hm |].
    destruct (iloc_last_nth
                (rows_from apr (monthly_expenses * (1 - (1 # 10))) (3 # 100)
                   ((1 # 10) * inc) (months self) 0 inc saved balance) n)
      as (i & Hli & Hni);
      [rewrite rows_from_length; exact Hm |].
    eexists. eexists. eexists.
    split.
    { unfold compare_scenarios. rewrite Hc, Hi'. cbn [bind].
      rewrite Hlc, Hli. cbn [bind]. reflexivity. }
    destruct (rows_from_row _ _ _ _ _ _ _ _ _ _ _ Hnc) as (Hdc & _ & _ & Hwc & Hrc).
    destruct (rows_from_row _ _ _ _ _ _ _ _ _ _ _ Hni) as (_ & _ & _ & Hwi & Hri).
    cbn [end_date current_path improved_path final_net_worth final_savings
         final_debt net_worth_diff savings_diff debt_diff debt_free_date].
    split; [exact Hc |]. split; [exact Hi' |].
    split; [rewrite Hdc; reflexivity |].
    split; [exact Hwc |]. split; [exact Hwi |].
    split; [rewrite Hwc, Hwi; ring |].
    split; [reflexivity |]. split; [reflexivity |].
    intros Hinc Hapr. rewrite Hrc, Hri.
    assert (Hx : 0 <= (1 # 10) * inc) by lra.
    pose proof (raw_debt_mono apr ((1 # 10) * inc) (S n) balance balance Hapr Hx
                  (Qle_refl balance)) as Hle.
    minmax; lra.
Qed.

Lemma compare_scenarios_summary_witness :
  typed_profile (init sample_profile 0) 5000 10000 3600 5000 18
  /\ compare_scenarios (init sample_profile 0) = Raise IndexError.
Proof.
  split; [exact (sample_profile_typed 0) |].
  destruct (compare_scenarios_summary sample_profile 0 5000 10000 3600 5000 18
              (sample_profile_typed 0)) as (Hzero & _).
  exact (Hzero eq_refl).
Defined.

End Simulator.

(* ================================================================== *)
(** * [src/investment_simulator.py] *)

Module Invest.
Import Py.

(** An entry of [self.asset_classes]. *)
Record asset_class : Type := {
  avg_return : Q;
  volatility : Q;
  risk_level : string
}.

(** An [InvestmentSimulator] object. *)
Record InvestmentSimulator : Type := {
  profile : dict;
  simulation_years : nat;
  months : nat;
  asset_classes : dict_of asset_class;
  risk_profiles : dict_of (dict_of Q)
}.

(** [InvestmentSimulator(profile, simulation_years=5)]. *)
Definition init (profile : dict) (simulation_years : nat) : InvestmentSimulator := {|
  profile := profile;
  simulation_years := simulation_years;
  months := simulation_years * 12;
  asset_classes :=
    [ ("savings_account",
       {| avg_return := 2 # 100; volatility := 2 # 1000; risk_level := "very_low" |});
      ("bonds",
       {| avg_return := 4 # 100; volatility := 5 # 100; risk_level := "low" |});
      ("index_funds",
       {| avg_return := 8 # 100; volatility := 15 # 100; risk_level := "medium" |});
      ("stocks",
       {| avg_return := 10 # 100; volatility := 20 # 100; risk_level := "high" |});
      ("crypto",
       {| avg_return := 15 # 100; volatility := 50 # 100; risk_level := "very_high" |}) ];
  risk_profiles :=
    [ ("very_conservative",
       [ ("savings_account", 70 # 100); ("bonds", 30 # 100);
         ("index_funds", 0); ("stocks", 0); ("crypto", 0) ]);
      ("conservative",
       [ ("savings_account", 40 # 100); ("bonds", 40 # 100);
         ("index_funds", 20 # 100); ("stocks", 0); ("crypto", 0) ]);
      ("moderate",
       [ ("savings_account", 20 # 100); ("bonds", 30 # 100);
         ("index_funds", 40 # 100); ("stocks", 10 # 100); ("crypto", 0) ]);
      ("aggressive",
       [ ("savings_account", 10 # 100); ("bonds", 15 # 100);
         ("index_funds", 40 # 100); ("stocks", 30 # 100); ("crypto", 5 # 100) ]);
      ("very_aggressive",
       [ ("savings_account", 5 # 100); ("bonds", 10 # 100);
         ("index_funds", 30 # 100); ("stocks", 40 # 100); ("crypto", 15 # 100) ]) ]
|}.

(** The dictionary of lists the data frame is built from: the [date] and
    [total_value] columns and one column for each asset held. *)
Record dataframe : Type := {
  date : list nat;   (* days after [current_month] *)
  total_value : list Q;
  asset_columns : dict_of (list Q)
}.

(** [risk_score_map.get(risk_tolerance, 6)]; a dictionary is not hashable. *)
Definition risk_score_map_get (risk_tolerance : pyobj) (default : Q) : result Q :=
  match risk_tolerance with
  | PyStr s =>
      if String.eqb s "Low" then Ok 3
      else if String.eqb s "Medium" then Ok 6
      else if String.eqb s "High" then Ok 9
      else Ok default
  | PyDict _ => Raise TypeError
  | _ => Ok default
  end.

Definition recommend_risk_profile
  (self : InvestmentSimulator) (user_profile : dict) : result string :=
  age <- as_num (get user_profile "age" (PyNum 35)) ;;
  let years_to_retirement := pymax (65 - age) 5 in
  let current_savings := get user_profile "current_savings" (PyNum 0) in
  monthly_expenses <- sum_expenses user_profile ;;
  current_savings <- as_num current_savings ;;
  let has_emergency_fund := Qleb (monthly_expenses * 3) current_savings in
  let risk_tolerance := get user_profile "risk_tolerance" (PyStr "Medium") in
  let time_score := pymin 10 (years_to_retirement / 4) in
  let emergency_score := if has_emergency_fund then 7 else 3 in
  risk_score <- risk_score_map_get risk_tolerance 6 ;;
  let total_score :=
    (time_score * (5 # 10)) + (emergency_score * (3 # 10)) + (risk_score * (2 # 10)) in
  if Qltb total_score 3 then Ok "very_conservative"
  else if Qltb total_score 5 then Ok "conservative"
  else if Qltb total_score 7 then Ok "moderate"
  else if Qltb total_score (85 # 10) then Ok "aggressive"
  else Ok "very_aggressive".

(** Position of a risk profile in the order
    very_conservative < conservative < moderate < aggressive < very_aggressive. *)
Definition tier_rank (name : string) : nat :=
  if String.eqb name "very_conservative" then 0
  else if String.eqb name "conservative" then 1
  else if String.eqb name "moderate" then 2
  else if String.eqb name "aggressive" then 3
  else 4.

(** ** The recommendation *)

Lemma score_tiers (common : Q) (lower higher : Q) :
  lower <= higher ->
  forall a b,
    (if Qltb (common + lower * (2 # 10)) 3 then Ok "very_conservative"
     else if Qltb (common + lower * (2 # 10)) 5 then Ok "conservative"
     else if Qltb (common + lower * (2 # 10)) 7 then Ok "moderate"
     else if Qltb (common + lower * (2 # 10)) (85 # 10) then Ok "aggressive"
     else Ok "very_aggressive") = Ok a ->
    (if Qltb (common + higher * (2 # 10)) 3 then Ok "very_conservative"
     else if Qltb (common + higher * (2 # 10)) 5 then Ok "conservative"
     else if Qltb (common + higher * (2 # 10)) 7 then Ok "moderate"
     else if Qltb (common + higher * (2 # 10)) (85 # 10) then Ok "aggressive"
     else Ok "very_aggressive") = Ok b ->
    (tier_rank a <= tier_rank b)%nat.
Proof.
  intros Hle a b.
  set (x := common + lower * (2 # 10)).
  set (y := common + higher * (2 # 10)).
  assert (Hxy : x <= y) by (unfold x, y; lra).
  clearbody x y.
  repeat match goal with
  | |- context [Qltb ?u ?v] =>
      let E := fresh "E" in
      destruct (Qltb u v) eqn:E;
      [apply Qltb_lt in E | apply Qltb_ge in E]
  end;
  intros Ha Hb; injection Ha as <-; injection Hb as <-;
  try (cbn; lia); lra.
Qed.

Lemma recommend_with_tolerance
  (self : InvestmentSimulator) (user_profile : dict)
  (age current_savings monthly_expenses : Q) (tolerance : string) (score : Q) :
  get user_profile "age" (PyNum 35) = PyNum age ->
  get user_profile "current_savings" (PyNum 0) = PyNum current_savings ->
  sum_expenses user_profile = Ok monthly_expenses ->
  risk_score_map_get (PyStr tolerance) 6 = Ok score ->
  let common :=
    pymin 10 (pymax (65 - age) 5 / 4) * (5 # 10)
    + (if Qleb (monthly_expenses * 3) current_savings then 7 else 3) * (3 # 10) in
  recommend_risk_profile self
    (setitem user_profile "risk_tolerance" (PyStr tolerance))
  = (if Qltb (common + score * (2 # 10)) 3 then Ok "very_conservative"
     else if Qltb (common + score * (2 # 10)) 5 then Ok "conservative"
     else if Qltb (common + score * (2 # 10)) 7 then Ok "moderate"
     else if Qltb (common + score * (2 # 10)) (85 # 10) then Ok "aggressive"
     else Ok "very_aggressive").
Proof.
  intros Hage Hsav Hexp Hscore common.
  unfold recommend_risk_profile, sum_expenses, get in *.
  rewrite expense_values_setitem by reflexivity.
  rewrite !lookup_setitem_other by reflexivity.
  rewrite lookup_setitem_same.
  rewrite Hage, Hsav. cbn [as_num bind].
  unfold sum_expenses in Hexp. rewrite Hexp. cbn [as_num bind].
  rewrite Hscore. cbn [bind]. reflexivity.
Qed.

(** C8: with age, savings and expense fields fixed, the recommended risk
    profile does not decrease with the stated risk tolerance, in the order
    very_conservative < conservative < moderate < aggressive <
    very_aggressive: the recommendation for 'Low' is at most that for
    'Medium', which is at most that for 'High'. *)
Theorem recommendation_monotone_in_tolerance
  (self : InvestmentSimulator) (user_profile : dict)
  (age current_savings monthly_expenses : Q) :
  get user_profile "age" (PyNum 35) = PyNum age ->
  get user_profile "current_savings" (PyNum 0) = PyNum current_savings ->
  sum_expenses user_profile = Ok monthly_expenses ->
  exists low medium high,
    recommend_risk_profile self
      (setitem user_profile "risk_tolerance" (PyStr "Low")) = Ok low
    /\ recommend_risk_profile self
         (setitem user_profile "risk_tolerance" (PyStr "Medium")) = Ok medium
    /\ recommend_risk_profile self
         (setitem user_profile "risk_tolerance" (PyStr "High")) = Ok high
    /\ (tier_rank low <= tier_rank medium)%nat
    /\ (tier_rank medium <= tier_rank high)%nat.
Proof.
  intros Hage Hsav Hexp.
  pose proof (recommend_with_tolerance self user_profile age current_savings
                monthly_expenses "Low" 3 Hage Hsav Hexp eq_refl) as Hlow.
  pose proof (recommend_with_tolerance self user_profile age current_savings
                monthly_expenses "Medium" 6 Hage Hsav Hexp eq_refl) as Hmed.
  pose proof (recommend_with_tolerance self user_profile age current_savings
                monthly_expenses "High" 9 Hage Hsav Hexp eq_refl) as Hhigh.
  cbv zeta in Hlow, Hmed, Hhigh.
  set (common := pymin 10 (pymax (65 - age) 5 / 4) * (5 # 10)
                 + (if Qleb (monthly_expenses * 3) current_savings then 7 else 3)
                   * (3 # 10)) in *.
  clearbody common.
  assert (Hex : forall score, exists name,
            (if Qltb (common + score * (2 # 10)) 3 then Ok "very_conservative"
             else if Qltb (common + score * (2 # 10)) 5 then Ok "conservative"
             else if Qltb (common + score * (2 # 10)) 7 then Ok "moderate"
             else if Qltb (common + score * (2 # 10)) (85 # 10) then Ok "aggressive"
             else Ok "very_aggressive") = Ok name).
  { intros score.
    repeat match goal with
    | |- context [Qltb ?u ?v] => destruct (Qltb u v)
    end; eexists; reflexivity. }
  destruct (Hex 3) as (low & Elow).
  destruct (Hex 6) as (medium & Emed).
  destruct (Hex 9) as (high & Ehigh).
  exists low, medium, high.
  rewrite Hlow, Hmed, Hhigh.
  split; [exact Elow |]. split; [exact Emed |]. split; [exact Ehigh |].
  split.
  - apply (score_tiers common 3 6); [lra | exact Elow | exact Emed].
  - apply (score_tiers common 6 9); [lra | exact Emed | exact Ehigh].
Qed.

Definition sample_user : dict :=
  [ ("age", PyNum 30);
    ("monthly_income", PyNum 5000);
    ("current_savings", PyNum 15000);
    ("expense_rent_mortgage", PyNum 1500);
    ("expense_utilities", PyNum 200);
    ("expense_groceries", PyNum 400);
    ("expense_dining_out", PyNum 300);
    ("expense_transportation", PyNum 200);
    ("risk_tolerance", PyStr "Medium") ].

Lemma recommendation_monotone_in_tolerance_witness :
  get sample_user "age" (PyNum 35) = PyNum 30
  /\ get sample_user "current_savings" (PyNum 0) = PyNum 15000
  /\ sum_expenses sample_user = Ok 2600
  /\ exists low medium high,
       recommend_risk_profile (init sample_user 10)
         (setitem sample_user "risk_tolerance" (PyStr "Low")) = Ok low
       /\ recommend_risk_profile (init sample_user 10)
            (setitem sample_user "risk_tolerance" (PyStr "Medium")) = Ok medium
       /\ recommend_risk_profile (init sample_user 10)
            (setitem sample_user "risk_tolerance" (PyStr "High")) = Ok high
       /\ (tier_rank low <= tier_rank medium)%nat
       /\ (tier_rank medium <= tier_rank high)%nat.
Proof.
  assert (E1 : get sample_user "age" (PyNum 35) = PyNum 30) by reflexivity.
  assert (E2 : get sample_user "current_savings" (PyNum 0) = PyNum 15000)
    by reflexivity.
  assert (E3 : sum_expenses sample_user = Ok 2600) by reflexivity.
  split; [exact E1 |]. split; [exact E2 |]. split; [exact E3 |].
  exact (recommendation_monotone_in_tolerance (init sample_user 10) sample_user
           30 15000 2600 E1 E2 E3).
Defined.

(* ------------------------------------------------------------------ *)
(** ** More on the recommendation *)

(** The profile a total score maps to. *)
Definition tier_of (total_score : Q) : string :=
  if Qltb total_score 3 then "very_conservative"
  else if Qltb total_score 5 then "conservative"
  else if Qltb total_score 7 then "moderate"
  else if Qltb total_score (85 # 10) then "aggressive"
  else "very_aggressive".

(** The weighted score of an age, an emergency fund and a tolerance score. *)
Definition total_score_of (age monthly_expenses current_savings risk_score : Q) : Q :=
  pymin 10 (pymax (65 - age) 5 / 4) * (5 # 10)
  + (if Qleb (monthly_expenses * 3) current_savings then 7 else 3) * (3 # 10)
  + risk_score * (2 # 10).

Lemma tier_of_mono x y :
  x <= y -> (tier_rank (tier_of x) <= tier_rank (tier_of y))%nat.
Proof.
  intros Hxy. unfold tier_of.
  repeat match goal with
  | |- context [Qltb ?u ?v] =>
      let E := fresh "E" in
      destruct (Qltb u v) eqn:E; [apply Qltb_lt in E | apply Qltb_ge in E]
  end; try (cbn; lia); lra.
Qed.

Lemma tier_of_known x :
  In (tier_of x)
     ["very_conservative"; "conservative"; "moderate"; "aggressive";
      "very_aggressive"].
Proof.
  unfold tier_of.
  repeat match goal with
  | |- context [Qltb ?u ?v] => destruct (Qltb u v)
  end; cbn; auto 10.
Qed.

Lemma recommend_score
  (self : InvestmentSimulator) (user_profile : dict)
  (age current_savings monthly_expenses risk_score : Q) :
  get user_profile "age" (PyNum 35) = PyNum age ->
  get user_profile "current_savings" (PyNum 0) = PyNum current_savings ->
  sum_expenses user_profile = Ok monthly_expenses ->
  risk_score_map_get (get user_profile "risk_tolerance" (PyStr "Medium")) 6
  = Ok risk_score ->
  recommend_risk_profile self user_profile
  = Ok (tier_of (total_score_of age monthly_expenses current_savings risk_score)).
Proof.
  intros Hage Hsav Hexp Hscore. unfold recommend_risk_profile.
  rewrite Hage, Hsav, Hexp. cbn [as_num bind]. rewrite Hscore. cbn [bind].
  unfold tier_of, total_score_of.
  repeat match goal with
  | |- context [Qltb ?u ?v] => destruct (Qltb u v)
  end; reflexivity.
Qed.

Lemma total_score_mono age1 age2 e s1 s2 score :
  age1 <= age2 -> s1 <= s2 ->
  total_score_of age2 e s1 score <= total_score_of age1 e s2 score.
Proof.
  intros Hage Hs. unfold total_score_of.
  assert (Htime : pymin 10 (pymax (65 - age2) 5 / 4)
                  <= pymin 10 (pymax (65 - age1) 5 / 4)).
  { assert (Hy : pymax (65 - age2) 5 <= pymax (65 - age1) 5) by (minmax; lra).
    assert (Hq : forall v, v / 4 == v * (1 # 4)) by (intros v; field).
    rewrite !Hq.
    set (y2 := pymax (65 - age2) 5) in *. set (y1 := pymax (65 - age1) 5) in *.
    clearbody y1 y2. minmax; lra. }
  assert (Hfund : (if Qleb (e * 3) s1 then 7 else 3)
                  <= (if Qleb (e * 3) s2 then 7 else 3)).
  { destruct (Qleb (e * 3) s1) eqn:E1; [apply Qleb_le in E1 | apply Qleb_gt in E1];
    destruct (Qleb (e * 3) s2) eqn:E2; [apply Qleb_le in E2 | apply Qleb_gt in E2
                                       | apply Qleb_le in E2 | apply Qleb_gt in E2];
    lra. }
  set (t2 := pymin 10 (pymax (65 - age2) 5 / 4)) in *.
  set (t1 := pymin 10 (pymax (65 - age1) 5 / 4)) in *.
  set (f1 := if Qleb (e * 3) s1 then 7 else 3) in *.
  set (f2 := if Qleb (e * 3) s2 then 7 else 3) in *.
  clearbody t1 t2 f1 f2. lra.
Qed.

(** The profile with the age and the savings replaced. *)
Definition with_age_and_savings (user_profile : dict) (age current_savings : Q) : dict :=
  setitem (setitem user_profile "age" (PyNum age)) "current_savings"
    (PyNum current_savings).

(** X20: with the expenses and the stated tolerance fixed, a younger user or
    one with more savings is never recommended a more conservative profile:
    for age1 <= age2 and savings1 <= savings2 the recommendation for
    (age2, savings1) is at most that for (age1, savings2); and every
    recommendation is one of the five profile names. *)
Theorem recommendation_monotone_in_age_and_savings
  (self : InvestmentSimulator) (user_profile : dict)
  (age1 age2 savings1 savings2 monthly_expenses risk_score : Q) :
  sum_expenses user_profile = Ok monthly_expenses ->
  risk_score_map_get (get user_profile "risk_tolerance" (PyStr "Medium")) 6
  = Ok risk_score ->
  age1 <= age2 ->
  savings1 <= savings2 ->
  exists older younger,
    recommend_risk_profile self (with_age_and_savings user_profile age2 savings1)
    = Ok older
    /\ recommend_risk_profile self (with_age_and_savings user_profile age1 savings2)
       = Ok younger
    /\ (tier_rank older <= tier_rank younger)%nat
    /\ In older (keys (risk_profiles (init user_profile 5)))
    /\ In younger (keys (risk_profiles (init user_profile 5))).
Proof.
  intros Hexp Hscore Hage Hsav.
  assert (Hrec : forall a v,
            recommend_risk_profile self (with_age_and_savings user_profile a v)
            = Ok (tier_of (total_score_of a monthly_expenses v risk_score))).
  { intros a v. unfold with_age_and_savings. apply recommend_score.
    - unfold get. rewrite lookup_setitem_other by reflexivity.
      rewrite lookup_setitem_same. reflexivity.
    - unfold get. rewrite lookup_setitem_same. reflexivity.
    - unfold sum_expenses. rewrite !expense_values_setitem by reflexivity.
      exact Hexp.
    - unfold get in *. rewrite !lookup_setitem_other by reflexivity. exact Hscore. }
  eexists. eexists. split; [apply Hrec |]. split; [apply Hrec |].
  split; [apply tier_of_mono, total_score_mono; assumption |].
  split; apply tier_of_known.
Qed.

Lemma recommendation_monotone_in_age_and_savings_witness :
  sum_expenses sample_user = Ok 2600
  /\ risk_score_map_get (get sample_user "risk_tolerance" (PyStr "Medium")) 6 = Ok 6
  /\ 25 <= 62 /\ 1000 <= 15000
  /\ exists older younger,
       recommend_risk_profile (init sample_user 10)
         (with_age_and_savings sample_user 62 1000) = Ok older
       /\ recommend_risk_profile (init sample_user 10)
            (with_age_and_savings sample_user 25 15000) = Ok younger
       /\ (tier_rank older <= tier_rank younger)%nat.
Proof.
  assert (H1 : sum_expenses sample_user = Ok 2600) by reflexivity.
  assert (H2 : risk_score_map_get (get sample_user "risk_tolerance" (PyStr "Medium")) 6
               = Ok 6) by reflexivity.
  assert (H3 : 25 <= 62) by lra.
  assert (H4 : 1000 <= 15000) by lra.
  split; [exact H1 |]. split; [exact H2 |]. split; [exact H3 |]. split; [exact H4 |].
  destruct (recommendation_monotone_in_age_and_savings (init sample_user 10)
              sample_user 25 62 1000 15000 2600 6 H1 H2 H3 H4)
    as (older & younger & Ho & Hy & Hle & _).
  exists older, younger. split; [exact Ho |]. split; [exact Hy | exact Hle].
Defined.

(** X21: the stated tolerance is matched by exact spelling: any string other
    than 'Low' and 'High' (so 'low', 'HIGH' or the empty string too) gives the
    recommendation of 'Medium', as does a profile without the field; a
    dictionary as tolerance raises [TypeError] once age, expenses and savings
    have been read. *)
Theorem tolerance_spelling
  (self : InvestmentSimulator) (user_profile : dict) (tolerance : string)
  (items : list (string * pyobj)) (age current_savings monthly_expenses : Q) :
  tolerance <> "Low" -> tolerance <> "High" ->
  recommend_risk_profile self
    (setitem user_profile "risk_tolerance" (PyStr tolerance))
  = recommend_risk_profile self
      (setitem user_profile "risk_tolerance" (PyStr "Medium"))
  /\ (lookup user_profile "risk_tolerance" = None ->
      recommend_risk_profile self user_profile
      = recommend_risk_profile self
          (setitem user_profile "risk_tolerance" (PyStr "Medium")))
  /\ (get user_profile "age" (PyNum 35) = PyNum age ->
      get user_profile "current_savings" (PyNum 0) = PyNum current_savings ->
      sum_expenses user_profile = Ok monthly_expenses ->
      recommend_risk_profile self
        (setitem user_profile "risk_tolerance" (PyDict items))
      = Raise TypeError).
Proof.
  intros Hlow Hhigh.
  assert (Hother : forall v,
            recommend_risk_profile self (setitem user_profile "risk_tolerance" v)
            = (age <- as_num (get user_profile "age" (PyNum 35)) ;;
               monthly_expenses <- sum_expenses user_profile ;;
               current_savings <-
                 as_num (get user_profile "current_savings" (PyNum 0)) ;;
               risk_score <- risk_score_map_get v 6 ;;
               Ok (tier_of (total_score_of age monthly_expenses current_savings
                              risk_score)))).
  { intros v. unfold recommend_risk_profile, sum_expenses, get.
    rewrite expense_values_setitem by reflexivity.
    rewrite !lookup_setitem_other by reflexivity. rewrite lookup_setitem_same.
    destruct (as_num match lookup user_profile "age" with
                     | Some v0 => v0 | None => PyNum 35 end); [| reflexivity].
    cbn [bind]. destruct (sum (expense_values user_profile)); [| reflexivity].
    cbn [bind].
    destruct (as_num match lookup user_profile "current_savings" with
                     | Some v0 => v0 | None => PyNum 0 end); [| reflexivity].
    cbn [bind]. destruct (risk_score_map_get v 6); [| reflexivity].
    cbn [bind]. unfold tier_of, total_score_of.
    repeat match goal with
    | |- context [Qltb ?u ?v] => destruct (Qltb u v)
    end; reflexivity. }
  assert (Hsix : risk_score_map_get (PyStr tolerance) 6 = Ok 6).
  { unfold risk_score_map_get.
    destruct (String.eqb tolerance "Low") eqn:E1;
      [apply String.eqb_eq in E1; contradiction |].
    destruct (String.eqb tolerance "Medium"); [reflexivity |].
    destruct (String.eqb tolerance "High") eqn:E3;
      [apply String.eqb_eq in E3; contradiction | reflexivity]. }
  split; [| split].
  - rewrite !Hother, Hsix. reflexivity.
  - intros Hnone. rewrite Hother. unfold recommend_risk_profile.
    assert (Hget : get user_profile "risk_tolerance" (PyStr "Medium") = PyStr "Medium")
      by (unfold get; rewrite Hnone; reflexivity).
    rewrite Hget.
    destruct (as_num (get user_profile "age" (PyNum 35))); [| reflexivity].
    cbn [bind]. destruct (sum_expenses user_profile); [| reflexivity].
    cbn [bind].
    destruct (as_num (get user_profile "current_savings" (PyNum 0))); [| reflexivity].
    cbn [bind risk_score_map_get String.eqb Ascii.eqb Bool.eqb].
    unfold tier_of, total_score_of.
    repeat match goal with
    | |- context [Qltb ?u ?v] => destruct (Qltb u v)
    end; reflexivity.
  - intros Hage Hsav Hexp. rewrite Hother, Hage, Hsav, Hexp. reflexivity.
Qed.

Lemma tolerance_spelling_witness :
  "low" <> "Low" /\ "low" <> "High"
  /\ recommend_risk_profile (init sample_user 10)
       (setitem sample_user "risk_tolerance" (PyStr "low"))
     = recommend_risk_profile (init sample_user 10)
         (setitem sample_user "risk_tolerance" (PyStr "Medium")).
Proof.
  assert (H1 : "low" <> "Low") by discriminate.
  assert (H2 : "low" <> "High") by discriminate.
  split; [exact H1 |]. split; [exact H2 |].
  exact (proj1 (tolerance_spelling (init sample_user 10) sample_user "low" []
                  0 0 0 H1 H2)).
Defined.

Section Simulation.

(** What the code takes from the Python runtime and from numpy: the power
    operator at a fractional exponent, the square root, and the global random
    generator, whose state [G] every draw advances. *)
Variable power : Q -> Q -> Q.                      (* x ** y *)
Variable sqrt : Q -> Q.                            (* np.sqrt(x) *)
Variable G : Type.
Variable normal : Q -> Q -> nat -> G -> list Q * G.  (* np.random.normal(loc, scale, size) *)

Definition _generate_monthly_returns
  (self : InvestmentSimulator) (asset_class : string) (months : nat) (g : G)
  : result (list Q * G) :=
  asset <- getitem (asset_classes self) asset_class ;;
  let annual_return := avg_return asset in
  let annual_volatility := volatility asset in
  let monthly_return := power (1 + annual_return) (1 / 12) - 1 in
  let monthly_volatility := annual_volatility / sqrt 12 in
  Ok (normal monthly_return monthly_volatility months g).

(** [for asset in allocation.keys(): if allocation[asset] > 0:
    results[asset] = []]; [allocation[asset]] is the weight the key is stored
    with. *)
Fixpoint empty_columns (allocation : dict_of Q) (results : dict_of (list Q))
  : dict_of (list Q) :=
  match allocation with
  | [] => results
  | (asset, alloc_pct) :: rest =>
      if Qltb 0 alloc_pct
      then empty_columns rest (setitem results asset [])
      else empty_columns rest results
  end.

(** [for asset in allocation.keys(): if allocation[asset] > 0:
    asset_returns[asset] = self._generate_monthly_returns(asset, self.months)]. *)
Fixpoint generate_returns
  (self : InvestmentSimulator) (allocation : dict_of Q)
  (asset_returns : dict_of (list Q)) (g : G) : result (dict_of (list Q) * G) :=
  match allocation with
  | [] => Ok (asset_returns, g)
  | (asset, alloc_pct) :: rest =>
      if Qltb 0 alloc_pct then
        drawn <- _generate_monthly_returns self asset (months self) g ;;
        generate_returns self rest (setitem asset_returns asset (fst drawn)) (snd drawn)
      else generate_returns self rest asset_returns g
  end.

(** [for asset, alloc_pct in allocation.items(): if alloc_pct > 0:
    current_values[asset] = initial_investment * alloc_pct]. *)
Fixpoint initial_values
  (initial_investment : Q) (allocation : dict_of Q) (current_values : dict_of Q)
  : dict_of Q :=
  match allocation with
  | [] => current_values
  | (asset, alloc_pct) :: rest =>
      if Qltb 0 alloc_pct
      then initial_values initial_investment rest
             (setitem current_values asset (initial_investment * alloc_pct))
      else initial_values initial_investment rest current_values
  end.

(** The inner [for asset, alloc_pct in allocation.items()] loop of month [i]:
    it updates [current_values] and appends to the asset columns. *)
Fixpoint assets_loop
  (self : InvestmentSimulator) (monthly_contribution : Q)
  (asset_returns : dict_of (list Q)) (i : nat) (allocation : dict_of Q)
  (current_values : dict_of Q) (columns : dict_of (list Q))
  : result (dict_of Q * dict_of (list Q)) :=
  match allocation with
  | [] => Ok (current_values, columns)
  | (asset, alloc_pct) :: rest =>
      if Qltb 0 alloc_pct then
        let contribution := monthly_contribution * alloc_pct in
        returns <- getitem asset_returns asset ;;
        monthly_roi <-
          (if (i <? List.length returns)%nat then Ok (nth i returns 0)
           else
             class <- getitem (asset_classes self) asset ;;
             Ok (power (1 + avg_return class) (1 / 12) - 1)) ;;
        value <- getitem current_values asset ;;
        let value := value * (1 + monthly_roi) + contribution in
        column <- getitem columns asset ;;
        assets_loop self monthly_contribution asset_returns i rest
          (setitem current_values asset value)
          (setitem columns asset (column ++ [value]))
      else
        assets_loop self monthly_contribution asset_returns i rest
          current_values columns
  end.

(** [sum(current_values.values())]. *)
Definition sum_values (xs : list Q) : Q := fold_left Qplus xs 0.

(** The [for i in range(self.months)] loop: [count] months from month [i]. *)
Fixpoint path_loop
  (self : InvestmentSimulator) (monthly_contribution : Q)
  (asset_returns : dict_of (list Q)) (allocation : dict_of Q)
  (count i : nat) (current_values : dict_of Q) (results : dataframe)
  : result dataframe :=
  match count with
  | O => Ok results
  | S count' =>
      let current_date := (30 * i)%nat in
      updated <- assets_loop self monthly_contribution asset_returns i allocation
                   current_values (asset_columns results) ;;
      let current_values := fst updated in
      let total := sum_values (values current_values) in
      path_loop self monthly_contribution asset_returns allocation count' (S i)
        current_values
        {| date := date results ++ [current_date];
           total_value := total_value results ++ [total];
           asset_columns := snd updated |}
  end.

(** The part of [simulate_investment_path] after the returns are drawn. *)
Definition simulate_with_returns
  (self : InvestmentSimulator) (allocation : dict_of Q)
  (monthly_contribution initial_investment : Q) (asset_returns : dict_of (list Q))
  : result dataframe :=
  path_loop self monthly_contribution asset_returns allocation (months self) 0
    (initial_values initial_investment allocation [])
    {| date := []; total_value := []; asset_columns := empty_columns allocation [] |}.

Definition simulate_investment_path
  (self : InvestmentSimulator) (risk_profile : string)
  (monthly_contribution initial_investment : Q) (g : G) : result (dataframe * G) :=
  if negb (contains (risk_profiles self) risk_profile) then
    Raise (ValueError ("Risk profile '" ++ risk_profile ++ "' not recognized")%string)
  else
    allocation <- getitem (risk_profiles self) risk_profile ;;
    drawn <- generate_returns self allocation [] g ;;
    df <- simulate_with_returns self allocation monthly_contribution
            initial_investment (fst drawn) ;;
    Ok (df, snd drawn).

(** ** The month loop, asset by asset *)

(** The entries of an allocation with a positive weight. *)
Definition active (allocation : dict_of Q) : dict_of Q :=
  filter (fun item => Qltb 0 (snd item)) allocation.

(** What the simulation keeps for one asset held: its weight, the returns
    drawn for it, the return used once those run out, its current value and
    its column so far. *)
Record holding : Type := {
  asset : string;
  weight : Q;
  returns : list Q;
  fallback : Q;
  value : Q;
  column : list Q
}.

Definition values_of (hs : list holding) : dict_of Q :=
  map (fun h => (asset h, value h)) hs.
Definition columns_of (hs : list holding) : dict_of (list Q) :=
  map (fun h => (asset h, column h)) hs.
Definition weights_of (hs : list holding) : dict_of Q :=
  map (fun h => (asset h, weight h)) hs.

(** [monthly_roi] of month [i]. *)
Definition roi_at (returns : list Q) (fallback : Q) (i : nat) : Q :=
  if (i <? List.length returns)%nat then nth i returns 0 else fallback.

(** One month for one asset: [value * (1 + monthly_roi) + contribution]. *)
Definition advance (monthly_contribution : Q) (i : nat) (h : holding) : holding :=
  let value :=
    value h * (1 + roi_at (returns h) (fallback h) i)
    + monthly_contribution * weight h in
  {| asset := asset h;
     weight := weight h;
     returns := returns h;
     fallback := fallback h;
     value := value;
     column := column h ++ [value] |}.

(** [count] months for one asset, from month [i]. *)
Fixpoint advance_n
  (monthly_contribution : Q) (count i : nat) (h : holding) : holding :=
  match count with
  | O => h
  | S count' =>
      advance_n monthly_contribution count' (S i) (advance monthly_contribution i h)
  end.

(** The column of one asset over [count] months from month [i], started
    from [value]. *)
Fixpoint asset_path
  (monthly_contribution weight : Q) (returns : list Q) (fallback : Q)
  (count i : nat) (value : Q) : list Q :=
  match count with
  | O => []
  | S count' =>
      let value :=
        value * (1 + roi_at returns fallback i) + monthly_contribution * weight in
      value :: asset_path monthly_contribution weight returns fallback count' (S i) value
  end.

(** The [total_value] column over [count] months from month [i]. *)
Fixpoint totals
  (monthly_contribution : Q) (count i : nat) (hs : list holding) : list Q :=
  match count with
  | O => []
  | S count' =>
      let hs := map (advance monthly_contribution i) hs in
      sum_values (values (values_of hs))
      :: totals monthly_contribution count' (S i) hs
  end.

(** A holding agrees with the drawn returns and with the asset catalog. *)
Definition consistent
  (self : InvestmentSimulator) (asset_returns : dict_of (list Q)) (h : holding)
  : Prop :=
  lookup asset_returns (asset h) = Some (returns h)
  /\ exists class,
       lookup (asset_classes self) (asset h) = Some class
       /\ fallback h = power (1 + avg_return class) (1 / 12) - 1.

Lemma keys_values_of hs : keys (values_of hs) = map asset hs.
Proof. unfold keys, values_of. rewrite map_map. reflexivity. Qed.

Lemma keys_columns_of hs : keys (columns_of hs) = map asset hs.
Proof. unfold keys, columns_of. rewrite map_map. reflexivity. Qed.

Lemma lookup_values_of done h todo :
  ~ In (asset h) (map asset done) ->
  lookup (values_of (done ++ h :: todo)) (asset h) = Some (value h).
Proof.
  intros Hdone. unfold values_of. rewrite map_app. cbn [map].
  rewrite lookup_app_absent.
  - cbn [lookup]. rewrite String.eqb_refl. reflexivity.
  - fold (values_of done). rewrite keys_values_of. exact Hdone.
Qed.

Lemma lookup_columns_of done h todo :
  ~ In (asset h) (map asset done) ->
  lookup (columns_of (done ++ h :: todo)) (asset h) = Some (column h).
Proof.
  intros Hdone. unfold columns_of. rewrite map_app. cbn [map].
  rewrite lookup_app_absent.
  - cbn [lookup]. rewrite String.eqb_refl. reflexivity.
  - fold (columns_of done). rewrite keys_columns_of. exact Hdone.
Qed.

Lemma setitem_values_of done h h' todo :
  ~ In (asset h) (map asset done) ->
  asset h' = asset h ->
  setitem (values_of (done ++ h :: todo)) (asset h) (value h')
  = values_of (done ++ h' :: todo).
Proof.
  intros Hdone Hsame. unfold values_of. rewrite !map_app. cbn [map].
  rewrite setitem_app_absent.
  - rewrite Hsame. reflexivity.
  - fold (values_of done). rewrite keys_values_of. exact Hdone.
Qed.

Lemma setitem_columns_of done h h' todo :
  ~ In (asset h) (map asset done) ->
  asset h' = asset h ->
  setitem (columns_of (done ++ h :: todo)) (asset h) (column h')
  = columns_of (done ++ h' :: todo).
Proof.
  intros Hdone Hsame. unfold columns_of. rewrite !map_app. cbn [map].
  rewrite setitem_app_absent.
  - rewrite Hsame. reflexivity.
  - fold (columns_of done). rewrite keys_columns_of. exact Hdone.
Qed.

Lemma assets_loop_advance
  (self : InvestmentSimulator) (monthly_contribution : Q)
  (asset_returns : dict_of (list Q)) (i : nat) :
  forall (allocation : dict_of Q) (done todo : list holding),
    NoDup (keys allocation) ->
    active allocation = weights_of todo ->
    (forall k, In k (keys allocation) -> ~ In k (map asset done)) ->
    (forall h, In h todo -> consistent self asset_returns h) ->
    assets_loop self monthly_contribution asset_returns i allocation
      (values_of (done ++ todo)) (columns_of (done ++ todo))
    = Ok (values_of (done ++ map (advance monthly_contribution i) todo),
          columns_of (done ++ map (advance monthly_contribution i) todo)).
Proof.
  induction allocation as [| [a w] rest IH]; intros done todo Hnd Hact Hfresh Hret.
  - destruct todo; [reflexivity | discriminate].
  - cbn [assets_loop]. cbn in Hnd. inversion Hnd as [| ? ? Hnotin Hnd']; subst.
    unfold active in Hact. cbn [filter snd] in Hact.
    destruct (Qltb 0 w) eqn:E.
    + destruct todo as [| h todo]; [discriminate |].
      cbn in Hact. injection Hact as Ha Hw Hact. subst a w.
      destruct (Hret h (or_introl eq_refl)) as (Hlook & class & Hclass & Hfb).
      assert (Hdone : ~ In (asset h) (map asset done)).
      { apply Hfresh. left. reflexivity. }
      unfold getitem. rewrite Hlook. cbn [bind].
      assert (Hroi :
        (if (i <? List.length (returns h))%nat then Ok (nth i (returns h) 0)
         else class0 <- match lookup (asset_classes self) (asset h) with
                        | Some v => Ok v
                        | None => Raise (KeyError (asset h))
                        end ;;
              Ok (power (1 + avg_return class0) (1 / 12) - 1))
        = Ok (roi_at (returns h) (fallback h) i)).
      { unfold roi_at. destruct (i <? List.length (returns h))%nat; [reflexivity |].
        rewrite Hclass. cbn [bind]. rewrite Hfb. reflexivity. }
      rewrite Hroi. cbn [bind].
      rewrite (lookup_values_of done h todo Hdone). cbn [bind].
      rewrite (lookup_columns_of done h todo Hdone). cbn [bind].
      change (column h ++ [value h * (1 + roi_at (returns h) (fallback h) i)
                           + monthly_contribution * weight h])
        with (column (advance monthly_contribution i h)).
      change (value h * (1 + roi_at (returns h) (fallback h) i)
              + monthly_contribution * weight h)
        with (value (advance monthly_contribution i h)).
      rewrite (setitem_values_of done h (advance monthly_contribution i h) todo Hdone eq_refl).
      rewrite (setitem_columns_of done h (advance monthly_contribution i h) todo Hdone eq_refl).
      specialize (IH (done ++ [advance monthly_contribution i h]) todo Hnd' Hact).
      rewrite <- !app_assoc in IH. cbn [app] in IH. cbn [map].
      apply IH.
      * intros k Hk Hin. rewrite map_app in Hin. apply in_app_or in Hin.
        destruct Hin as [Hin | Hin].
        -- apply (Hfresh k); [right; exact Hk | exact Hin].
        -- cbn in Hin. destruct Hin as [Hin | []]. subst k. exact (Hnotin Hk).
      * intros h' Hh'. apply Hret. right. exact Hh'.
    + apply IH; try assumption.
      intros k Hk. apply Hfresh. right. exact Hk.
Qed.

Lemma weights_of_advance mc i hs :
  weights_of (map (advance mc i) hs) = weights_of hs.
Proof. unfold weights_of. rewrite map_map. reflexivity. Qed.

Lemma path_loop_holdings
  (self : InvestmentSimulator) (monthly_contribution : Q)
  (asset_returns : dict_of (list Q)) (allocation : dict_of Q) :
  NoDup (keys allocation) ->
  forall (count i : nat) (hs : list holding) (dates : list nat) (sums : list Q),
    active allocation = weights_of hs ->
    (forall h, In h hs -> consistent self asset_returns h) ->
    path_loop self monthly_contribution asset_returns allocation count i
      (values_of hs)
      {| date := dates; total_value := sums; asset_columns := columns_of hs |}
    = Ok {| date := dates ++ map (fun k => 30 * k)%nat (seq i count);
            total_value := sums ++ totals monthly_contribution count i hs;
            asset_columns :=
              columns_of (map (advance_n monthly_contribution count i) hs) |}.
Proof.
  intros Hnd. induction count as [| count IH]; intros i hs dates sums Hact Hret.
  - cbn. rewrite !app_nil_r, map_id. reflexivity.
  - cbn [path_loop asset_columns date total_value].
    assert (Hstep :
      assets_loop self monthly_contribution asset_returns i allocation
        (values_of hs) (columns_of hs)
      = Ok (values_of (map (advance monthly_contribution i) hs),
            columns_of (map (advance monthly_contribution i) hs))).
    { apply (assets_loop_advance self monthly_contribution asset_returns i
               allocation [] hs Hnd Hact).
      - intros k _ [].
      - exact Hret. }
    rewrite Hstep. cbn [bind fst snd].
    rewrite IH.
    + cbn [seq map totals advance_n]. rewrite <- !app_assoc. cbn [app].
      rewrite map_map. reflexivity.
    + rewrite weights_of_advance. exact Hact.
    + intros h Hh. apply in_map_iff in Hh. destruct Hh as (h0 & <- & Hh0).
      exact (Hret h0 Hh0).
Qed.

Lemma advance_n_fields mc : forall count i h,
  asset (advance_n mc count i h) = asset h
  /\ column (advance_n mc count i h)
     = column h
       ++ asset_path mc (weight h) (returns h) (fallback h) count i (value h).
Proof.
  induction count as [| count IH]; intros i h; cbn [advance_n asset_path].
  - rewrite app_nil_r. split; reflexivity.
  - destruct (IH (S i) (advance mc i h)) as (Ha & Hc).
    rewrite Ha, Hc. cbn [advance asset weight returns fallback column value].
    rewrite <- app_assoc. split; reflexivity.
Qed.

Lemma asset_path_length mc w r fb : forall count i v,
  List.length (asset_path mc w r fb count i v) = count.
Proof.
  induction count as [| count IH]; intros i v; cbn; [reflexivity |].
  rewrite IH. reflexivity.
Qed.

(** The recurrence of a column: each entry is the previous one (the starting
    value before month 0) grown by the month's return, plus the month's
    contribution. *)
Lemma asset_path_nth mc w r fb : forall count i v t,
  (t < count)%nat ->
  nth t (asset_path mc w r fb count i v) 0
  = match t with
    | O => v
    | S t' => nth t' (asset_path mc w r fb count i v) 0
    end * (1 + roi_at r fb (i + t)) + mc * w.
Proof.
  induction count as [| count IH]; intros i v t Ht; [lia |].
  cbn [asset_path]. destruct t as [| t].
  - cbn [nth]. rewrite Nat.add_0_r. reflexivity.
  - cbn [nth]. rewrite IH by lia.
    replace (S i + t)%nat with (i + S t)%nat by lia.
    destruct t; reflexivity.
Qed.

Lemma totals_length mc : forall count i hs,
  List.length (totals mc count i hs) = count.
Proof.
  induction count as [| count IH]; intros i hs; cbn; [reflexivity |].
  rewrite IH. reflexivity.
Qed.

Lemma totals_nth mc : forall count i hs t,
  (t < count)%nat ->
  nth t (totals mc count i hs) 0
  = sum_values
      (map (fun h =>
              nth t (asset_path mc (weight h) (returns h) (fallback h) count i
                       (value h)) 0)
           hs).
Proof.
  induction count as [| count IH]; intros i hs t Ht; [lia |].
  cbn [totals asset_path]. destruct t as [| t]; cbn [nth].
  - unfold values, values_of. rewrite !map_map. reflexivity.
  - rewrite IH by lia. rewrite map_map. reflexivity.
Qed.

(** ** The loops run before the months *)

Lemma initial_values_active (initial_investment : Q) :
  forall (allocation : dict_of Q) (acc : dict_of Q),
    NoDup (keys allocation) ->
    (forall k, In k (keys allocation) -> ~ In k (keys acc)) ->
    initial_values initial_investment allocation acc
    = acc ++ map (fun item => (fst item, initial_investment * snd item))
               (active allocation).
Proof.
  induction allocation as [| [a w] rest IH]; intros acc Hnd Hfresh.
  - cbn. rewrite app_nil_r. reflexivity.
  - cbn in Hnd. inversion Hnd as [| ? ? Hnotin Hnd']; subst.
    cbn [initial_values]. unfold active. cbn [filter snd].
    destruct (Qltb 0 w).
    + rewrite setitem_absent by (apply Hfresh; left; reflexivity).
      rewrite IH; [rewrite <- app_assoc; reflexivity | exact Hnd' |].
      intros k Hk Hin. unfold keys in Hin. rewrite map_app in Hin.
      apply in_app_or in Hin. destruct Hin as [Hin | [Hin | []]].
      * apply (Hfresh k); [right; exact Hk | exact Hin].
      * cbn in Hin. subst k. exact (Hnotin Hk).
    + apply IH; [exact Hnd' |]. intros k Hk. apply Hfresh. right. exact Hk.
Qed.

Lemma empty_columns_active :
  forall (allocation : dict_of Q) (acc : dict_of (list Q)),
    NoDup (keys allocation) ->
    (forall k, In k (keys allocation) -> ~ In k (keys acc)) ->
    empty_columns allocation acc
    = acc ++ map (fun item => (fst item, [])) (active allocation).
Proof.
  induction allocation as [| [a w] rest IH]; intros acc Hnd Hfresh.
  - cbn. rewrite app_nil_r. reflexivity.
  - cbn in Hnd. inversion Hnd as [| ? ? Hnotin Hnd']; subst.
    cbn [empty_columns]. unfold active. cbn [filter snd].
    destruct (Qltb 0 w).
    + rewrite setitem_absent by (apply Hfresh; left; reflexivity).
      rewrite IH; [rewrite <- app_assoc; reflexivity | exact Hnd' |].
      intros k Hk Hin. unfold keys in Hin. rewrite map_app in Hin.
      apply in_app_or in Hin. destruct Hin as [Hin | [Hin | []]].
      * apply (Hfresh k); [right; exact Hk | exact Hin].
      * cbn in Hin. subst k. exact (Hnotin Hk).
    + apply IH; [exact Hnd' |]. intros k Hk. apply Hfresh. right. exact Hk.
Qed.

(** Every series of [asset_returns] is a draw of [self.months] samples from
    the normal distribution with the monthly mean and deviation of its
    asset. *)
Definition drawn (self : InvestmentSimulator) (asset_returns : dict_of (list Q))
  : Prop :=
  forall a rs,
    lookup asset_returns a = Some rs ->
    exists class g0,
      lookup (asset_classes self) a = Some class
      /\ rs = fst (normal (power (1 + avg_return class) (1 / 12) - 1)
                          (volatility class / sqrt 12) (months self) g0).

Lemma generate_returns_drawn (self : InvestmentSimulator) :
  forall (allocation : dict_of Q) (acc : dict_of (list Q)) (g : G),
    (forall a, In a (keys (active allocation)) ->
       exists class, lookup (asset_classes self) a = Some class) ->
    drawn self acc ->
    exists asset_returns g',
      generate_returns self allocation acc g = Ok (asset_returns, g')
      /\ drawn self asset_returns
      /\ (forall a, lookup acc a <> None \/ In a (keys (active allocation)) ->
            lookup asset_returns a <> None).
Proof.
  induction allocation as [| [a w] rest IH]; intros acc g Hcat Hacc.
  - exists acc, g. split; [reflexivity |]. split; [exact Hacc |].
    intros k [Hk | []]. exact Hk.
  - cbn [generate_returns]. unfold active in *. cbn [filter snd] in *.
    destruct (Qltb 0 w) eqn:E.
    + destruct (Hcat a (or_introl eq_refl)) as (class & Hclass).
      unfold _generate_monthly_returns, getitem. rewrite Hclass. cbn [bind fst snd].
      set (draw := normal (power (1 + avg_return class) (1 / 12) - 1)
                          (volatility class / sqrt 12) (months self) g).
      destruct (IH (setitem acc a (fst draw)) (snd draw)) as (ar & g' & Hrun & Hdrawn & Hpres).
      * intros k Hk. apply Hcat. right. exact Hk.
      * intros k rs Hk. destruct (String.eqb a k) eqn:Eak.
        -- apply String.eqb_eq in Eak. subst k.
           rewrite lookup_setitem_same in Hk. injection Hk as <-.
           exists class, g. split; [exact Hclass | reflexivity].
        -- rewrite lookup_setitem_other in Hk by exact Eak. exact (Hacc k rs Hk).
      * exists ar, g'. split; [exact Hrun |]. split; [exact Hdrawn |].
        intros k Hk. apply Hpres. destruct (String.eqb a k) eqn:Eak.
        -- apply String.eqb_eq in Eak. subst k. left.
           rewrite lookup_setitem_same. discriminate.
        -- rewrite lookup_setitem_other by exact Eak.
           destruct Hk as [Hk | [Hk | Hk]].
           ++ left. exact Hk.
           ++ cbn in Hk. apply String.eqb_neq in Eak. contradiction.
           ++ right. exact Hk.
    + apply IH; assumption.
Qed.

(** The holdings at the start: nothing recorded yet, each asset at its share
    of the initial investment. *)
Definition initial_holdings
  (self : InvestmentSimulator) (allocation : dict_of Q) (initial_investment : Q)
  (asset_returns : dict_of (list Q)) : list holding :=
  map (fun item =>
         {| asset := fst item;
            weight := snd item;
            returns := get asset_returns (fst item) [];
            fallback :=
              match lookup (asset_classes self) (fst item) with
              | Some class => power (1 + avg_return class) (1 / 12) - 1
              | None => 0
              end;
            value := initial_investment * snd item;
            column := [] |})
      (active allocation).

Lemma NoDup_active (allocation : dict_of Q) :
  NoDup (keys allocation) -> NoDup (keys (active allocation)).
Proof.
  unfold keys, active.
  induction allocation as [| [a w] rest IH]; cbn; intros Hnd; [constructor |].
  inversion Hnd as [| ? ? Hnotin Hnd']; subst.
  destruct (Qltb 0 w); cbn; [constructor |]; auto.
  intros Hin. apply Hnotin. apply in_map_iff in Hin.
  destruct Hin as (x & Hx & Hin). apply filter_In in Hin.
  apply in_map_iff. exists x. tauto.
Qed.

Lemma simulate_with_returns_holdings
  (self : InvestmentSimulator) (allocation : dict_of Q)
  (monthly_contribution initial_investment : Q) (asset_returns : dict_of (list Q)) :
  NoDup (keys allocation) ->
  (forall a, In a (keys (active allocation)) ->
     lookup asset_returns a <> None
     /\ exists class, lookup (asset_classes self) a = Some class) ->
  let hs := initial_holdings self allocation initial_investment asset_returns in
  simulate_with_returns self allocation monthly_contribution initial_investment
    asset_returns
  = Ok {| date := map (fun k => 30 * k)%nat (seq 0 (months self));
          total_value := totals monthly_contribution (months self) 0 hs;
          asset_columns :=
            columns_of (map (advance_n monthly_contribution (months self) 0) hs) |}.
Proof.
  intros Hnd Hok hs. unfold simulate_with_returns.
  rewrite initial_values_active by (try exact Hnd; intros k _ []).
  rewrite empty_columns_active by (try exact Hnd; intros k _ []).
  cbn [app].
  assert (Hv : map (fun item => (fst item, initial_investment * snd item))
                 (active allocation) = values_of hs).
  { unfold hs, initial_holdings, values_of. rewrite map_map. reflexivity. }
  assert (Hc : map (fun item : string * Q => (fst item, @nil Q)) (active allocation)
               = columns_of hs).
  { unfold hs, initial_holdings, columns_of. rewrite map_map. reflexivity. }
  rewrite Hv, Hc.
  apply (path_loop_holdings self monthly_contribution asset_returns allocation Hnd
           (months self) 0 hs [] []).
  - unfold hs, initial_holdings, weights_of. rewrite map_map. cbn [asset weight].
    rewrite <- (map_id (active allocation)) at 1.
    apply map_ext. intros [a w]. reflexivity.
  - intros h Hh. unfold hs, initial_holdings in Hh. apply in_map_iff in Hh.
    destruct Hh as ([a w] & <- & Hin). cbn [fst snd].
    assert (Hkey : In a (keys (active allocation))).
    { unfold keys. apply in_map_iff. exists (a, w). split; [reflexivity | exact Hin]. }
    destruct (Hok a Hkey) as (Hpres & class & Hclass).
    unfold consistent. cbn [asset returns fallback]. split.
    + unfold get. destruct (lookup asset_returns a); [reflexivity | contradiction].
    + exists class. rewrite Hclass. split; reflexivity.
Qed.

Lemma lookup_columns_of_member (hs : list holding) (h : holding) :
  NoDup (map asset hs) -> In h hs ->
  lookup (columns_of hs) (asset h) = Some (column h).
Proof.
  intros Hnd Hin. apply in_split in Hin. destruct Hin as (l1 & l2 & ->).
  apply lookup_columns_of.
  rewrite map_app in Hnd. cbn [map] in Hnd.
  apply NoDup_remove_2 in Hnd. intros Hin. apply Hnd.
  apply in_or_app. left. exact Hin.
Qed.

(** The tables [__init__] builds: no allocation names an asset twice, and
    every asset named is in the catalog. *)
Lemma init_tables (profile : dict) (simulation_years : nat)
  (risk_profile : string) (allocation : dict_of Q) :
  lookup (risk_profiles (init profile simulation_years)) risk_profile
  = Some allocation ->
  NoDup (keys allocation)
  /\ forall a, In a (keys allocation) ->
       exists class,
         lookup (asset_classes (init profile simulation_years)) a = Some class.
Proof.
  cbn [init risk_profiles asset_classes lookup]. intros H.
  repeat match type of H with
  | (if ?c then _ else _) = _ => destruct c
  end;
  try discriminate H; injection H as <-; (split;
  [ cbn; repeat constructor; cbn; intuition discriminate
  | intros a Hin; cbn in Hin;
    repeat (destruct Hin as [<- | Hin]; [eexists; reflexivity |]);
    contradiction ]).
Qed.

(** The outcome of [simulate_investment_path] for a known risk profile. *)
Lemma simulate_investment_path_holdings
  (profile : dict) (simulation_years : nat) (risk_profile : string)
  (allocation : dict_of Q) (monthly_contribution initial_investment : Q) (g : G) :
  let self := init profile simulation_years in
  lookup (risk_profiles self) risk_profile = Some allocation ->
  exists asset_returns g',
    drawn self asset_returns
    /\ (forall a, In a (keys (active allocation)) -> lookup asset_returns a <> None)
    /\ simulate_investment_path self risk_profile monthly_contribution
         initial_investment g
       = Ok ({| date := map (fun k => 30 * k)%nat (seq 0 (months self));
                total_value :=
                  totals monthly_contribution (months self) 0
                    (initial_holdings self allocation initial_investment
                       asset_returns);
                asset_columns :=
                  columns_of
                    (map (advance_n monthly_contribution (months self) 0)
                       (initial_holdings self allocation initial_investment
                          asset_returns)) |}, g').
Proof.
  intros self Hrp.
  destruct (init_tables profile simulation_years risk_profile allocation Hrp)
    as (Hnd & Hcat).
  assert (Hcat' : forall a, In a (keys (active allocation)) ->
            exists class, lookup (asset_classes self) a = Some class).
  { intros a Ha. apply Hcat. unfold keys, active in *.
    apply in_map_iff in Ha. destruct Ha as (x & Hx & Hin).
    apply filter_In in Hin. apply in_map_iff. exists x. tauto. }
  destruct (generate_returns_drawn self allocation [] g Hcat')
    as (ar & g' & Hgen & Hdrawn & Hpres).
  { intros a rs Hk. discriminate Hk. }
  exists ar, g'. split; [exact Hdrawn |].
  split; [intros a Ha; apply Hpres; right; exact Ha |].
  unfold simulate_investment_path.
  rewrite (lookup_contains _ _ _ Hrp). cbn [negb].
  unfold getitem. fold self. rewrite Hrp. cbn [bind].
  rewrite Hgen. cbn [bind fst snd].
  rewrite simulate_with_returns_holdings.
  - reflexivity.
  - exact Hnd.
  - intros a Ha. split; [apply Hpres; right; exact Ha | apply Hcat', Ha].
Qed.

(** C7: in [simulate_investment_path], for each asset class with nonzero
    allocation weight the monthly returns are drawn from the normal
    distribution with mean (1 + annualReturn)^(1/12) - 1 and standard
    deviation annualVolatility / sqrt(12); and with r the series drawn for the
    asset, the recorded values satisfy
    value[t] = value[t-1] x (1 + r[t]) + monthlyContribution x weight, the value
    before month 0 being initialInvestment x weight, for every month t of the
    horizon. *)
Theorem monthly_returns_and_asset_recurrence
  (profile : dict) (simulation_years : nat) (risk_profile : string)
  (allocation : dict_of Q) (monthly_contribution initial_investment : Q) (g : G) :
  (forall loc scale size g0, List.length (fst (normal loc scale size g0)) = size) ->
  lookup (risk_profiles (init profile simulation_years)) risk_profile
  = Some allocation ->
  exists df g',
    simulate_investment_path (init profile simulation_years) risk_profile
      monthly_contribution initial_investment g = Ok (df, g')
    /\ keys (asset_columns df) = keys (active allocation)
    /\ forall a w,
         In (a, w) allocation -> 0 < w ->
         exists class g0 recorded,
           lookup (asset_classes (init profile simulation_years)) a = Some class
           /\ lookup (asset_columns df) a = Some recorded
           /\ List.length recorded = (simulation_years * 12)%nat
           /\ forall t, (t < simulation_years * 12)%nat ->
                nth t recorded 0
                = match t with
                  | O => initial_investment * w
                  | S t' => nth t' recorded 0
                  end
                  * (1 + nth t (fst (normal
                                       (power (1 + avg_return class) (1 / 12) - 1)
                                       (volatility class / sqrt 12)
                                       (simulation_years * 12) g0)) 0)
                  + monthly_contribution * w.
Proof.
  intros Hsize Hrp.
  destruct (simulate_investment_path_holdings profile simulation_years risk_profile
              allocation monthly_contribution initial_investment g Hrp)
    as (ar & g' & Hdrawn & Hpres & Hrun).
  destruct (init_tables profile simulation_years risk_profile allocation Hrp)
    as (Hnd & _).
  set (self := init profile simulation_years) in *.
  set (hs := initial_holdings self allocation initial_investment ar) in *.
  assert (Hassets : map asset (map (advance_n monthly_contribution (months self) 0) hs)
                    = keys (active allocation)).
  { rewrite map_map. unfold hs, initial_holdings. rewrite map_map.
    unfold keys. apply map_ext. intros item.
    apply (advance_n_fields monthly_contribution (months self) 0). }
  eexists. exists g'. split; [exact Hrun |]. cbn [asset_columns].
  split; [rewrite keys_columns_of; exact Hassets |].
  intros a w Hin Hw.
  assert (Hact : In (a, w) (active allocation)).
  { unfold active. apply filter_In. split; [exact Hin |]. apply Qltb_lt. exact Hw. }
  assert (Hkey : In a (keys (active allocation))).
  { unfold keys. apply in_map_iff. exists (a, w). split; [reflexivity | exact Hact]. }
  destruct (lookup ar a) as [rs |] eqn:Hrs; [| exfalso; exact (Hpres a Hkey Hrs)].
  destruct (Hdrawn a rs Hrs) as (class & g0 & Hclass & Hdraw).
  set (h0 := {| asset := a; weight := w; returns := rs;
                fallback := power (1 + avg_return class) (1 / 12) - 1;
                value := initial_investment * w; column := [] |}).
  assert (Hh0 : In h0 hs).
  { unfold hs, initial_holdings. apply in_map_iff. exists (a, w).
    split; [| exact Hact]. unfold h0, get. cbn [fst snd].
    rewrite Hrs. fold self. rewrite Hclass. reflexivity. }
  exists class, g0,
    (asset_path monthly_contribution w rs
       (power (1 + avg_return class) (1 / 12) - 1) (months self) 0
       (initial_investment * w)).
  split; [exact Hclass |]. split; [| split].
  - pose proof (lookup_columns_of_member
                  (map (advance_n monthly_contribution (months self) 0) hs)
                  (advance_n monthly_contribution (months self) 0 h0)) as Hcol.
    destruct (advance_n_fields monthly_contribution (months self) 0 h0) as (Ha & Hc).
    rewrite Ha, Hc in Hcol. cbn [h0 asset column weight returns fallback value app] in Hcol.
    apply Hcol.
    + rewrite Hassets. apply NoDup_active, Hnd.
    + apply in_map. exact Hh0.
  - apply asset_path_length.
  - intros t Ht. rewrite asset_path_nth by exact Ht. cbn [Nat.add].
    unfold roi_at.
    assert (Hlen : List.length rs = (simulation_years * 12)%nat).
    { rewrite Hdraw. apply Hsize. }
    rewrite Hlen. apply Nat.ltb_lt in Ht. rewrite Ht.
    change (months self) with (simulation_years * 12)%nat in Hdraw.
    rewrite <- Hdraw. reflexivity.
Qed.


(* ------------------------------------------------------------------ *)
(** ** Recognised profiles, money paid in and money held *)

Lemma known_profile_lookup (profile : dict) (simulation_years : nat)
  (risk_profile : string) :
  In risk_profile
     ["very_conservative"; "conservative"; "moderate"; "aggressive";
      "very_aggressive"] ->
  exists allocation,
    lookup (risk_profiles (init profile simulation_years)) risk_profile
    = Some allocation.
Proof.
  intros Hin. cbn in Hin.
  repeat (destruct Hin as [<- | Hin]; [eexists; reflexivity |]).
  contradiction.
Qed.

Lemma unknown_profile_absent (profile : dict) (simulation_years : nat)
  (risk_profile : string) :
  ~ In risk_profile
       ["very_conservative"; "conservative"; "moderate"; "aggressive";
        "very_aggressive"] ->
  contains (risk_profiles (init profile simulation_years)) risk_profile = false.
Proof.
  intros Hout. cbn [init risk_profiles contains].
  repeat match goal with
  | |- context [String.eqb ?name risk_profile] =>
      let E := fresh "E" in
      destruct (String.eqb name risk_profile) eqn:E;
      [apply String.eqb_eq in E; exfalso; apply Hout; rewrite <- E; cbn; tauto |]
  end.
  reflexivity.
Qed.

(** X22: [simulate_investment_path] accepts exactly the five profile names,
    spelled as in the table: for each of them the run returns, whatever the
    amounts and the draws, with one date every 30 days and one total for each
    month of the horizon; for any other name it raises [ValueError] with the
    name in the message, before anything is drawn. *)
Theorem risk_profile_names_accepted
  (profile : dict) (simulation_years : nat) (risk_profile : string)
  (monthly_contribution initial_investment : Q) (g : G) :
  let self := init profile simulation_years in
  let names := ["very_conservative"; "conservative"; "moderate"; "aggressive";
                "very_aggressive"] in
  (In risk_profile names ->
   exists df g',
     simulate_investment_path self risk_profile monthly_contribution
       initial_investment g = Ok (df, g')
     /\ date df = map (fun k => 30 * k)%nat (seq 0 (simulation_years * 12))
     /\ List.length (total_value df) = (simulation_years * 12)%nat)
  /\ (~ In risk_profile names ->
      simulate_investment_path self risk_profile monthly_contribution
        initial_investment g
      = Raise (ValueError
                 ("Risk profile '" ++ risk_profile ++ "' not recognized")%string)).
Proof.
  intros self names. split.
  - intros Hin.
    destruct (known_profile_lookup profile simulation_years risk_profile Hin)
      as (allocation & Hrp).
    destruct (simulate_investment_path_holdings profile simulation_years
                risk_profile allocation monthly_contribution initial_investment g
                Hrp) as (ar & g' & _ & _ & Hrun).
    eexists. exists g'. split; [exact Hrun |]. cbn [date total_value].
    split; [reflexivity |]. apply totals_length.
  - intros Hout. unfold simulate_investment_path.
    unfold self. rewrite (unknown_profile_absent _ _ _ Hout). reflexivity.
Qed.

(** A number of months as a rational. *)
Definition Qnat (n : nat) : Q := inject_Z (Z.of_nat n).

Lemma Qnat_S (n : nat) : Qnat (S n) == Qnat n + 1.
Proof.
  unfold Qnat. rewrite Nat2Z.inj_succ. unfold Z.succ.
  rewrite inject_Z_plus. reflexivity.
Qed.

Lemma fold_left_Qplus_acc (xs : list Q) :
  forall a, fold_left Qplus xs a == a + fold_left Qplus xs 0.
Proof.
  induction xs as [| x xs IH]; intros a; cbn [fold_left].
  - ring.
  - rewrite (IH (a + x)), (IH (0 + x)). ring.
Qed.

Lemma sum_values_cons (x : Q) (xs : list Q) :
  sum_values (x :: xs) == x + sum_values xs.
Proof.
  unfold sum_values. cbn [fold_left]. rewrite fold_left_Qplus_acc. ring.
Qed.

Lemma sum_values_map_le {A : Type} (f f' : A -> Q) (xs : list A) :
  (forall x, In x xs -> f x <= f' x) ->
  sum_values (map f xs) <= sum_values (map f' xs).
Proof.
  induction xs as [| x xs IH]; intros H; cbn [map].
  - apply Qle_refl.
  - rewrite !sum_values_cons.
    assert (Hx : f x <= f' x) by (apply H; left; reflexivity).
    assert (Hxs := IH (fun y Hy => H y (or_intror Hy))).
    lra.
Qed.

Lemma sum_values_map_eq {A : Type} (f f' : A -> Q) (xs : list A) :
  (forall x, In x xs -> f x == f' x) ->
  sum_values (map f xs) == sum_values (map f' xs).
Proof.
  induction xs as [| x xs IH]; intros H; cbn [map].
  - reflexivity.
  - rewrite !sum_values_cons.
    assert (Hx : f x == f' x) by (apply H; left; reflexivity).
    assert (Hxs := IH (fun y Hy => H y (or_intror Hy))).
    lra.
Qed.

Lemma sum_values_map_scale {A : Type} (c : Q) (w : A -> Q) (xs : list A) :
  sum_values (map (fun x => c * w x) xs) == c * sum_values (map w xs).
Proof.
  induction xs as [| x xs IH]; cbn [map].
  - unfold sum_values. cbn. ring.
  - rewrite !sum_values_cons, IH. ring.
Qed.

Lemma roi_at_drawn (P : Q -> Prop) (r : list Q) (fb : Q) (i : nat) :
  Forall P r -> (i < List.length r)%nat -> P (roi_at r fb i).
Proof.
  intros Hall Hi. unfold roi_at.
  apply Nat.ltb_lt in Hi as Hb. rewrite Hb.
  rewrite Forall_forall in Hall. apply Hall, nth_In, Hi.
Qed.

(** Without returns a column holds what was paid into it. *)
Lemma asset_path_no_returns mc w r fb :
  Forall (fun x => x == 0) r ->
  forall count i v t,
    (i + count <= List.length r)%nat -> (t < count)%nat ->
    nth t (asset_path mc w r fb count i v) 0 == v + Qnat (S t) * (mc * w).
Proof.
  intros Hall. induction count as [| count IH]; intros i v t Hlen Ht; [lia |].
  assert (Hroi : roi_at r fb i == 0)
    by (apply (roi_at_drawn (fun x => x == 0)); [exact Hall | lia]).
  cbn [asset_path]. destruct t as [| t]; cbn [nth].
  - rewrite Hroi. unfold Qnat. cbn. ring.
  - rewrite IH by lia. rewrite Hroi, (Qnat_S (S t)). ring.
Qed.

(** With returns that are never negative a column holds at least what was
    paid into it. *)
Lemma asset_path_gains mc w r fb :
  Forall (fun x => 0 <= x) r -> 0 <= mc * w ->
  forall count i v t,
    (i + count <= List.length r)%nat -> (t < count)%nat -> 0 <= v ->
    v + Qnat (S t) * (mc * w) <= nth t (asset_path mc w r fb count i v) 0.
Proof.
  intros Hall Hpaid.
  induction count as [| count IH]; intros i v t Hlen Ht Hv; [lia |].
  assert (Hroi : 0 <= roi_at r fb i)
    by (apply (roi_at_drawn (fun x => 0 <= x)); [exact Hall | lia]).
  assert (Hgain : 0 <= v * roi_at r fb i) by (apply Qmult_le_0_compat; assumption).
  cbn [asset_path]. destruct t as [| t]; cbn [nth].
  - assert (Hfirst : Qnat 1 == 1) by reflexivity. rewrite Hfirst.
    set (paid := mc * w) in *. set (roi := roi_at r fb i) in *.
    clearbody paid roi. lra.
  - eapply Qle_trans; [| apply IH; [lia | lia |]].
    + rewrite (Qnat_S (S t)).
      set (paid := mc * w) in *. set (roi := roi_at r fb i) in *.
      set (n := Qnat (S t)). clearbody paid roi n. lra.
    + set (paid := mc * w) in *. set (roi := roi_at r fb i) in *.
      clearbody paid roi. lra.
Qed.

(** The weights of every allocation that [__init__] builds add up to one. *)
Lemma allocation_weights (profile : dict) (simulation_years : nat)
  (risk_profile : string) (allocation : dict_of Q) :
  lookup (risk_profiles (init profile simulation_years)) risk_profile
  = Some allocation ->
  sum_values (values (active allocation)) == 1.
Proof.
  cbn [init risk_profiles lookup]. intros H.
  repeat match type of H with
  | (if ?c then _ else _) = _ => destruct c
  end;
  try discriminate H; injection H as <-; vm_compute; reflexivity.
Qed.

(** X23: for each of the five profiles the weights of the assets held add up
    to one, so the money is neither lost nor made by the split: with draws of
    [self.months] returns that are all zero the total value after month t is
    the initial investment plus t + 1 contributions; and with draws that are
    never negative, a nonnegative initial investment and a nonnegative
    contribution, the total is at least that. *)
Theorem total_value_and_money_paid_in
  (profile : dict) (simulation_years : nat) (risk_profile : string)
  (monthly_contribution initial_investment : Q) (g : G) :
  (forall loc scale size g0, List.length (fst (normal loc scale size g0)) = size) ->
  In risk_profile
     ["very_conservative"; "conservative"; "moderate"; "aggressive";
      "very_aggressive"] ->
  exists df g',
    simulate_investment_path (init profile simulation_years) risk_profile
      monthly_contribution initial_investment g = Ok (df, g')
    /\ ((forall loc scale size g0,
           Forall (fun r => r == 0) (fst (normal loc scale size g0))) ->
        forall t, (t < simulation_years * 12)%nat ->
          nth t (total_value df) 0
          == initial_investment + Qnat (S t) * monthly_contribution)
    /\ ((forall loc scale size g0,
           Forall (fun r => 0 <= r) (fst (normal loc scale size g0))) ->
        0 <= initial_investment -> 0 <= monthly_contribution ->
        forall t, (t < simulation_years * 12)%nat ->
          initial_investment + Qnat (S t) * monthly_contribution
          <= nth t (total_value df) 0).
Proof.
  intros Hsize Hin.
  destruct (known_profile_lookup profile simulation_years risk_profile Hin)
    as (allocation & Hrp).
  destruct (simulate_investment_path_holdings profile simulation_years risk_profile
              allocation monthly_contribution initial_investment g Hrp)
    as (ar & g' & Hdrawn & Hpres & Hrun).
  pose proof (allocation_weights profile simulation_years risk_profile allocation Hrp)
    as Hone.
  set (self := init profile simulation_years) in *.
  eexists. exists g'. split; [exact Hrun |]. cbn [total_value].
  assert (Hseries : forall item, In item (active allocation) ->
            exists class g0,
              get ar (fst item) []
              = fst (normal (power (1 + avg_return class) (1 / 12) - 1)
                            (volatility class / sqrt 12) (months self) g0)).
  { intros [a w] Hitem. cbn [fst].
    assert (Hkey : In a (keys (active allocation))).
    { unfold keys. apply in_map_iff. exists (a, w). split; [reflexivity | exact Hitem]. }
    unfold get. destruct (lookup ar a) as [rs |] eqn:Hrs;
      [| exfalso; exact (Hpres a Hkey Hrs)].
    destruct (Hdrawn a rs Hrs) as (class & g0 & _ & Hdraw).
    exists class, g0. exact Hdraw. }
  assert (Hweight : forall item, In item (active allocation) -> 0 <= snd item).
  { intros item Hitem. unfold active in Hitem. apply filter_In in Hitem.
    apply Qlt_le_weak, Qltb_lt, Hitem. }
  assert (Hshare : forall t,
            sum_values
              (map (fun item : string * Q =>
                      (initial_investment + Qnat (S t) * monthly_contribution)
                      * snd item)
                   (active allocation))
            == initial_investment + Qnat (S t) * monthly_contribution).
  { intros t. rewrite sum_values_map_scale. fold (values (active allocation)).
    rewrite Hone. ring. }
  split.
  - intros Hzero t Ht. rewrite totals_nth by exact Ht.
    unfold initial_holdings. rewrite map_map.
    cbn [weight returns fallback value].
    eapply Qeq_trans; [| apply (Hshare t)].
    apply sum_values_map_eq. intros item Hitem.
    destruct (Hseries item Hitem) as (class & g0 & ->).
    rewrite asset_path_no_returns.
    + ring.
    + apply Hzero.
    + rewrite Hsize. lia.
    + exact Ht.
  - intros Hgain Hinitial Hmonthly t Ht. rewrite totals_nth by exact Ht.
    unfold initial_holdings. rewrite map_map.
    cbn [weight returns fallback value].
    eapply Qle_trans; [apply Qle_lteq; right; apply Qeq_sym, (Hshare t) |].
    apply sum_values_map_le. intros item Hitem.
    destruct (Hseries item Hitem) as (class & g0 & ->).
    pose proof (Hweight item Hitem) as Hw.
    eapply Qle_trans; [| apply asset_path_gains].
    + apply Qle_lteq. right. ring.
    + apply Hgain.
    + apply Qmult_le_0_compat; assumption.
    + rewrite Hsize. lia.
    + exact Ht.
    + apply Qmult_le_0_compat; assumption.
Qed.

End Simulation.

(** ** A run with stand-ins for the runtime *)

(** Stand-ins for what the runtime supplies: a first-order power, a fixed
    root of 12 and a generator that returns its mean [size] times. *)
Definition linear_power (x y : Q) : Q := 1 + (x - 1) * y.
Definition rough_sqrt (x : Q) : Q := x * (35 # 120).
Definition repeat_mean (loc scale : Q) (size : nat) (g : nat) : list Q * nat :=
  (repeat loc size, S g).

Definition moderate_allocation : dict_of Q :=
  [ ("savings_account", 20 # 100); ("bonds", 30 # 100);
    ("index_funds", 40 # 100); ("stocks", 10 # 100); ("crypto", 0) ].

Lemma monthly_returns_and_asset_recurrence_witness :
  (forall loc scale size g0,
     List.length (fst (repeat_mean loc scale size g0)) = size)
  /\ lookup (risk_profiles (init [] 1)) "moderate" = Some moderate_allocation
  /\ exists df g',
       simulate_investment_path linear_power rough_sqrt nat repeat_mean
         (init [] 1) "moderate" 500 10000 0%nat = Ok (df, g')
       /\ keys (asset_columns df)
          = ["savings_account"; "bonds"; "index_funds"; "stocks"].
Proof.
  assert (Hsize : forall loc scale size g0,
            List.length (fst (repeat_mean loc scale size g0)) = size).
  { intros loc scale size g0. apply repeat_length. }
  assert (Hrp : lookup (risk_profiles (init [] 1)) "moderate"
                = Some moderate_allocation) by reflexivity.
  split; [exact Hsize |]. split; [exact Hrp |].
  destruct (monthly_returns_and_asset_recurrence linear_power rough_sqrt nat
              repeat_mean [] 1 "moderate" moderate_allocation 500 10000 0%nat
              Hsize Hrp) as (df & g' & Hrun & Hkeys & _).
  exists df, g'. split; [exact Hrun | exact Hkeys].
Defined.


(** A generator whose draws are all zero. *)
Definition no_return (loc scale : Q) (size : nat) (g : nat) : list Q * nat :=
  (repeat 0 size, S g).

Lemma risk_profile_names_accepted_witness :
  In "moderate"
     ["very_conservative"; "conservative"; "moderate"; "aggressive";
      "very_aggressive"]
  /\ ~ In "Moderate"
         ["very_conservative"; "conservative"; "moderate"; "aggressive";
          "very_aggressive"]
  /\ (exists df g',
        simulate_investment_path linear_power rough_sqrt nat repeat_mean
          (init [] 1) "moderate" 500 10000 0%nat = Ok (df, g')
        /\ List.length (total_value df) = 12%nat)
  /\ simulate_investment_path linear_power rough_sqrt nat repeat_mean
       (init [] 1) "Moderate" 500 10000 0%nat
     = Raise (ValueError "Risk profile 'Moderate' not recognized").
Proof.
  assert (H1 : In "moderate"
                 ["very_conservative"; "conservative"; "moderate"; "aggressive";
                  "very_aggressive"]) by (cbn; tauto).
  assert (H2 : ~ In "Moderate"
                   ["very_conservative"; "conservative"; "moderate"; "aggressive";
                    "very_aggressive"]) by (cbn; intuition discriminate).
  split; [exact H1 |]. split; [exact H2 |]. split.
  - destruct (proj1 (risk_profile_names_accepted linear_power rough_sqrt nat
                       repeat_mean [] 1 "moderate" 500 10000 0%nat) H1)
      as (df & g' & Hrun & _ & Hlen).
    exists df, g'. split; [exact Hrun | exact Hlen].
  - exact (proj2 (risk_profile_names_accepted linear_power rough_sqrt nat
                    repeat_mean [] 1 "Moderate" 500 10000 0%nat) H2).
Defined.

Lemma total_value_and_money_paid_in_witness :
  (forall loc scale size g0,
     List.length (fst (no_return loc scale size g0)) = size)
  /\ (forall loc scale size g0,
        Forall (fun r => r == 0) (fst (no_return loc scale size g0)))
  /\ exists df g',
       simulate_investment_path linear_power rough_sqrt nat no_return
         (init [] 1) "aggressive" 500 10000 0%nat = Ok (df, g')
       /\ nth 11 (total_value df) 0 == 16000.
Proof.
  assert (Hsize : forall loc scale size g0,
            List.length (fst (no_return loc scale size g0)) = size).
  { intros loc scale size g0. apply repeat_length. }
  assert (Hzero : forall loc scale size g0,
            Forall (fun r => r == 0) (fst (no_return loc scale size g0))).
  { intros loc scale size g0. cbn [no_return fst]. apply Forall_forall.
    intros x Hx. apply repeat_spec in Hx. subst x. reflexivity. }
  assert (Hin : In "aggressive"
                  ["very_conservative"; "conservative"; "moderate"; "aggressive";
                   "very_aggressive"]) by (cbn; tauto).
  split; [exact Hsize |]. split; [exact Hzero |].
  destruct (total_value_and_money_paid_in linear_power rough_sqrt nat no_return
              [] 1 "aggressive" 500 10000 0%nat Hsize Hin)
    as (df & g' & Hrun & Hflat & _).
  exists df, g'. split; [exact Hrun |].
  rewrite (Hflat Hzero 11%nat) by lia. reflexivity.
Defined.

End Invest.
